(** * Task-Management-Dashboard: the REST back end and its client

    A shallow embedding of [backend/routes/tasks.js], [backend/models/Task.js],
    [backend/middleware/auth.js] and [backend/routes/profile.js], and of the
    parts of the client that talk to them: [validate] of [TaskForm.jsx] and
    the filters, [fetchTasks] and [handleDeleteTask] of the dashboard.

    Conventions.
    - Text is a [string] that holds the bytes of the text in UTF-8, the form
      in which the request carries it and MongoDB stores and compares it.
      What JavaScript sees in UTF-16 is computed from the bytes: the white
      space that [trim] removes is every character of the class [\s],
      [Text.length] is the number of UTF-16 code units and [Validator.len]
      the number that validator.js [isLength] compares.  A string that is
      not well-formed UTF-8 stands for no text.  Letter case is ASCII case:
      the caseless match of [$regex] is modelled for the letters A to Z.
    - A request field (query parameter, body member) is an [option string]:
      [None] is JavaScript's [undefined].
    - Handlers are state passing: they take the collections and return the
      response together with the collections afterwards.
    - Functions of the libraries the code calls whose definition is a large
      table or cryptography (validator.js [isISO8601], [isEmail],
      [normalizeEmail], the cast to [Date], the JWS decoding and MAC check)
      are the fields of a record [Library] that the handlers take. *)

From Stdlib Require Import String Ascii List ZArith NArith Bool Arith Lia.
From Stdlib Require Import Sorting.Sorted Sorting.Permutation.
From Stdlib Require Structures.OrderedTypeEx.
Import ListNotations.
Open Scope string_scope.
Open Scope list_scope.

(** ** JavaScript string primitives used by the code *)
Module Text.

(** A byte of the form 10xxxxxx: it continues the character that a byte
    before it began. *)
Definition isContinuation (c : ascii) : bool :=
  let n := nat_of_ascii c in (128 <=? n)%nat && (n <=? 191)%nat.

(** The class [\s] of JavaScript, which is also the white space and the
    line terminators that [String.prototype.trim] removes, by the number of
    bytes of the character.  One byte: TAB, LF, VT, FF, CR and space. *)
Definition isSpace (c : ascii) : bool :=
  let n := nat_of_ascii c in
  (n =? 32)%nat || ((9 <=? n)%nat && (n <=? 13)%nat).

(** Two bytes: U+00A0 (C2 A0). *)
Definition isSpace2 (c1 c2 : ascii) : bool :=
  (nat_of_ascii c1 =? 194)%nat && (nat_of_ascii c2 =? 160)%nat.

(** Three bytes: U+1680 (E1 9A 80), U+2000 to U+200A (E2 80 80 to 8A),
    U+2028, U+2029 and U+202F (E2 80 A8, A9 and AF), U+205F (E2 81 9F),
    U+3000 (E3 80 80) and U+FEFF (EF BB BF). *)
Definition isSpace3 (c1 c2 c3 : ascii) : bool :=
  let a := nat_of_ascii c1 in
  let b := nat_of_ascii c2 in
  let c := nat_of_ascii c3 in
  ((a =? 225) && (b =? 154) && (c =? 128)
   || (a =? 226) && (b =? 128)
      && ((128 <=? c) && (c <=? 138) || (c =? 168) || (c =? 169) || (c =? 175))
   || (a =? 226) && (b =? 129) && (c =? 159)
   || (a =? 227) && (b =? 128) && (c =? 128)
   || (a =? 239) && (b =? 187) && (c =? 191))%nat.

(** validator.js [ltrim] without [chars], [str.replace(/^\s+/g, '')]: the
    text from its first character that is not white space. *)
Fixpoint ltrim (s : string) : string :=
  match s with
  | String c1 s1 =>
      if isSpace c1 then ltrim s1
      else
        match s1 with
        | String c2 s2 =>
            if isSpace2 c1 c2 then ltrim s2
            else
              match s2 with
              | String c3 s3 => if isSpace3 c1 c2 c3 then ltrim s3 else s
              | EmptyString => s
              end
        | EmptyString => s
        end
  | EmptyString => EmptyString
  end.

(** The text is white space from end to end. *)
Definition blank (s : string) : bool := ltrim s =? "".

(** validator.js [rtrim] without [chars], which steps back from the end
    while the character is white space: the text up to its last character
    that is not white space. *)
Fixpoint rtrim (s : string) : string :=
  match s with
  | EmptyString => EmptyString
  | String c s' => if blank s then EmptyString else String c (rtrim s')
  end.

(** [String.prototype.trim], and validator.js [trim] without [chars]. *)
Definition trim (s : string) : string := rtrim (ltrim s).

(** The UTF-16 code units of the character that the byte begins: none for
    a byte that continues a character, two for the first byte of a
    character beyond U+FFFF (four bytes, the first from F0 on), one
    otherwise. *)
Definition units (c : ascii) : nat :=
  if isContinuation c then 0
  else if (240 <=? nat_of_ascii c)%nat then 2 else 1.

(** [s.length]: the number of UTF-16 code units. *)
Fixpoint length (s : string) : nat :=
  match s with
  | EmptyString => 0
  | String c s' => units c + length s'
  end.

(** [s.startsWith(p)] *)
Definition startsWith (s p : string) : bool := String.prefix p s.

(** [s.split(sep)] for a one-character separator. *)
Fixpoint split (sep : ascii) (s : string) : list string :=
  match s with
  | EmptyString => [EmptyString]
  | String c s' =>
      if Ascii.eqb c sep then EmptyString :: split sep s'
      else match split sep s' with
           | h :: t => String c h :: t
           | [] => [String c EmptyString]
           end
  end.

Definition isUpper (c : ascii) : bool :=
  let n := nat_of_ascii c in (65 <=? n)%nat && (n <=? 90)%nat.

Definition lowerChar (c : ascii) : ascii :=
  if isUpper c then ascii_of_nat (nat_of_ascii c + 32) else c.


(** JavaScript truthiness of a field that is [undefined] or a string. *)
Definition truthy (v : option string) : bool :=
  match v with
  | None => false
  | Some s => negb (s =? "")
  end.

(** [toString] of express-validator: [undefined] becomes the empty string. *)
Definition toString (v : option string) : string :=
  match v with
  | None => ""
  | Some s => s
  end.

Definition isIn (vs : list string) (s : string) : bool :=
  existsb (String.eqb s) vs.

End Text.

(** ** express-validator chains *)
Module Validator.

Record FieldError := { path : string; msg : string }.

(** One link of a validation chain.  [Optional] stops the chain on an
    [undefined] field (the default of [.optional()]: an empty string, being
    defined, goes on); a sanitizer rewrites the field; a validator that
    rejects the field records its message and the chain goes on. *)
Inductive Link :=
| Optional
| Sanitize (f : string -> string)
| Validate (ok : string -> bool) (message : string).

Definition trim : Link := Sanitize Text.trim.
Definition notEmpty (m : string) : Link :=
  Validate (fun s => negb (s =? "")) m.

(** The matches of [/[\uD800-\uDBFF][\uDC00-\uDFFF]/g]: the characters
    beyond U+FFFF. *)
Fixpoint surrogatePairs (s : string) : nat :=
  match s with
  | EmptyString => 0
  | String c s' =>
      (if (240 <=? nat_of_ascii c)%nat then 1 else 0) + surrogatePairs s'
  end.

(** U+FE0E (EF B8 8E) or U+FE0F (EF B8 8F), the variation selectors. *)
Definition isSelector (c1 c2 c3 : ascii) : bool :=
  let c := nat_of_ascii c3 in
  ((nat_of_ascii c1 =? 239) && (nat_of_ascii c2 =? 184)
   && ((c =? 142) || (c =? 143)))%nat.

(** The matches of [/(\uFE0F|\uFE0E)/g]. *)
Fixpoint presentationSequences (s : string) : nat :=
  match s with
  | EmptyString => 0
  | String c1 s1 =>
      match s1 with
      | String c2 (String c3 _) => if isSelector c1 c2 c3 then 1 else 0
      | _ => 0
      end
      + presentationSequences s1
  end.

(** The length that validator.js [isLength] compares:
    [str.length - presentationSequences.length - surrogatePairs.length]. *)
Definition len (s : string) : nat :=
  Text.length s - presentationSequences s - surrogatePairs s.

Definition isLengthMax (max : nat) (m : string) : Link :=
  Validate (fun s => (len s <=? max)%nat) m.
Definition isIn (vs : list string) (m : string) : Link :=
  Validate (Text.isIn vs) m.

(** The message of a validator without [.withMessage]. *)
Definition invalidValue : string := "Invalid value".

(** Runs a chain on a field: the field as the sanitizers leave it in the
    request, and the errors in the order of the links. *)
Fixpoint run (p : string) (chain : list Link) (v : option string)
  : option string * list FieldError :=
  match chain with
  | [] => (v, [])
  | Optional :: rest =>
      match v with
      | None => (None, [])
      | Some _ => run p rest v
      end
  | Sanitize f :: rest => run p rest (Some (f (Text.toString v)))
  | Validate ok m :: rest =>
      let '(v', es) := run p rest v in
      (v', if ok (Text.toString v) then es
           else {| path := p; msg := m |} :: es)
  end.

End Validator.

(** ** The document store: identifiers, regular expressions, ordering *)
Module Mongo.

(** An ObjectId is a 96-bit number, written as 24 hexadecimal digits. *)
Definition ObjectId := N.

Definition hexDigit (c : ascii) : option N :=
  let n := N_of_ascii c in
  if ((48 <=? n) && (n <=? 57))%N then Some (n - 48)%N
  else if ((97 <=? n) && (n <=? 102))%N then Some (n - 87)%N
  else if ((65 <=? n) && (n <=? 70))%N then Some (n - 55)%N
  else None.

Fixpoint hexValue (acc : N) (s : string) : option N :=
  match s with
  | EmptyString => Some acc
  | String c s' =>
      match hexDigit c with
      | Some d => hexValue (16 * acc + d)%N s'
      | None => None
      end
  end.

(** Mongoose's cast of a string to an ObjectId; [None] is a [CastError].
    The 24 characters are hexadecimal digits, one byte each, so counting
    bytes and counting code units come to the same. *)
Definition castObjectId (s : string) : option ObjectId :=
  if (String.length s =? 24)%nat then hexValue 0%N s else None.

(** *** [$regex] with option [i]

    The fragment of the pattern language that is modelled: an ordinary
    character stands for itself, [.] for any character but a line feed, and
    a backslash before a character that is neither a letter nor a digit for
    that character.  A literal is matched byte by byte; [.] takes a whole
    character. *)
Inductive Atom :=
| Lit (c : ascii)
| AnyChar.

Inductive Compiled :=
| Pattern (atoms : list Atom)
| BadPattern     (* the pattern does not compile: the query fails *)
| Beyond.        (* syntax outside the modelled fragment *)

Definition isAlnum (c : ascii) : bool :=
  let n := nat_of_ascii c in
  ((48 <=? n) && (n <=? 57) || (65 <=? n) && (n <=? 90)
   || (97 <=? n) && (n <=? 122))%nat.

(** The characters with a meaning of their own in a pattern. *)
Definition isMeta (c : ascii) : bool :=
  existsb (Ascii.eqb c)
    ["\"; "^"; "$"; "."; "["; "]"; "|"; "("; ")"; "?"; "*"; "+"; "{"; "}"]%char.

Fixpoint compile (p : string) : Compiled :=
  match p with
  | EmptyString => Pattern []
  | String c p' =>
      if Ascii.eqb c "\"%char then
        match p' with
        | EmptyString => BadPattern
        | String e p'' =>
            if isAlnum e then Beyond
            else match compile p'' with
                 | Pattern atoms => Pattern (Lit e :: atoms)
                 | r => r
                 end
        end
      else if Ascii.eqb c "."%char then
        match compile p' with
        | Pattern atoms => Pattern (AnyChar :: atoms)
        | r => r
        end
      else if isMeta c then Beyond
      else match compile p' with
           | Pattern atoms => Pattern (Lit c :: atoms)
           | r => r
           end
  end.

Definition lineFeed : ascii := ascii_of_nat 10.

(** Caseless match of one atom against the byte at the head of the
    subject; [.] matches where a character begins. *)
Definition atomMatches (a : Atom) (c : ascii) : bool :=
  match a with
  | Lit l => Ascii.eqb (Text.lowerChar l) (Text.lowerChar c)
  | AnyChar => negb (Ascii.eqb c lineFeed) && negb (Text.isContinuation c)
  end.

Fixpoint skipContinuation (s : string) : string :=
  match s with
  | EmptyString => EmptyString
  | String c s' => if Text.isContinuation c then skipContinuation s' else s
  end.

(** What follows the byte that the atom has matched: [.] takes the bytes
    that continue the character as well. *)
Definition after (a : Atom) (s : string) : string :=
  match a with
  | Lit _ => s
  | AnyChar => skipContinuation s
  end.

(** The pattern matches a prefix of the subject. *)
Fixpoint matchHere (atoms : list Atom) (s : string) {struct atoms} : bool :=
  match atoms, s with
  | [], _ => true
  | _ :: _, EmptyString => false
  | a :: atoms', String c s' =>
      atomMatches a c && matchHere atoms' (after a s')
  end.

(** The pattern matches somewhere in the subject (it is not anchored). *)
Fixpoint search (atoms : list Atom) (s : string) : bool :=
  matchHere atoms s
  || match s with
     | EmptyString => false
     | String _ s' => search atoms s'
     end.

(** [{ field: { $regex: p, $options: 'i' } }] on a field that may be absent. *)
Definition regexField (atoms : list Atom) (v : option string) : bool :=
  match v with
  | None => false
  | Some s => search atoms s
  end.

End Mongo.

(** ** The collections *)

(** [models/Task.js].  The schema's strings stay strings: [status] and
    [priority] are kept as text, restricted by [enum] validators.  Dates are
    milliseconds since the epoch; [dueDate] is [None] for [null]. *)
Module Task.

Record doc := {
  _id : Mongo.ObjectId;
  title : string;
  description : option string;
  status : string;
  priority : string;
  dueDate : option Z;
  user : Mongo.ObjectId;
  createdAt : Z;
  updatedAt : Z
}.

Definition statuses : list string := ["todo"; "in-progress"; "completed"].
Definition priorities : list string := ["low"; "medium"; "high"].

(** The schema's validators: [required], [maxlength] (which compares
    [v.length]), [enum]. *)
Definition valid (t : doc) : bool :=
  negb (title t =? "")
  && (Text.length (title t) <=? 200)%nat
  && match description t with
     | None => true
     | Some d => (Text.length d <=? 1000)%nat
     end
  && Text.isIn statuses (status t)
  && Text.isIn priorities (priority t).

End Task.

(** Modelled from the spec: [models/User.js] is not among the sources.  A user
    has an identifier, a name, an email, a hashed password that is never
    returned ([None] once [select('-password')] has dropped it), an optional
    avatar and the two timestamps. *)
Module User.

Record doc := {
  _id : Mongo.ObjectId;
  name : string;
  email : string;
  password : option string;
  avatar : option string;
  createdAt : Z;
  updatedAt : Z
}.

Definition withoutPassword (u : doc) : doc :=
  {| _id := _id u; name := name u; email := email u; password := None;
     avatar := avatar u; createdAt := createdAt u; updatedAt := updatedAt u |}.

End User.

Record Store := {
  users : list User.doc;
  tasks : list Task.doc
}.

Definition withTasks (db : Store) (ts : list Task.doc) : Store :=
  {| users := users db; tasks := ts |}.

Definition withUsers (db : Store) (us : list User.doc) : Store :=
  {| users := us; tasks := tasks db |}.

(** ** Responses *)

(** The user object of the profile responses; [PUT] leaves [createdAt] out. *)
Record PublicUser := {
  pu_id : Mongo.ObjectId;
  pu_name : string;
  pu_email : string;
  pu_avatar : option string;
  pu_createdAt : option Z;
  pu_updatedAt : Z
}.

Inductive Json :=
| Message (message : string)
| ValidationFailed (errors : list Validator.FieldError)
| TaskList (count : nat) (found : list Task.doc)
| OneTask (task : Task.doc)
| TaskChanged (message : string) (task : option Task.doc)
| Profile (message : option string) (user : PublicUser)
| ServerError.

Record Response := { statusCode : nat; json : Json }.

Definition respond (code : nat) (j : Json) : Response :=
  {| statusCode := code; json := j |}.

(** What the clock, the identifier generator and the process environment
    ([process.env.JWT_SECRET]) give to one request. *)
Record Env := {
  now : Z;
  newId : Mongo.ObjectId;
  JWT_SECRET : option string
}.

(** ** Queries on a collection *)
Module Query.

Section Generic.
Context {A : Type}.

(** [findOne]: the first document that matches, in collection order. *)
Definition findOne (p : A -> bool) (l : list A) : option A := find p l.

(** [findOneAndUpdate]: rewrites the first document that matches. *)
Fixpoint updateFirst (p : A -> bool) (f : A -> A) (l : list A) : list A :=
  match l with
  | [] => []
  | x :: l' => if p x then f x :: l' else x :: updateFirst p f l'
  end.

(** [findOneAndDelete]: removes the first document that matches. *)
Fixpoint deleteFirst (p : A -> bool) (l : list A) : list A :=
  match l with
  | [] => []
  | x :: l' => if p x then l' else x :: deleteFirst p l'
  end.

(** [.sort].  MongoDB leaves the order of documents with equal sort keys
    open; the insertion sort is one of the orders it may give, the one that
    leaves ties in collection order.  The properties of the order are
    stated for every list that is sorted on the key, and [mayAnswer] is the
    set of lists a query may give. *)
Fixpoint insert (le : A -> A -> bool) (x : A) (l : list A) : list A :=
  match l with
  | [] => [x]
  | y :: l' => if le x y then x :: l else y :: insert le x l'
  end.

Fixpoint sort (le : A -> A -> bool) (l : list A) : list A :=
  match l with
  | [] => []
  | x :: l' => insert le x (sort le l')
  end.
End Generic.

Definition notGt (c : comparison) : bool :=
  match c with
  | Gt => false
  | _ => true
  end.

(** BSON order of a date field that may be [null]: [null] comes first. *)
Definition compareNullable (a b : option Z) : comparison :=
  match a, b with
  | None, None => Eq
  | None, Some _ => Lt
  | Some _, None => Gt
  | Some x, Some y => Z.compare x y
  end.

(** The order of two tasks on the field named [field]; strings compare
    character by character (the simple binary collation). *)
Definition compareBy (field : string) (a b : Task.doc) : comparison :=
  if field =? "createdAt" then Z.compare (Task.createdAt a) (Task.createdAt b)
  else if field =? "dueDate"
  then compareNullable (Task.dueDate a) (Task.dueDate b)
  else if field =? "priority"
  then String.compare (Task.priority a) (Task.priority b)
  else if field =? "title" then String.compare (Task.title a) (Task.title b)
  else Eq.

(** [{ field: 1 }] sorts upwards, [{ field: -1 }] downwards. *)
Definition ordered (field : string) (direction : Z) (a b : Task.doc) : bool :=
  if (direction =? 1)%Z then notGt (compareBy field a b)
  else notGt (compareBy field b a).

End Query.

(** ** Requests *)

(** [req.query] of [GET /api/tasks]. *)
Record ListQuery := {
  q_status : option string;
  q_priority : option string;
  q_search : option string;
  q_sortBy : option string;
  q_sortOrder : option string
}.

(** [req.body] of [POST /api/tasks] and [PUT /api/tasks/:id]: the members the
    schema knows (the others are dropped by the schema's strict mode). *)
Record TaskBody := {
  b_title : option string;
  b_description : option string;
  b_status : option string;
  b_priority : option string;
  b_dueDate : option string;
  b_user : option string
}.

(** [req.body] of [PUT /api/profile]. *)
Record ProfileBody := {
  b_name : option string;
  b_email : option string;
  b_avatar : option string
}.

Inductive Route :=
| GetProfile
| PutProfile (body : ProfileBody)
| ListTasks (query : ListQuery)
| GetTask (id : string)
| PostTask (body : TaskBody)
| PutTask (id : string) (body : TaskBody)
| DeleteTask (id : string).

Record Request := {
  authorization : option string;
  route : Route
}.

Definition isEmpty {A : Type} (l : list A) : bool :=
  match l with
  | [] => true
  | _ => false
  end.

Definition validationFailed (errors : list Validator.FieldError) : Response :=
  respond 400 (ValidationFailed errors).

Definition taskNotFound : Response := respond 404 (Message "Task not found").
Definition invalidTaskId : Response := respond 400 (Message "Invalid task ID").

(** What [next(error)] ends in: the error handler of [server.js]. *)
Definition internalError : Response := respond 500 ServerError.

(** ** Types of the token service, the auth middleware and the update *)

(** The body of an update after Mongoose's cast: the paths to [$set]. *)
Record TaskUpdate := {
  set_title : option string;
  set_description : option string;
  set_status : option string;
  set_priority : option string;
  set_dueDate : option (option Z);
  set_user : option Mongo.ObjectId
}.

(** The claims [generateToken] signs: [{ id }] with the issue time and the
    expiry that [expiresIn] adds (seconds since the epoch). *)
Record JwtPayload := {
  id : string;
  iat : Z;
  exp : option Z
}.

(** Why [jwt.verify] throws. *)
Inductive JwtFailure :=
| NotProvided
| Malformed
| Undecodable
| SignatureRequired
| SecretRequired
| UnsignedNotAllowed
| InvalidAlgorithm
| InvalidSignature
| Expired.

(** What [protect] does with a request: it answers itself, or it attaches
    the user to the request and calls [next()]. *)
Inductive Gate :=
| Rejected (r : Response)
| Attached (user : User.doc).

(** ** The library functions that are taken as given *)

(** The functions of validator.js, Mongoose and jws whose definition is a
    large table or cryptography. *)
Record Library := {
  (** validator.js [isISO8601] *)
  isISO8601 : string -> bool;
  (** Mongoose's cast of a string to a [Date]; [None] when the cast fails *)
  castDate : string -> option Z;
  (** decoding of the first two segments of a token (base64url, JSON): the
      algorithm the header names and the payload; [None] when they do not
      decode *)
  jwsDecode : string -> option (string * JwtPayload);
  (** [jws.verify(token, alg, secret)]: the third segment is the MAC of the
      first two under the secret *)
  jwsVerify : string -> string -> string -> bool;
  (** validator.js [isEmail] and [normalizeEmail] *)
  isEmail : string -> bool;
  normalizeEmail : string -> string
}.

(** ** Sample data: two users, their tasks, and stand-ins for the library
    functions the handlers are parametrised by *)
Module Sample.

Definition aliceId : string := "00000000000000000000000a".
Definition bobId : string := "00000000000000000000000b".

Definition alice : User.doc :=
  {| User._id := 10%N; User.name := "Alice"; User.email := "alice@example.com";
     User.password := None; User.avatar := None;
     User.createdAt := 1000; User.updatedAt := 1000 |}.

Definition bob : User.doc :=
  {| User._id := 11%N; User.name := "Bob"; User.email := "bob@example.com";
     User.password := None; User.avatar := None;
     User.createdAt := 2000; User.updatedAt := 2000 |}.

Definition task (i : N) (ti st pr : string) (owner : User.doc) (at_ : Z)
  : Task.doc :=
  {| Task._id := i; Task.title := ti; Task.description := None;
     Task.status := st; Task.priority := pr; Task.dueDate := None;
     Task.user := User._id owner; Task.createdAt := at_;
     Task.updatedAt := at_ |}.

(** Alice's tasks. *)
Definition report : Task.doc := task 161 "abc" "completed" "low" alice 3000.
Definition review : Task.doc := task 162 "Review" "todo" "medium" alice 4000.
Definition deploy : Task.doc := task 163 "Deploy" "completed" "high" alice 5000.
(** Bob's task. *)
Definition budget : Task.doc := task 177 "Budget" "completed" "high" bob 6000.

Definition reportId : string := "0000000000000000000000a1".
Definition budgetId : string := "0000000000000000000000b1".
(** An identifier that no task has. *)
Definition nobodyId : string := "0000000000000000000000ff".

Definition db : Store :=
  {| users := [alice; bob]; tasks := [report; review; deploy; budget] |}.

Definition env : Env :=
  {| now := 7000000; newId := 200%N; JWT_SECRET := Some "s3cret" |}.

Definition noQuery : ListQuery :=
  {| q_status := None; q_priority := None; q_search := None;
     q_sortBy := None; q_sortOrder := None |}.


Definition emptyStatus : ListQuery :=
  {| q_status := Some ""; q_priority := None; q_search := None;
     q_sortBy := None; q_sortOrder := None |}.

Definition byPriorityUp : ListQuery :=
  {| q_status := None; q_priority := None; q_search := None;
     q_sortBy := Some "priority"; q_sortOrder := Some "asc" |}.

Definition noBody : TaskBody :=
  {| b_title := None; b_description := None; b_status := None;
     b_priority := None; b_dueDate := None; b_user := None |}.

(** A create body that names Bob as the owner. *)
Definition forBob : TaskBody :=
  {| b_title := Some "Plan"; b_description := None; b_status := None;
     b_priority := None; b_dueDate := None; b_user := Some bobId |}.

(** An update body with nothing but a new owner. *)
Definition giveToBob : TaskBody :=
  {| b_title := None; b_description := None; b_status := None;
     b_priority := None; b_dueDate := None; b_user := Some bobId |}.

Definition blankTitle : TaskBody :=
  {| b_title := Some "   "; b_description := None; b_status := None;
     b_priority := None; b_dueDate := None; b_user := None |}.

Definition emptyTitle : TaskBody :=
  {| b_title := Some ""; b_description := None; b_status := None;
     b_priority := None; b_dueDate := None; b_user := None |}.

Definition rename : TaskBody :=
  {| b_title := Some "Renamed"; b_description := None; b_status := None;
     b_priority := None; b_dueDate := None; b_user := None |}.

(** Stand-ins: one date, one token. *)
Definition isoDate (s : string) : bool := s =? "2030-01-01".
Definition toDate (s : string) : option Z :=
  if s =? "2030-01-01" then Some 1893456000000%Z else None.

Definition goodToken : string := "hdr.alice.mac".
Definition ghostToken : string := "hdr.ghost.mac".

Definition decode (token : string) : option (string * JwtPayload) :=
  if token =? goodToken
  then Some ("HS256", {| id := aliceId; iat := 6000; exp := Some 8000%Z |})
  else if token =? ghostToken
  then Some ("HS256", {| id := nobodyId; iat := 6000; exp := Some 8000%Z |})
  else if token =? "hdr.alice.forged"
  then Some ("HS256", {| id := aliceId; iat := 6000; exp := Some 8000%Z |})
  else None.

Definition verifyMac (token alg key : string) : bool :=
  ((token =? goodToken) || (token =? ghostToken))
  && (alg =? "HS256") && (key =? "s3cret").

Definition emailOk (s : string) : bool := Text.isIn ["alice@example.com"] s.
Definition sameEmail (s : string) : string := s.

Definition lib : Library :=
  {| isISO8601 := isoDate; castDate := toDate;
     jwsDecode := decode; jwsVerify := verifyMac;
     isEmail := emailOk; normalizeEmail := sameEmail |}.

Definition request (header : option string) (r : Route) : Request :=
  {| authorization := header; route := r |}.

(** The task that Alice's request with [user] set to Bob creates. *)
Definition plan : Task.doc := task 200 "Plan" "todo" "medium" alice 7000000.

Definition planCreated : Response :=
  respond 201 (TaskChanged "Task created successfully" (Some plan)).

Definition withPlan : Store := withTasks db (tasks db ++ [plan]).

(** Alice's report once it has been given to Bob. *)
Definition reportOfBob : Task.doc :=
  {| Task._id := 161%N; Task.title := "abc"; Task.description := None;
     Task.status := "completed"; Task.priority := "low"; Task.dueDate := None;
     Task.user := User._id bob; Task.createdAt := 3000;
     Task.updatedAt := 7000000 |}.

Definition afterGift : Store :=
  withTasks db [reportOfBob; review; deploy; budget].

Definition forgedHeader : option string := Some "Bearer hdr.alice.forged".


(** More sample data for the properties beyond the claims. *)

Definition planId : string := "0000000000000000000000c8".
Definition reviewId : string := "0000000000000000000000a2".

(** The time at which Alice's token was issued, for a lifetime of 2000
    seconds. *)
Definition issued : Env :=
  {| now := 6000000; newId := 200%N; JWT_SECRET := Some "s3cret" |}.

(** The clock after the expiry of Alice's token. *)
Definition later : Env :=
  {| now := 9000000; newId := 200%N; JWT_SECRET := Some "s3cret" |}.

Definition aliceHeader : option string := Some "Bearer hdr.alice.mac".

(** A body whose [user] member is no identifier. *)
Definition giveToNobody : TaskBody :=
  {| b_title := None; b_description := None; b_status := None;
     b_priority := None; b_dueDate := None; b_user := Some "bob" |}.

(** U+00A0, the no-break space: the bytes C2 A0. *)
Definition nbsp : string :=
  String (ascii_of_nat 194) (String (ascii_of_nat 160) "").



(** White space of one, two and three bytes: a space, U+00A0, U+2003. *)
Definition blanks : string :=
  (" " ++ nbsp
   ++ String (ascii_of_nat 226) (String (ascii_of_nat 128)
        (String (ascii_of_nat 131) "")))%string.

(** A title and a search text between white space. *)
Definition planPadded : string := (nbsp ++ " Plan " ++ nbsp)%string.




(** No task of the sample has a due date: on [dueDate] all of them tie. *)
Definition byDueDate : ListQuery :=
  {| q_status := None; q_priority := None; q_search := None;
     q_sortBy := Some "dueDate"; q_sortOrder := Some "asc" |}.

Definition blankSearch : ListQuery :=
  {| q_status := None; q_priority := None; q_search := Some blanks;
     q_sortBy := None; q_sortOrder := None |}.

(** A library whose [isEmail] knows three addresses. *)
Definition mailLib : Library :=
  {| isISO8601 := isoDate; castDate := toDate;
     jwsDecode := decode; jwsVerify := verifyMac;
     isEmail := Text.isIn ["alice@example.com"; "bob@example.com";
                           "carol@example.com"];
     normalizeEmail := sameEmail |}.

Definition takeBobsEmail : ProfileBody :=
  {| b_name := None; b_email := Some "bob@example.com"; b_avatar := None |}.

Definition toCarol : ProfileBody :=
  {| b_name := None; b_email := Some "carol@example.com"; b_avatar := None |}.

(** Alice once her email is Carol's address. *)
Definition aliceAsCarol : User.doc :=
  {| User._id := 10%N; User.name := "Alice";
     User.email := "carol@example.com"; User.password := None;
     User.avatar := None; User.createdAt := 1000;
     User.updatedAt := 7000000 |}.


End Sample.

(** A token format that stands in for JWS: [sign key p] is
    [hdr.<id>_<iat>_<exp>.m<key>], the texts and the numbers written in
    binary digits, and [decode] and [verifyMac] read it back. *)
Module Jws.

Definition bit (b : bool) : ascii := if b then "1"%char else "0"%char.

Definition unbit (c : ascii) : option bool :=
  if Ascii.eqb c "0" then Some false
  else if Ascii.eqb c "1" then Some true else None.

Definition charBits (c : ascii) : string :=
  let 'Ascii b0 b1 b2 b3 b4 b5 b6 b7 := c in
  String (bit b0) (String (bit b1) (String (bit b2) (String (bit b3)
    (String (bit b4) (String (bit b5) (String (bit b6)
      (String (bit b7) ""))))))).

Fixpoint textBits (s : string) : string :=
  match s with
  | EmptyString => EmptyString
  | String c r => (charBits c ++ textBits r)%string
  end.

Fixpoint bitsText (s : string) : option string :=
  match s with
  | EmptyString => Some EmptyString
  | String c0 (String c1 (String c2 (String c3 (String c4 (String c5
      (String c6 (String c7 r))))))) =>
      match unbit c0, unbit c1, unbit c2, unbit c3, unbit c4, unbit c5,
            unbit c6, unbit c7, bitsText r with
      | Some b0, Some b1, Some b2, Some b3, Some b4, Some b5, Some b6,
        Some b7, Some t => Some (String (Ascii b0 b1 b2 b3 b4 b5 b6 b7) t)
      | _, _, _, _, _, _, _, _, _ => None
      end
  | _ => None
  end.

Fixpoint posBits (p : positive) : string :=
  match p with
  | xH => EmptyString
  | xO q => String "0" (posBits q)
  | xI q => String "1" (posBits q)
  end.

Fixpoint bitsPos (s : string) : option positive :=
  match s with
  | EmptyString => Some xH
  | String c r =>
      match unbit c, bitsPos r with
      | Some true, Some q => Some (xI q)
      | Some false, Some q => Some (xO q)
      | _, _ => None
      end
  end.

Definition showZ (z : Z) : string :=
  match z with
  | Z0 => "z"
  | Zpos p => String "p" (posBits p)
  | Zneg p => String "n" (posBits p)
  end.

Definition readZ (s : string) : option Z :=
  match s with
  | EmptyString => None
  | String c r =>
      if Ascii.eqb c "z" then (if r =? "" then Some 0%Z else None)
      else if Ascii.eqb c "p" then option_map Zpos (bitsPos r)
      else if Ascii.eqb c "n" then option_map Zneg (bitsPos r)
      else None
  end.

Definition showExp (e : option Z) : string :=
  match e with
  | None => "x"
  | Some z => showZ z
  end.

Definition readExp (s : string) : option (option Z) :=
  if s =? "x" then Some None else option_map Some (readZ s).

Definition body (p : JwtPayload) : string :=
  (textBits (id p) ++ "_" ++ showZ (iat p) ++ "_" ++ showExp (exp p))%string.

Definition sign (key : string) (p : JwtPayload) : string :=
  ("hdr." ++ body p ++ ".m" ++ textBits key)%string.

Definition decode (token : string) : option (string * JwtPayload) :=
  match Text.split "." token with
  | [_; b; _] =>
      match Text.split "_" b with
      | [i; t; e] =>
          match bitsText i, readZ t, readExp e with
          | Some i', Some t', Some e' =>
              Some ("HS256", {| id := i'; iat := t'; exp := e' |})
          | _, _, _ => None
          end
      | _ => None
      end
  | _ => None
  end.

Definition verifyMac (token alg key : string) : bool :=
  (alg =? "HS256")
  && match Text.split "." token with
     | [_; _; sg] => sg =? ("m" ++ textBits key)%string
     | _ => false
     end.

Definition lib : Library :=
  {| isISO8601 := Sample.isoDate; castDate := Sample.toDate;
     jwsDecode := decode; jwsVerify := verifyMac;
     isEmail := Sample.emailOk; normalizeEmail := Sample.sameEmail |}.

End Jws.

(** ** The handlers *)

(** *** [routes/tasks.js] *)

(** The validators of [GET /api/tasks]. *)
Definition validateList (q : ListQuery)
  : ListQuery * list Validator.FieldError :=
  let '(st, e1) := Validator.run "status"
        [Validator.Optional;
         Validator.isIn Task.statuses Validator.invalidValue] (q_status q) in
  let '(pr, e2) := Validator.run "priority"
        [Validator.Optional;
         Validator.isIn Task.priorities Validator.invalidValue]
        (q_priority q) in
  let '(se, e3) := Validator.run "search"
        [Validator.Optional; Validator.trim] (q_search q) in
  let '(sb, e4) := Validator.run "sortBy"
        [Validator.Optional;
         Validator.isIn ["createdAt"; "dueDate"; "priority"; "title"]
           Validator.invalidValue] (q_sortBy q) in
  let '(so, e5) := Validator.run "sortOrder"
        [Validator.Optional;
         Validator.isIn ["asc"; "desc"] Validator.invalidValue]
        (q_sortOrder q) in
  ({| q_status := st; q_priority := pr; q_search := se;
      q_sortBy := sb; q_sortOrder := so |},
   e1 ++ e2 ++ e3 ++ e4 ++ e5).

(** The filter object the handler builds, as a predicate on a task:
    [user] always, [status] and [priority] when truthy, [$or] of the two
    regular expressions when [search] compiled to [atoms]. *)
Definition listFilter (uid : Mongo.ObjectId) (st pr : option string)
    (atoms : option (list Mongo.Atom)) (t : Task.doc) : bool :=
  (Task.user t =? uid)%N
  && (if Text.truthy st then Task.status t =? Text.toString st else true)
  && (if Text.truthy pr then Task.priority t =? Text.toString pr else true)
  && match atoms with
     | None => true
     | Some a =>
         Mongo.search a (Task.title t)
         || Mongo.regexField a (Task.description t)
     end.

Definition orDefault (v : option string) (d : string) : string :=
  match v with
  | None => d
  | Some s => s
  end.

(** [Task.find(filter).sort(sort)] and the response. *)
Definition findSorted (db : Store) (uid : Mongo.ObjectId)
    (st pr : option string) (atoms : option (list Mongo.Atom))
    (sortBy sortOrder : string) : Response :=
  let direction := if sortOrder =? "asc" then 1%Z else (-1)%Z in
  let found :=
    Query.sort (Query.ordered sortBy direction)
      (filter (listFilter uid st pr atoms) (tasks db)) in
  respond 200 (TaskList (List.length found) found).

(** [GET /api/tasks].  [None]: the search pattern is outside the fragment
    of the pattern language that [Mongo.compile] models. *)
Definition listTasks (db : Store) (u : User.doc) (q : ListQuery)
  : option Response :=
  let '(q', errors) := validateList q in
  if negb (isEmpty errors) then Some (validationFailed errors)
  else
    let sortBy := orDefault (q_sortBy q') "createdAt" in
    let sortOrder := orDefault (q_sortOrder q') "desc" in
    let run := findSorted db (User._id u) (q_status q') (q_priority q') in
    if Text.truthy (q_search q') then
      match Mongo.compile (Text.toString (q_search q')) with
      | Mongo.Pattern atoms => Some (run (Some atoms) sortBy sortOrder)
      | Mongo.BadPattern => Some internalError
      | Mongo.Beyond => None
      end
    else Some (run None sortBy sortOrder).

(** [Task.findOne({ _id, user })] after the cast of [_id]. *)
Definition findOwned (db : Store) (id uid : Mongo.ObjectId)
  : option Task.doc :=
  Query.findOne
    (fun t => (Task._id t =? id)%N && (Task.user t =? uid)%N) (tasks db).

(** [GET /api/tasks/:id] *)
Definition getTask (db : Store) (u : User.doc) (id : string) : Response :=
  match Mongo.castObjectId id with
  | None => invalidTaskId
  | Some oid =>
      match findOwned db oid (User._id u) with
      | None => taskNotFound
      | Some t => respond 200 (OneTask t)
      end
  end.

(** The validators of [POST /api/tasks]. *)
Definition validateCreate (lib : Library) (b : TaskBody)
  : TaskBody * list Validator.FieldError :=
  let '(ti, e1) := Validator.run "title"
        [Validator.trim;
         Validator.notEmpty "Task title is required";
         Validator.isLengthMax 200 "Title cannot exceed 200 characters"]
        (b_title b) in
  let '(de, e2) := Validator.run "description"
        [Validator.Optional; Validator.trim;
         Validator.isLengthMax 1000 "Description cannot exceed 1000 characters"]
        (b_description b) in
  let '(st, e3) := Validator.run "status"
        [Validator.Optional; Validator.isIn Task.statuses "Invalid status"]
        (b_status b) in
  let '(pr, e4) := Validator.run "priority"
        [Validator.Optional; Validator.isIn Task.priorities "Invalid priority"]
        (b_priority b) in
  let '(du, e5) := Validator.run "dueDate"
        [Validator.Optional;
         Validator.Validate (isISO8601 lib) "Invalid date format"]
        (b_dueDate b) in
  ({| b_title := ti; b_description := de; b_status := st; b_priority := pr;
      b_dueDate := du; b_user := b_user b |},
   e1 ++ e2 ++ e3 ++ e4 ++ e5).

(** The cast of the [dueDate] member: absent and empty give [null], a
    string that does not cast gives [None]. *)
Definition castDateField (lib : Library) (v : option string)
  : option (option Z) :=
  match v with
  | None => Some None
  | Some d => if d =? "" then Some None else option_map Some (castDate lib d)
  end.

(** [Task.create(taskData)]: casts, setters and defaults of the schema, then
    its validators.  [None] when the date does not cast or a validator
    rejects the document. *)
Definition newTask (lib : Library) (env : Env) (b : TaskBody)
    (owner : Mongo.ObjectId)
  : option Task.doc :=
  match castDateField lib (b_dueDate b) with
  | None => None
  | Some due =>
      let t := {| Task._id := newId env;
                  Task.title := Text.trim (Text.toString (b_title b));
                  Task.description := option_map Text.trim (b_description b);
                  Task.status := orDefault (b_status b) "todo";
                  Task.priority := orDefault (b_priority b) "medium";
                  Task.dueDate := due;
                  Task.user := owner;
                  Task.createdAt := now env;
                  Task.updatedAt := now env |} in
      if Task.valid t then Some t else None
  end.

(** [POST /api/tasks]: [taskData] is the body with [user] overwritten by
    the requesting user. *)
Definition createTask (lib : Library) (db : Store) (u : User.doc) (env : Env)
    (b : TaskBody)
  : Response * Store :=
  let '(b', errors) := validateCreate lib b in
  if negb (isEmpty errors) then (validationFailed errors, db)
  else
    match newTask lib env b' (User._id u) with
    | None => (internalError, db)
    | Some t =>
        if existsb (fun t' => (Task._id t' =? Task._id t)%N) (tasks db)
        then (internalError, db)    (* the unique index on [_id] *)
        else
          (respond 201 (TaskChanged "Task created successfully" (Some t)),
           withTasks db (tasks db ++ [t]))
    end.

(** The validators of [PUT /api/tasks/:id]. *)
Definition validateUpdate (lib : Library) (b : TaskBody)
  : TaskBody * list Validator.FieldError :=
  let '(ti, e1) := Validator.run "title"
        [Validator.Optional; Validator.trim;
         Validator.notEmpty "Title cannot be empty";
         Validator.isLengthMax 200 "Title cannot exceed 200 characters"]
        (b_title b) in
  let '(de, e2) := Validator.run "description"
        [Validator.Optional; Validator.trim;
         Validator.isLengthMax 1000 "Description cannot exceed 1000 characters"]
        (b_description b) in
  let '(st, e3) := Validator.run "status"
        [Validator.Optional; Validator.isIn Task.statuses "Invalid status"]
        (b_status b) in
  let '(pr, e4) := Validator.run "priority"
        [Validator.Optional; Validator.isIn Task.priorities "Invalid priority"]
        (b_priority b) in
  let '(du, e5) := Validator.run "dueDate"
        [Validator.Optional;
         Validator.Validate (isISO8601 lib) "Invalid date format"]
        (b_dueDate b) in
  ({| b_title := ti; b_description := de; b_status := st; b_priority := pr;
      b_dueDate := du; b_user := b_user b |},
   e1 ++ e2 ++ e3 ++ e4 ++ e5).

(** Casts the body, member by member; [None] is a [CastError]. *)
Definition castUpdate (lib : Library) (b : TaskBody) : option TaskUpdate :=
  match match b_dueDate b with
        | None => Some None
        | Some d => option_map Some (castDateField lib (Some d))
        end,
        match b_user b with
        | None => Some None
        | Some s => option_map Some (Mongo.castObjectId s)
        end with
  | Some due, Some owner =>
      Some {| set_title := option_map Text.trim (b_title b);
              set_description := option_map Text.trim (b_description b);
              set_status := b_status b;
              set_priority := b_priority b;
              set_dueDate := due;
              set_user := owner |}
  | _, _ => None
  end.

(** [runValidators]: the schema's validators on the paths that are set. *)
Definition updateValid (up : TaskUpdate) : bool :=
  match set_title up with
  | None => true
  | Some s => negb (s =? "") && (Text.length s <=? 200)%nat
  end
  && match set_description up with
     | None => true
     | Some d => (Text.length d <=? 1000)%nat
     end
  && match set_status up with
     | None => true
     | Some s => Text.isIn Task.statuses s
     end
  && match set_priority up with
     | None => true
     | Some p => Text.isIn Task.priorities p
     end.

Definition orKeep {A : Type} (v : option A) (old : A) : A :=
  match v with
  | None => old
  | Some x => x
  end.

(** The document after the update; [timestamps] renews [updatedAt]. *)
Definition applyUpdate (env : Env) (up : TaskUpdate) (t : Task.doc)
  : Task.doc :=
  {| Task._id := Task._id t;
     Task.title := orKeep (set_title up) (Task.title t);
     Task.description :=
       match set_description up with
       | None => Task.description t
       | Some d => Some d
       end;
     Task.status := orKeep (set_status up) (Task.status t);
     Task.priority := orKeep (set_priority up) (Task.priority t);
     Task.dueDate := orKeep (set_dueDate up) (Task.dueDate t);
     Task.user := orKeep (set_user up) (Task.user t);
     Task.createdAt := Task.createdAt t;
     Task.updatedAt := now env |}.

Definition hasId (id : Mongo.ObjectId) (t : Task.doc) : bool :=
  (Task._id t =? id)%N.

(** [PUT /api/tasks/:id]: the validators, the lookup scoped to the owner,
    then [Task.findByIdAndUpdate(req.params.id, req.body, ...)] with the
    whole body. *)
Definition updateTask (lib : Library) (db : Store) (u : User.doc) (env : Env)
    (id : string)
    (b : TaskBody) : Response * Store :=
  let '(b', errors) := validateUpdate lib b in
  if negb (isEmpty errors) then (validationFailed errors, db)
  else
    match Mongo.castObjectId id with
    | None => (invalidTaskId, db)
    | Some oid =>
        match findOwned db oid (User._id u) with
        | None => (taskNotFound, db)
        | Some _ =>
            match castUpdate lib b' with
            | None => (invalidTaskId, db)
            | Some up =>
                if negb (updateValid up) then (internalError, db)
                else
                  let ts := Query.updateFirst (hasId oid)
                              (applyUpdate env up) (tasks db) in
                  (respond 200
                     (TaskChanged "Task updated successfully"
                        (Query.findOne (hasId oid) ts)),
                   withTasks db ts)
            end
        end
    end.

(** [DELETE /api/tasks/:id] *)
Definition deleteTask (db : Store) (u : User.doc) (id : string)
  : Response * Store :=
  match Mongo.castObjectId id with
  | None => (invalidTaskId, db)
  | Some oid =>
      match findOwned db oid (User._id u) with
      | None => (taskNotFound, db)
      | Some _ =>
          (respond 200 (Message "Task deleted successfully"),
           withTasks db (Query.deleteFirst (hasId oid) (tasks db)))
      end
  end.

(** *** The token service: [jsonwebtoken] *)

Definition hmacAlgorithms : list string := ["HS256"; "HS384"; "HS512"].

(** The third segment is there and not blank. *)
Definition hasSignature (token : string) : bool :=
  match Text.split "."%char token with
  | [_; _; signature] => negb (Text.trim signature =? "")
  | _ => false
  end.

(** [jwt.verify(token, secret)] at clock time [clock] (in seconds). *)
Definition jwtVerify (lib : Library) (clock : Z) (token : string)
    (secret : option string)
  : JwtFailure + JwtPayload :=
  if token =? "" then inl NotProvided
  else
    match Text.split "."%char token with
    | [_; _; _] =>
        match jwsDecode lib token with
        | None => inl Undecodable
        | Some (alg, payload) =>
            if negb (hasSignature token) && Text.truthy secret
            then inl SignatureRequired
            else if hasSignature token && negb (Text.truthy secret)
            then inl SecretRequired
            else if negb (hasSignature token) then inl UnsignedNotAllowed
            else if negb (Text.isIn hmacAlgorithms alg)
            then inl InvalidAlgorithm
            else if negb (jwsVerify lib token alg (Text.toString secret))
                 then inl InvalidSignature
            else
              match exp payload with
              | Some e => if (e <=? clock)%Z then inl Expired else inr payload
              | None => inr payload
              end
        end
    | _ => inl Malformed
    end.

(** *** [middleware/auth.js] *)

Definition notAuthorized : Response :=
  respond 401 (Message "Not authorized to access this route. Please login.").
Definition invalidToken : Response :=
  respond 401 (Message "Invalid token. Please login again.").
Definition userNotFound : Response :=
  respond 401 (Message "User not found with this token").

(** The token of the [Authorization] header: the second of the pieces
    between spaces, when the header starts with [Bearer]. *)
Definition bearerToken (header : option string) : option string :=
  match header with
  | None => None
  | Some h =>
      if Text.truthy header && Text.startsWith h "Bearer"
      then nth_error (Text.split " "%char h) 1
      else None
  end.

(** [User.findById(id)]; the outer [None] is a [CastError]. *)
Definition findUserById (db : Store) (i : string) : option (option User.doc) :=
  match Mongo.castObjectId i with
  | None => None
  | Some oid =>
      Some (Query.findOne (fun u => (User._id u =? oid)%N) (users db))
  end.

Definition protect (lib : Library) (db : Store) (env : Env)
    (header : option string) : Gate :=
  let token := bearerToken header in
  if negb (Text.truthy token) then Rejected notAuthorized
  else
    match jwtVerify lib (now env / 1000) (Text.toString token)
            (JWT_SECRET env) with
    | inl _ => Rejected invalidToken
    | inr decoded =>
        match findUserById db (id decoded) with
        | None => Rejected invalidToken
        | Some None => Rejected userNotFound
        | Some (Some u) => Attached (User.withoutPassword u)
        end
    end.

(** *** [routes/profile.js] *)

Definition publicUser (withCreatedAt : bool) (u : User.doc) : PublicUser :=
  {| pu_id := User._id u; pu_name := User.name u; pu_email := User.email u;
     pu_avatar := User.avatar u;
     pu_createdAt := if withCreatedAt then Some (User.createdAt u) else None;
     pu_updatedAt := User.updatedAt u |}.

Definition isUser (uid : Mongo.ObjectId) (u : User.doc) : bool :=
  (User._id u =? uid)%N.

(** [GET /api/profile] *)
Definition getProfile (db : Store) (u : User.doc) : Response :=
  match Query.findOne (isUser (User._id u)) (users db) with
  | None => respond 404 (Message "User not found")
  | Some found => respond 200 (Profile None (publicUser true found))
  end.

(** The validators of [PUT /api/profile]. *)
Definition validateProfile (lib : Library) (b : ProfileBody)
  : ProfileBody * list Validator.FieldError :=
  let '(na, e1) := Validator.run "name"
        [Validator.Optional; Validator.trim;
         Validator.notEmpty "Name cannot be empty";
         Validator.isLengthMax 50 "Name cannot exceed 50 characters"]
        (b_name b) in
  let '(em, e2) := Validator.run "email"
        [Validator.Optional;
         Validator.Validate (isEmail lib) "Please provide a valid email";
         Validator.Sanitize (normalizeEmail lib)]
        (b_email b) in
  ({| b_name := na; b_email := em; b_avatar := b_avatar b |}, e1 ++ e2).

(** Modelled from the spec: the validators of the user schema, which is
    not among the sources: a name is required and has at most 50
    characters, an email is required. *)
Definition userValid (u : User.doc) : bool :=
  negb (User.name u =? "") && (Text.length (User.name u) <=? 50)%nat
  && negb (User.email u =? "").

(** [updateFields] applied to a user; [timestamps] renews [updatedAt]. *)
Definition applyProfile (env : Env) (b : ProfileBody) (u : User.doc)
  : User.doc :=
  {| User._id := User._id u;
     User.name := if Text.truthy (b_name b) then Text.toString (b_name b)
                  else User.name u;
     User.email := if Text.truthy (b_email b) then Text.toString (b_email b)
                   else User.email u;
     User.password := User.password u;
     User.avatar := match b_avatar b with
                    | None => User.avatar u
                    | Some a => Some a
                    end;
     User.createdAt := User.createdAt u;
     User.updatedAt := now env |}.

(** [PUT /api/profile] *)
Definition updateProfile (lib : Library) (db : Store) (u : User.doc) (env : Env)
    (b : ProfileBody) : Response * Store :=
  let '(b', errors) := validateProfile lib b in
  if negb (isEmpty errors) then (validationFailed errors, db)
  else if Text.truthy (b_email b')
          && existsb (fun o => (User.email o =? Text.toString (b_email b'))
                               && negb (isUser (User._id u) o)) (users db)
  then (respond 400 (Message "Email is already taken by another user"), db)
  else
    match Query.findOne (isUser (User._id u)) (users db) with
    | None => (internalError, db)
    | Some old =>
        if negb (userValid (applyProfile env b' old)) then (internalError, db)
        else
          (respond 200
             (Profile (Some "Profile updated successfully")
                (publicUser false (applyProfile env b' old))),
           withUsers db
             (Query.updateFirst (isUser (User._id u))
                (applyProfile env b') (users db)))
    end.

(** *** The routers: [router.use(protect)] before every handler *)

Definition unchanged (db : Store) (r : Response) : Response * Store := (r, db).

(** One request against the store.  [None] only for a task list whose
    search pattern is outside the modelled fragment. *)
Definition serve (lib : Library) (db : Store) (env : Env) (req : Request)
  : option (Response * Store) :=
  match protect lib db env (authorization req) with
  | Rejected r => Some (r, db)
  | Attached u =>
      match route req with
      | GetProfile => Some (unchanged db (getProfile db u))
      | PutProfile b => Some (updateProfile lib db u env b)
      | ListTasks q => option_map (unchanged db) (listTasks db u q)
      | GetTask i => Some (unchanged db (getTask db u i))
      | PostTask b => Some (createTask lib db u env b)
      | PutTask i b => Some (updateTask lib db u env i b)
      | DeleteTask i => Some (deleteTask db u i)
      end
  end.

(** [generateToken(id)] of [middleware/auth.js]: [jwt.sign({ id }, secret,
    { expiresIn })].  [sign] is the signing of [jws] (HS256, the default of
    [jwt.sign]) and [lifetime] the number of seconds that
    [process.env.JWT_EXPIRE || '7d'] denotes; the payload gets the issue
    time and the expiry.  [None]: the function throws, no secret being
    configured. *)
Definition generateToken (sign : string -> JwtPayload -> string)
    (lifetime : Z) (env : Env) (i : string) : option string :=
  if negb (Text.truthy (JWT_SECRET env)) then None
  else
    Some (sign (Text.toString (JWT_SECRET env))
            {| id := i; iat := now env / 1000;
               exp := Some (now env / 1000 + lifetime)%Z |}).

(** *** The client: [components/TaskForm.jsx] and [pages/Dashboard.jsx] *)

(** The state of the task form. *)
Record TaskFormData := {
  fd_title : string;
  fd_description : string;
  fd_status : string;
  fd_priority : string;
  fd_dueDate : string
}.

(** [newErrors] of [validate], as the list of its members. *)
Definition taskFormErrors (f : TaskFormData) : list (string * string) :=
  (if negb (Text.truthy (Some (Text.trim (fd_title f))))
   then [("title", "Title is required")]
   else if (200 <? Text.length (fd_title f))%nat
   then [("title", "Title cannot exceed 200 characters")]
   else [])
  ++ (if (1000 <? Text.length (fd_description f))%nat
      then [("description", "Description cannot exceed 1000 characters")]
      else []).

(** [validate]: [Object.keys(newErrors).length === 0]. *)
Definition taskFormValidate (f : TaskFormData) : bool :=
  isEmpty (taskFormErrors f).

(** The [filters] state of the dashboard; [None] is [undefined]. *)
Record Filters := {
  flt_status : option string;
  flt_priority : option string;
  flt_search : option string;
  flt_sortBy : option string;
  flt_sortOrder : option string
}.

Definition initialFilters : Filters :=
  {| flt_status := Some ""; flt_priority := Some ""; flt_search := Some "";
     flt_sortBy := Some "createdAt"; flt_sortOrder := Some "desc" |}.

(** [handleFilterChange(key, value)]: [{ ...prev, [key]: value }]. *)
Definition handleFilterChange (key : string) (value : option string)
    (f : Filters) : Filters :=
  {| flt_status := if key =? "status" then value else flt_status f;
     flt_priority := if key =? "priority" then value else flt_priority f;
     flt_search := if key =? "search" then value else flt_search f;
     flt_sortBy := if key =? "sortBy" then value else flt_sortBy f;
     flt_sortOrder := if key =? "sortOrder" then value else flt_sortOrder f |}.

(** The [value]s of the [option]s of the three selects. *)
Definition statusOptions : list string :=
  [""; "todo"; "in-progress"; "completed"].
Definition priorityOptions : list string := [""; "low"; "medium"; "high"].
Definition sortOptions : list string :=
  ["createdAt-desc"; "createdAt-asc"; "dueDate-asc"; "dueDate-desc";
   "priority-desc"; "priority-asc"; "title-asc"; "title-desc"].

(** The [onChange] handlers of the search box and of the selects. *)
Inductive FilterEvent :=
| SearchTyped (value : string)
| StatusChosen (value : string)
| PriorityChosen (value : string)
| SortChosen (value : string).

Definition onChange (e : FilterEvent) (f : Filters) : Filters :=
  match e with
  | SearchTyped v => handleFilterChange "search" (Some v) f
  | StatusChosen v => handleFilterChange "status" (Some v) f
  | PriorityChosen v => handleFilterChange "priority" (Some v) f
  | SortChosen v =>
      let parts := Text.split "-" v in
      handleFilterChange "sortOrder" (nth_error parts 1)
        (handleFilterChange "sortBy" (nth_error parts 0) f)
  end.

(** [String(value)] of a parameter that [URLSearchParams.append] gets. *)
Definition paramText (v : option string) : string :=
  match v with
  | None => "undefined"
  | Some s => s
  end.

(** The query of [fetchTasks]: [status], [priority] and [search] when
    truthy, [sortBy] and [sortOrder] always. *)
Definition fetchQuery (f : Filters) : ListQuery :=
  {| q_status := if Text.truthy (flt_status f) then flt_status f else None;
     q_priority := if Text.truthy (flt_priority f) then flt_priority f
                   else None;
     q_search := if Text.truthy (flt_search f) then flt_search f else None;
     q_sortBy := Some (paramText (flt_sortBy f));
     q_sortOrder := Some (paramText (flt_sortOrder f)) |}.

(** [handleDeleteTask(taskId)] once the user has confirmed and the server
    has answered: [tasks.filter((task) => task._id !== taskId)]. *)
Definition handleDeleteTask (taskId : Mongo.ObjectId) (local : list Task.doc)
  : list Task.doc :=
  filter (fun task => negb (Task._id task =? taskId)%N) local.

(** Sample states of the client. *)
Module ClientSample.

Definition form : TaskFormData :=
  {| fd_title := "  Plan  "; fd_description := ""; fd_status := "todo";
     fd_priority := "medium"; fd_dueDate := "" |}.

Definition clicks : list FilterEvent :=
  [StatusChosen "completed"; SortChosen "priority-asc"; SearchTyped "plan";
   StatusChosen ""].

End ClientSample.

(** ** Vocabulary of the properties *)

(** The errors of a chain [optional().isIn(vs)]. *)
Definition enumErrors (p : string) (vs : list string) (m : string)
    (v : option string) : list Validator.FieldError :=
  match v with
  | None => []
  | Some s => if Text.isIn vs s then []
              else [{| Validator.path := p; Validator.msg := m |}]
  end.

(** The errors of the [title] chain of [POST], on the trimmed title. *)
Definition titleErrors (required : string) (t : string)
  : list Validator.FieldError :=
  (if negb (t =? "") then []
   else [{| Validator.path := "title"; Validator.msg := required |}])
  ++ (if (Validator.len t <=? 200)%nat then []
      else [{| Validator.path := "title";
               Validator.msg := "Title cannot exceed 200 characters" |}]).

(** What the handler hands to [$or]: nothing when the trimmed search text
    is empty, the compiled pattern otherwise. *)
Definition searchAtoms (q : ListQuery) (atoms : option (list Mongo.Atom))
  : Prop :=
  let text := option_map Text.trim (q_search q) in
  if Text.truthy text
  then exists a, atoms = Some a
                 /\ Mongo.compile (Text.toString text) = Mongo.Pattern a
  else atoms = None.

(** The order of the priority strings, character by character. *)
Definition priorityUpTo (a b : Task.doc) : Prop :=
  (Task.priority a <=? Task.priority b)%string = true.








(** Some task has the identifier, and every task that has it belongs to
    somebody other than [uid]. *)
Definition foreignId (db : Store) (uid oid : Mongo.ObjectId) : Prop :=
  (exists t, In t (tasks db) /\ Task._id t = oid)
  /\ forall t, In t (tasks db) -> Task._id t = oid -> Task.user t <> uid.

(** No task has the identifier. *)
Definition absentId (db : Store) (oid : Mongo.ObjectId) : Prop :=
  forall t, In t (tasks db) -> Task._id t <> oid.

(** The three ways in which a request is not authenticated:
    no [Authorization] header, a token that [jwt.verify] refuses, a token
    that verifies and names no user of the collection. *)
Definition badCredentials (lib : Library) (db : Store) (env : Env)
    (header : option string)
  : Prop :=
  let token := Text.toString (bearerToken header) in
  header = None
  \/ (exists f, jwtVerify lib (now env / 1000) token (JWT_SECRET env) = inl f)
  \/ (exists p, jwtVerify lib (now env / 1000) token (JWT_SECRET env) = inr p
                /\ forall u, findUserById db (id p) <> Some (Some u)).

(** The token has three segments with a signature in the third, its first
    two decode to an HMAC algorithm and the payload [p], and the signature
    is the MAC of the first two under the secret. *)
Definition signedBy (lib : Library) (secret token : string) (p : JwtPayload)
  : Prop :=
  exists h b sg alg,
    Text.split "."%char token = [h; b; sg]
    /\ Text.trim sg <> ""
    /\ jwsDecode lib token = Some (alg, p)
    /\ In alg hmacAlgorithms
    /\ jwsVerify lib token alg secret = true.

(** The expiry of the payload, when it has one, is after the clock. *)
Definition unexpiredAt (clock : Z) (p : JwtPayload) : Prop :=
  match exp p with
  | Some e => (clock < e)%Z
  | None => True
  end.

(** What [protect] does once a token has verified. *)
Definition lookup (db : Store) (p : JwtPayload) : Gate :=
  match findUserById db (id p) with
  | None => Rejected invalidToken
  | Some None => Rejected userNotFound
  | Some (Some u) => Attached (User.withoutPassword u)
  end.

(** Every task has an identifier of its own (the unique index on [_id]). *)
Definition uniqueTaskIds (db : Store) : Prop :=
  NoDup (map Task._id (tasks db)).

(** Every user has an identifier of its own. *)
Definition uniqueUserIds (db : Store) : Prop :=
  NoDup (map User._id (users db)).

(** No task of the collection has the identifier. *)
Definition freshId (db : Store) (oid : Mongo.ObjectId) : Prop :=
  forall t, In t (tasks db) -> Task._id t <> oid.

(** The body [{ title: s }], with or without a [user] member. *)
Definition titleOnly (s : string) (who : option string) : TaskBody :=
  {| b_title := Some s; b_description := None; b_status := None;
     b_priority := None; b_dueDate := None; b_user := who |}.

(** The task the schema makes of a title alone. *)
Definition defaultTask (env : Env) (title : string) (owner : Mongo.ObjectId)
  : Task.doc :=
  {| Task._id := newId env; Task.title := title; Task.description := None;
     Task.status := "todo"; Task.priority := "medium"; Task.dueDate := None;
     Task.user := owner; Task.createdAt := now env;
     Task.updatedAt := now env |}.

(** A field that is absent or holds one of the listed values. *)
Definition absentOrIn (v : option string) (vs : list string) : Prop :=
  match v with
  | None => True
  | Some s => In s vs
  end.

(** The query parameters that [GET /api/tasks] accepts. *)
Definition listAccepted (q : ListQuery) : Prop :=
  absentOrIn (q_status q) Task.statuses
  /\ absentOrIn (q_priority q) Task.priorities
  /\ absentOrIn (q_sortBy q) ["createdAt"; "dueDate"; "priority"; "title"]
  /\ absentOrIn (q_sortOrder q) ["asc"; "desc"].

(** The request without its [search] parameter. *)
Definition withoutSearch (q : ListQuery) : ListQuery :=
  {| q_status := q_status q; q_priority := q_priority q; q_search := None;
     q_sortBy := q_sortBy q; q_sortOrder := q_sortOrder q |}.

(** [a] is not after [b] on the field: dates by time, a missing due date
    before any date, text character by character. *)
Definition fieldLe (field : string) (a b : Task.doc) : Prop :=
  if field =? "createdAt" then (Task.createdAt a <= Task.createdAt b)%Z
  else if field =? "dueDate" then
    match Task.dueDate a, Task.dueDate b with
    | None, _ => True
    | Some _, None => False
    | Some x, Some y => (x <= y)%Z
    end
  else if field =? "priority"
  then (Task.priority a <=? Task.priority b)%string = true
  else if field =? "title" then (Task.title a <=? Task.title b)%string = true
  else True.

(** The text after its first character, when that is white space. *)
Definition dropSpace (s : string) : option string :=
  match s with
  | String c1 s1 =>
      if Text.isSpace c1 then Some s1
      else
        match s1 with
        | String c2 s2 =>
            if Text.isSpace2 c1 c2 then Some s2
            else
              match s2 with
              | String c3 s3 =>
                  if Text.isSpace3 c1 c2 c3 then Some s3 else None
              | EmptyString => None
              end
        | EmptyString => None
        end
  | EmptyString => None
  end.

(** The text has no space. *)
Fixpoint spaceless (s : string) : bool :=
  match s with
  | EmptyString => true
  | String c s' => negb (Ascii.eqb c " ") && spaceless s'
  end.

(** No two users have the same email. *)
Definition uniqueEmails (db : Store) : Prop :=
  NoDup (map User.email (users db)).

(** The signing goes with the decoding and the MAC check of the library:
    what [sign] makes of a payload under a key that is not empty is a token
    without spaces that decodes to that payload and verifies under that
    key. *)
Definition signs (lib : Library) (sign : string -> JwtPayload -> string)
  : Prop :=
  forall key p,
    key <> "" ->
    signedBy lib key (sign key p) p /\ spaceless (sign key p) = true.

(** The text does not hold the character. *)
Fixpoint without (sep : ascii) (s : string) : bool :=
  match s with
  | EmptyString => true
  | String c s' => negb (Ascii.eqb c sep) && without sep s'
  end.


(** A select delivers the value of one of its options; the search box
    delivers any text. *)
Definition offered (e : FilterEvent) : Prop :=
  match e with
  | SearchTyped _ => True
  | StatusChosen v => In v statusOptions
  | PriorityChosen v => In v priorityOptions
  | SortChosen v => In v sortOptions
  end.

(** The filters after a sequence of events on the initial state. *)
Definition filtersAfter (events : list FilterEvent) : Filters :=
  fold_left (fun f e => onChange e f) events initialFilters.

(** The order that the request asks for: [a] may come before [b]. *)
Definition listOrder (q : ListQuery) (a b : Task.doc) : Prop :=
  Query.ordered (orDefault (q_sortBy q) "createdAt")
    (if orDefault (q_sortOrder q) "desc" =? "asc" then 1%Z else (-1)%Z) a b
  = true.

(** The lists with which the server may answer 200 to the request.
    MongoDB leaves the order of documents with equal sort keys open, so
    these are all the lists that hold the documents of one such answer,
    each as often, in an order that the sort allows. *)
Definition mayAnswer (db : Store) (u : User.doc) (q : ListQuery)
    (l : list Task.doc) : Prop :=
  exists n found,
    listTasks db u q = Some (respond 200 (TaskList n found))
    /\ Permutation l found
    /\ Sorted (listOrder q) l.

(** What the controls keep true of the filters. *)
Definition filtersFromControls (f : Filters) : Prop :=
  (exists v, flt_status f = Some v /\ In v statusOptions)
  /\ (exists v, flt_priority f = Some v /\ In v priorityOptions)
  /\ (exists v, flt_sortBy f = Some v
                /\ In v ["createdAt"; "dueDate"; "priority"; "title"])
  /\ (exists v, flt_sortOrder f = Some v /\ In v ["asc"; "desc"]).

(** The step of a proof for a branch in which a handler answers without
    writing: the collections are the ones it was given. *)
Ltac stays :=
  let E := fresh "E" in
  intros E; injection E as <- <-; left; split; [reflexivity | discriminate].

(** ** Properties *)

(** *** Sorting *)

Lemma insert_In {A : Type} (le : A -> A -> bool) (x y : A) (l : list A) :
  In y (Query.insert le x l) <-> y = x \/ In y l.
Proof.
  induction l as [| z l IH]; simpl.
  - intuition.
  - destruct (le x z); simpl; rewrite ?IH; intuition.
Qed.

Lemma sort_In {A : Type} (le : A -> A -> bool) (y : A) (l : list A) :
  In y (Query.sort le l) <-> In y l.
Proof.
  induction l as [| x l IH]; simpl.
  - reflexivity.
  - rewrite insert_In, IH. intuition.
Qed.

Section Sortedness.
Context {A : Type} (le : A -> A -> bool).
Hypothesis le_total : forall a b, le a b = true \/ le b a = true.

Let R (a b : A) : Prop := le a b = true.

Lemma insert_HdRel (x a : A) (l : list A) :
  R a x -> HdRel R a l -> HdRel R a (Query.insert le x l).
Proof.
  intros Hax Hl. destruct l as [| y l]; simpl.
  - now constructor.
  - inversion Hl; subst. destruct (le x y); now constructor.
Qed.

Lemma insert_Sorted (x : A) (l : list A) :
  Sorted R l -> Sorted R (Query.insert le x l).
Proof using le_total.
  induction 1 as [| y l Hs IH Hhd]; simpl.
  - repeat constructor.
  - destruct (le x y) eqn:Hxy.
    + constructor; [now constructor | now constructor].
    + constructor; [exact IH |].
      apply insert_HdRel; [| exact Hhd].
      destruct (le_total x y) as [H | H]; [congruence | exact H].
Qed.

Lemma sort_Sorted (l : list A) : Sorted R (Query.sort le l).
Proof using le_total.
  induction l as [| x l IH]; simpl.
  - constructor.
  - now apply insert_Sorted.
Qed.
End Sortedness.

(** *** Trimming *)

Lemma ltrim_eq s :
  Text.ltrim s = match dropSpace s with
                 | Some r => Text.ltrim r
                 | None => s
                 end.
Proof.
  destruct s as [| c1 [| c2 [| c3 s3]]]; cbn [Text.ltrim dropSpace];
    try reflexivity.
  - now destruct (Text.isSpace c1).
  - destruct (Text.isSpace c1); [reflexivity |].
    now destruct (Text.isSpace2 c1 c2).
  - destruct (Text.isSpace c1); [reflexivity |].
    destruct (Text.isSpace2 c1 c2); [reflexivity |].
    now destruct (Text.isSpace3 c1 c2 c3).
Qed.

Lemma dropSpace_cut s r :
  dropSpace s = Some r -> exists w, w <> "" /\ s = (w ++ r)%string.
Proof.
  destruct s as [| c1 [| c2 [| c3 s3]]]; cbn [dropSpace];
    try discriminate.
  - destruct (Text.isSpace c1); [| discriminate].
    intros E. injection E as <-. now exists (String c1 "").
  - destruct (Text.isSpace c1).
    { intros E. injection E as <-. now exists (String c1 ""). }
    destruct (Text.isSpace2 c1 c2); [| discriminate].
    intros E. injection E as <-. now exists (String c1 (String c2 "")).
  - destruct (Text.isSpace c1).
    { intros E. injection E as <-. now exists (String c1 ""). }
    destruct (Text.isSpace2 c1 c2).
    { intros E. injection E as <-. now exists (String c1 (String c2 "")). }
    destruct (Text.isSpace3 c1 c2 c3); [| discriminate].
    intros E. injection E as <-.
    now exists (String c1 (String c2 (String c3 ""))).
Qed.

Lemma dropSpace_app s r x :
  dropSpace s = Some r -> dropSpace (s ++ x) = Some (r ++ x)%string.
Proof.
  destruct s as [| c1 [| c2 [| c3 s3]]]; cbn [dropSpace append];
    try discriminate.
  - destruct (Text.isSpace c1); [| discriminate].
    intros E. now injection E as <-.
  - destruct (Text.isSpace c1); [intros E; now injection E as <- |].
    destruct (Text.isSpace2 c1 c2); [| discriminate].
    intros E. now injection E as <-.
  - destruct (Text.isSpace c1); [intros E; now injection E as <- |].
    destruct (Text.isSpace2 c1 c2); [intros E; now injection E as <- |].
    destruct (Text.isSpace3 c1 c2 c3); [| discriminate].
    intros E. now injection E as <-.
Qed.

Lemma String_length_app a b :
  String.length (a ++ b) = (String.length a + String.length b)%nat.
Proof. induction a; simpl; congruence. Qed.

(** Induction on a text along [dropSpace]. *)
Lemma by_dropSpace (P : string -> Prop) :
  (forall s, dropSpace s = None -> P s) ->
  (forall s r, dropSpace s = Some r -> P r -> P s) ->
  forall s, P s.
Proof.
  intros Hn Hs s.
  remember (String.length s) as n eqn:E. revert s E.
  induction n as [n IH] using lt_wf_ind. intros s E.
  destruct (dropSpace s) as [r |] eqn:D; [| now apply Hn].
  apply (Hs s r D). destruct (dropSpace_cut s r D) as (w & Hw & ->).
  apply (IH (String.length r)); [| reflexivity].
  rewrite E, String_length_app. destruct w; [congruence | simpl; lia].
Qed.

Lemma ltrim_suffix s : exists w, s = (w ++ Text.ltrim s)%string.
Proof.
  induction s as [s D | s r D IH] using by_dropSpace; rewrite ltrim_eq, D.
  - now exists "".
  - destruct IH as [w IH]. destruct (dropSpace_cut s r D) as (v & _ & ->).
    exists (v ++ w)%string. rewrite IH at 1.
    clear. induction v; simpl; congruence.
Qed.

Lemma ltrim_done s : dropSpace (Text.ltrim s) = None.
Proof.
  induction s as [s D | s r D IH] using by_dropSpace; rewrite ltrim_eq, D;
    assumption.
Qed.

Lemma blank_app a b :
  Text.blank a = true -> Text.blank b = true -> Text.blank (a ++ b) = true.
Proof.
  unfold Text.blank. intros Ha Hb. revert Ha.
  induction a as [s D | s r D IH] using by_dropSpace; rewrite (ltrim_eq s), D.
  - intros E. apply String.eqb_eq in E. now subst s.
  - intros E. rewrite ltrim_eq, (dropSpace_app s r b D). now apply IH.
Qed.

Lemma rtrim_split s :
  exists x, s = (Text.rtrim s ++ x)%string /\ Text.blank x = true.
Proof.
  induction s as [| c s IH]; [now exists "" |].
  cbn [Text.rtrim]. destruct (Text.blank (String c s)) eqn:B.
  - now exists (String c s).
  - destruct IH as (x & E & Hx). exists x. split; [| exact Hx].
    simpl. now rewrite <- E.
Qed.

Lemma rtrim_idempotent s : Text.rtrim (Text.rtrim s) = Text.rtrim s.
Proof.
  induction s as [| c s IH]; [reflexivity |].
  cbn [Text.rtrim]. destruct (Text.blank (String c s)) eqn:B; [reflexivity |].
  cbn [Text.rtrim]. rewrite IH.
  destruct (Text.blank (String c (Text.rtrim s))) eqn:B'; [| reflexivity].
  destruct (rtrim_split s) as (x & E & Hx).
  pose proof (blank_app _ _ B' Hx) as H. simpl in H. rewrite <- E in H.
  congruence.
Qed.

Lemma rtrim_keeps_head s :
  dropSpace s = None -> dropSpace (Text.rtrim s) = None.
Proof.
  intros D. destruct (dropSpace (Text.rtrim s)) as [r |] eqn:E;
    [| reflexivity].
  destruct (rtrim_split s) as (x & Hs & _).
  apply (dropSpace_app _ _ x) in E. rewrite <- Hs in E. congruence.
Qed.

Lemma trim_idempotent s : Text.trim (Text.trim s) = Text.trim s.
Proof.
  unfold Text.trim.
  rewrite (ltrim_eq (Text.rtrim _)), (rtrim_keeps_head _ (ltrim_done s)).
  apply rtrim_idempotent.
Qed.

Lemma length_app a b :
  Text.length (a ++ b) = (Text.length a + Text.length b)%nat.
Proof. induction a as [| c a IH]; simpl; [reflexivity | rewrite IH; lia]. Qed.

Lemma trim_length s : (Text.length (Text.trim s) <= Text.length s)%nat.
Proof.
  unfold Text.trim. destruct (ltrim_suffix s) as [w Hw].
  destruct (rtrim_split (Text.ltrim s)) as (x & Hx & _).
  rewrite Hw at 2. rewrite Hx at 2. rewrite !length_app. lia.
Qed.

(** *** The validation chains in closed form *)

Lemma run_optional_isIn p vs m v :
  Validator.run p [Validator.Optional; Validator.isIn vs m] v
  = (v, enumErrors p vs m v).
Proof.
  destruct v as [s |]; simpl; [| reflexivity].
  destruct (Text.isIn vs s); reflexivity.
Qed.

Lemma run_optional_trim p v :
  Validator.run p [Validator.Optional; Validator.trim] v
  = (option_map Text.trim v, []).
Proof. destruct v; reflexivity. Qed.

Lemma validateList_eq q :
  validateList q
  = ({| q_status := q_status q; q_priority := q_priority q;
        q_search := option_map Text.trim (q_search q);
        q_sortBy := q_sortBy q; q_sortOrder := q_sortOrder q |},
     enumErrors "status" Task.statuses Validator.invalidValue (q_status q)
     ++ enumErrors "priority" Task.priorities Validator.invalidValue
          (q_priority q)
     ++ enumErrors "sortBy" ["createdAt"; "dueDate"; "priority"; "title"]
          Validator.invalidValue (q_sortBy q)
     ++ enumErrors "sortOrder" ["asc"; "desc"] Validator.invalidValue
          (q_sortOrder q)).
Proof.
  unfold validateList.
  rewrite !run_optional_isIn, run_optional_trim. reflexivity.
Qed.

Lemma enumErrors_nil p vs m v :
  enumErrors p vs m v = [] <->
  match v with
  | None => True
  | Some s => Text.isIn vs s = true
  end.
Proof.
  unfold enumErrors. destruct v as [s |]; [| tauto].
  destruct (Text.isIn vs s); split; intros; congruence.
Qed.


(** C10: a task list request whose [status] or [priority] is the empty
    string is answered 400 with validation errors: the empty string is a
    value that is present and not one of the enumerated ones, it is not
    taken for an absent filter. *)
Theorem list_empty_filter_rejected (db : Store) (u : User.doc) (q : ListQuery) :
  q_status q = Some "" \/ q_priority q = Some "" ->
  exists errors,
    errors <> []
    /\ listTasks db u q = Some (respond 400 (ValidationFailed errors)).
Proof.
  intros H. unfold listTasks. rewrite validateList_eq.
  match goal with
  | |- context [isEmpty ?e] => exists e; assert (He : e <> [])
  end.
  { destruct H as [H | H]; rewrite H; simpl.
    - discriminate.
    - destruct (enumErrors "status" _ _ _); discriminate. }
  split; [exact He |].
  match goal with
  | |- context [isEmpty ?e] => destruct e eqn:E
  end; [congruence | reflexivity].
Qed.

Lemma run_title (v : option string) :
  Validator.run "title"
    [Validator.trim; Validator.notEmpty "Task title is required";
     Validator.isLengthMax 200 "Title cannot exceed 200 characters"] v
  = (Some (Text.trim (Text.toString v)),
     titleErrors "Task title is required" (Text.trim (Text.toString v))).
Proof.
  unfold titleErrors, Validator.trim, Validator.notEmpty,
    Validator.isLengthMax.
  cbn [Validator.run Text.toString].
  destruct (Text.trim (Text.toString v) =? ""),
    (Validator.len (Text.trim (Text.toString v)) <=? 200)%nat; reflexivity.
Qed.

Lemma titleErrors_nil required t :
  titleErrors required t = [] <-> t <> "" /\ (Validator.len t <= 200)%nat.
Proof.
  unfold titleErrors.
  destruct (String.eqb_spec t ""), (Nat.leb_spec (Validator.len t) 200);
    simpl; split; intros Hx; try discriminate; try tauto;
    destruct Hx; try contradiction; lia.
Qed.

Lemma len_le_length s : (Validator.len s <= Text.length s)%nat.
Proof. unfold Validator.len. lia. Qed.


Lemma newTask_owner (lib : Library) env b owner t :
  newTask lib env b owner = Some t ->
  Task.user t = owner /\ Task._id t = newId env.
Proof.
  unfold newTask.
  destruct (castDateField lib (b_dueDate b)) as [due |]; [| discriminate].
  match goal with |- context [Task.valid ?d] => destruct (Task.valid d) end;
    [| discriminate].
  intros E. injection E as <-. split; reflexivity.
Qed.

(** C9: whatever a create request carries in its body, a [user] member
    naming somebody else included, the request either persists nothing or
    appends one task, and that task's owner is the requesting user. *)
Theorem create_owner_is_requester (lib : Library) (db : Store) (u : User.doc)
    (env : Env)
    (b : TaskBody) (r : Response) (db' : Store) :
  createTask lib db u env b = (r, db') ->
  (db' = db /\ statusCode r <> 201)
  \/ exists t,
       db' = withTasks db (tasks db ++ [t])
       /\ r = respond 201 (TaskChanged "Task created successfully" (Some t))
       /\ Task.user t = User._id u.
Proof.
  unfold createTask. destruct (validateCreate lib b) as [b' errors].
  destruct (negb (isEmpty errors)).
  - intros E. injection E as <- <-. left. split; [reflexivity | discriminate].
  - destruct (newTask lib env b' (User._id u)) as [t |] eqn:Ht.
    + destruct (existsb _ (tasks db)).
      * intros E. injection E as <- <-. left.
        split; [reflexivity | discriminate].
      * intros E. injection E as <- <-. right. exists t.
        repeat split. now apply newTask_owner in Ht.
    + intros E. injection E as <- <-. left. split; [reflexivity | discriminate].
Qed.

(** *** The task list *)

Lemma listTasks_found db u q n found :
  listTasks db u q = Some (respond 200 (TaskList n found)) ->
  snd (validateList q) = []
  /\ n = List.length found
  /\ exists atoms,
       searchAtoms q atoms
       /\ found
          = Query.sort
              (Query.ordered (orDefault (q_sortBy q) "createdAt")
                 (if orDefault (q_sortOrder q) "desc" =? "asc"
                  then 1%Z else (-1)%Z))
              (filter (listFilter (User._id u) (q_status q) (q_priority q)
                         atoms) (tasks db)).
Proof.
  unfold listTasks, searchAtoms. rewrite validateList_eq. cbn [snd].
  match goal with |- context [isEmpty ?e] => destruct e eqn:E end;
    cbn [isEmpty negb q_search q_status q_priority q_sortBy q_sortOrder];
    [| discriminate].
  destruct (Text.truthy (option_map Text.trim (q_search q))).
  - destruct (Mongo.compile _) as [a | |] eqn:Hc; try discriminate.
    unfold findSorted. intros H. injection H as Hn Hf.
    repeat split; [congruence |]. exists (Some a). split; [eauto | congruence].
  - unfold findSorted. intros H. injection H as Hn Hf.
    repeat split; [congruence |]. exists None.
    split; [reflexivity | congruence].
Qed.




Lemma Sorted_weaken {A : Type} (R R' : A -> A -> Prop) (l : list A) :
  (forall a b, R a b -> R' a b) -> Sorted R l -> Sorted R' l.
Proof.
  intros Hw. induction 1 as [| x l Hs IH Hhd]; constructor.
  - exact IH.
  - destruct Hhd; constructor. now apply Hw.
Qed.

Lemma ordered_priority_up a b :
  Query.ordered "priority" 1 a b = (Task.priority a <=? Task.priority b)%string.
Proof.
  unfold Query.ordered, Query.compareBy, Query.notGt, String.leb. simpl.
  destruct (String.compare (Task.priority a) (Task.priority b)); reflexivity.
Qed.

Lemma ordered_priority_down a b :
  Query.ordered "priority" (-1) a b
  = (Task.priority b <=? Task.priority a)%string.
Proof.
  unfold Query.ordered, Query.compareBy, Query.notGt, String.leb. simpl.
  destruct (String.compare (Task.priority b) (Task.priority a)); reflexivity.
Qed.

(** C6: the answer to a task list request with [sortBy=priority] is in
    the order of the priority strings compared as text, upwards for
    [sortOrder=asc] and downwards otherwise; as text, [high] is before
    [low] and [low] before [medium]. *)
Theorem list_priority_order (db : Store) (u : User.doc) (q : ListQuery)
    (n : nat) (found : list Task.doc) :
  q_sortBy q = Some "priority" ->
  listTasks db u q = Some (respond 200 (TaskList n found)) ->
  (if orDefault (q_sortOrder q) "desc" =? "asc"
   then Sorted priorityUpTo found
   else Sorted (fun a b => priorityUpTo b a) found)
  /\ ("high" <? "low")%string = true
  /\ ("low" <? "medium")%string = true.
Proof.
  intros Hs Hl. split; [| split; reflexivity].
  apply listTasks_found in Hl. destruct Hl as (_ & _ & atoms & _ & ->).
  rewrite Hs. cbn [orDefault].
  destruct (orDefault (q_sortOrder q) "desc" =? "asc").
  - eapply Sorted_weaken; [| apply sort_Sorted].
    + intros a b H. unfold priorityUpTo.
      rewrite <- ordered_priority_up. exact H.
    + intros a b. rewrite !ordered_priority_up. apply String.leb_total.
  - eapply Sorted_weaken; [| apply sort_Sorted].
    + intros a b H. unfold priorityUpTo.
      rewrite <- ordered_priority_down. exact H.
    + intros a b. rewrite !ordered_priority_down. apply String.leb_total.
Qed.

(** *** Search *)







(** *** Tasks of other users *)

Lemma findOwned_none db oid uid :
  (forall t, In t (tasks db) -> Task._id t = oid -> Task.user t <> uid) ->
  findOwned db oid uid = None.
Proof.
  unfold findOwned, Query.findOne. induction (tasks db) as [| x l IH]; intros H.
  - reflexivity.
  - simpl. destruct (N.eqb_spec (Task._id x) oid) as [E | E]; simpl.
    + destruct (N.eqb_spec (Task.user x) uid) as [F | F].
      * exfalso. apply (H x); simpl; auto.
      * apply IH. intros t Ht. apply H. now right.
    + apply IH. intros t Ht. apply H. now right.
Qed.

Lemma updateTask_unowned (lib : Library) db u env i oid b :
  Mongo.castObjectId i = Some oid ->
  findOwned db oid (User._id u) = None ->
  updateTask lib db u env i b
  = (if isEmpty (snd (validateUpdate lib b)) then taskNotFound
     else validationFailed (snd (validateUpdate lib b)), db).
Proof.
  intros Hc Hf. unfold updateTask.
  destruct (validateUpdate lib b) as [b' errors]. cbn [snd].
  destruct (isEmpty errors); cbn [negb]; [| reflexivity].
  now rewrite Hc, Hf.
Qed.

(** C4, as the code has it: for a task identifier that belongs to another
    user, get and delete answer 404 "Task not found", and so does an update
    whose body the validators accept (an update whose body they reject is
    answered 400 before any lookup); each of the three answers what it
    answers for an identifier that no task has, none answers 401, and the
    collections are as they were. *)
Theorem foreign_task_not_found (lib : Library) (db : Store) (u : User.doc)
    (env : Env)
    (i : string) (oid : Mongo.ObjectId) :
  Mongo.castObjectId i = Some oid ->
  foreignId db (User._id u) oid ->
  getTask db u i = taskNotFound
  /\ deleteTask db u i = (taskNotFound, db)
  /\ (forall b, snd (validateUpdate lib b) = [] ->
                updateTask lib db u env i b = (taskNotFound, db))
  /\ (forall b, snd (updateTask lib db u env i b) = db
                /\ statusCode (fst (updateTask lib db u env i b)) <> 401)
  /\ (forall j oj,
         Mongo.castObjectId j = Some oj -> absentId db oj ->
         getTask db u j = getTask db u i
         /\ deleteTask db u j = deleteTask db u i
       /\ forall b,
            updateTask lib db u env j b = updateTask lib db u env i b).
Proof.
  intros Hc [_ Hforeign].
  pose proof (findOwned_none db oid (User._id u) Hforeign) as Hnone.
  assert (Hget : getTask db u i = taskNotFound).
  { unfold getTask. now rewrite Hc, Hnone. }
  assert (Hdel : deleteTask db u i = (taskNotFound, db)).
  { unfold deleteTask. now rewrite Hc, Hnone. }
  split; [exact Hget |]. split; [exact Hdel |]. split; [| split].
  - intros b Hb. rewrite (updateTask_unowned lib db u env i oid b Hc Hnone), Hb.
    reflexivity.
  - intros b. rewrite (updateTask_unowned lib db u env i oid b Hc Hnone).
    split; [reflexivity |]. cbn [fst]. destruct (isEmpty _); discriminate.
  - intros j oj Hj Habsent.
    assert (Hnone' : findOwned db oj (User._id u) = None).
    { apply findOwned_none. intros t Ht E. now destruct (Habsent t Ht). }
    split; [| split].
    + rewrite Hget. unfold getTask. now rewrite Hj, Hnone'.
    + rewrite Hdel. unfold deleteTask. now rewrite Hj, Hnone'.
    + intros b. rewrite (updateTask_unowned lib db u env i oid b Hc Hnone).
      now apply updateTask_unowned with (oid := oj).
Qed.

(** *** Authentication *)

(** C5: a profile or task request without an [Authorization] header, with
    a token that fails verification, or with a valid token whose user is
    not in the collection is answered 401 by [protect]; no user is attached
    to the request, no handler runs and the collections are as they were. *)
Theorem unauthenticated_rejected (lib : Library) (db : Store) (env : Env)
    (req : Request) :
  badCredentials lib db env (authorization req) ->
  exists r,
    protect lib db env (authorization req) = Rejected r
    /\ statusCode r = 401
    /\ serve lib db env req = Some (r, db).
Proof.
  intros Hbad.
  assert (H : exists r, protect lib db env (authorization req) = Rejected r
                        /\ statusCode r = 401).
  { unfold protect. destruct Hbad as [Hnone | [[f Hf] | [p [Hp Hu]]]].
    - rewrite Hnone. simpl. now exists notAuthorized.
    - destruct (Text.truthy (bearerToken (authorization req))); simpl.
      + rewrite Hf. now exists invalidToken.
      + now exists notAuthorized.
    - destruct (Text.truthy (bearerToken (authorization req))); simpl.
      + rewrite Hp. destruct (findUserById db (id p)) as [[u |] |].
        * now destruct (Hu u).
        * now exists userNotFound.
        * now exists invalidToken.
      + now exists notAuthorized. }
  destruct H as (r & Hr & Hcode). exists r. repeat split; try assumption.
  unfold serve. now rewrite Hr.
Qed.

Lemma isIn_In vs s : Text.isIn vs s = true <-> In s vs.
Proof.
  unfold Text.isIn. rewrite existsb_exists. split.
  - intros [x [Hx E]]. apply String.eqb_eq in E. now subst.
  - intros H. exists s. split; [exact H | apply String.eqb_refl].
Qed.

Lemma jwtVerify_inr (lib : Library) clock token secret p :
  secret <> "" ->
  jwtVerify lib clock token (Some secret) = inr p
  <-> signedBy lib secret token p /\ unexpiredAt clock p.
Proof.
  intros Hsecret.
  assert (Htruthy : Text.truthy (Some secret) = true).
  { simpl. now destruct (String.eqb_spec secret ""). }
  unfold jwtVerify, signedBy, unexpiredAt, hasSignature.
  rewrite Htruthy. cbn [negb andb Text.toString].
  split.
  - destruct (token =? ""); [discriminate |].
    destruct (Text.split "."%char token) as [| h [| b [| sg [| x l]]]] eqn:Hs;
      try discriminate.
    destruct (jwsDecode lib token) as [[alg p'] |]; [| discriminate].
    destruct (String.eqb_spec (Text.trim sg) "") as [E | E]; cbn [negb andb];
      [discriminate |].
    rewrite ?andb_false_r.
    destruct (Text.isIn hmacAlgorithms alg) eqn:Halg; cbn [negb];
      [| discriminate].
    destruct (jwsVerify lib token alg secret) eqn:Hmac; cbn [negb];
      [| discriminate].
    destruct (exp p') as [e |] eqn:He.
    + destruct (Z.leb_spec e clock) as [Hle | Hlt]; [discriminate |].
      intros Hp. injection Hp as <-. rewrite He. split; [| exact Hlt].
      exists h, b, sg, alg. repeat split; try assumption. now apply isIn_In.
    + intros Hp. injection Hp as <-. rewrite He. split; [| exact I].
      exists h, b, sg, alg. repeat split; try assumption. now apply isIn_In.
  - intros [(h & b & sg & alg & Hs & Hsg & Hd & Halg & Hmac) Hexp].
    assert (Hne : (token =? "") = false).
    { destruct (String.eqb_spec token ""); [| reflexivity].
      subst. discriminate. }
    rewrite Hne, Hs, Hd.
    destruct (String.eqb_spec (Text.trim sg) ""); [contradiction |].
    cbn [negb andb]. rewrite ?andb_false_r.
    apply isIn_In in Halg. rewrite Halg, Hmac. cbn [negb].
    destruct (exp p) as [e |]; [| reflexivity].
    destruct (Z.leb_spec e clock); [lia | reflexivity].
Qed.

(** C8: with a secret configured, [jwt.verify] on the token of the request
    gives the decoded payload, whose [id] [protect] then looks up, exactly
    when the token is signed under the secret and has not expired; in
    every other case it fails, and whatever the cause of the failure the
    [protect] gives the one answer, 401 "Invalid token. Please login again.". *)
Theorem verify_single_outcome (lib : Library) (db : Store) (env : Env)
    (header : option string) (token : string) :
  Text.truthy (JWT_SECRET env) = true ->
  bearerToken header = Some token -> token <> "" ->
  let clock := (now env / 1000)%Z in
  let secret := Text.toString (JWT_SECRET env) in
  (forall p, jwtVerify lib clock token (JWT_SECRET env) = inr p
             <-> signedBy lib secret token p /\ unexpiredAt clock p)
  /\ (forall p, signedBy lib secret token p /\ unexpiredAt clock p ->
                protect lib db env header = lookup db p)
  /\ ((forall p, ~ (signedBy lib secret token p /\ unexpiredAt clock p)) ->
      exists f, jwtVerify lib clock token (JWT_SECRET env) = inl f)
  /\ (forall f, jwtVerify lib clock token (JWT_SECRET env) = inl f ->
                protect lib db env header = Rejected invalidToken).
Proof.
  intros Hconf Hb Htok clock secret.
  assert (Hsec : (JWT_SECRET env) = Some secret /\ secret <> "").
  { subst secret. destruct (JWT_SECRET env) as [s |]; [| discriminate].
    split; [reflexivity |]. simpl in *. intros ->. discriminate. }
  destruct Hsec as [HJ Hsec].
  assert (Hiff : forall p, jwtVerify lib clock token (JWT_SECRET env) = inr p
                           <-> signedBy lib secret token p
                               /\ unexpiredAt clock p).
  { intros p. rewrite HJ. now apply jwtVerify_inr. }
  assert (Htruthy : Text.truthy (bearerToken header) = true).
  { rewrite Hb. simpl. now destruct (String.eqb_spec token ""). }
  split; [exact Hiff |]. split; [| split].
  - intros p Hp. apply Hiff in Hp. unfold protect, lookup.
    rewrite Htruthy, Hb. cbn [negb Text.toString]. fold clock. now rewrite Hp.
  - intros Hno.
    destruct (jwtVerify lib clock token (JWT_SECRET env)) as [f | p] eqn:E.
    + now exists f.
    + destruct (Hno p). now apply Hiff.
  - intros f Hf. unfold protect.
    rewrite Htruthy, Hb. cbn [negb Text.toString]. fold clock. now rewrite Hf.
Qed.

(** *** The owner under update *)

Lemma findOne_updateFirst {A : Type} (p : A -> bool) (f : A -> A) (l : list A) :
  (forall x, p (f x) = p x) ->
  Query.findOne p (Query.updateFirst p f l) = option_map f (Query.findOne p l).
Proof.
  intros Hp. unfold Query.findOne. induction l as [| x l IH]; simpl.
  - reflexivity.
  - destruct (p x) eqn:E; simpl.
    + now rewrite Hp, E.
    + now rewrite E.
Qed.

Lemma findOwned_findOne db oid uid t :
  findOwned db oid uid = Some t ->
  exists t0, Query.findOne (hasId oid) (tasks db) = Some t0.
Proof.
  unfold findOwned, Query.findOne, hasId.
  induction (tasks db) as [| x l IH]; simpl; [discriminate |].
  destruct (N.eqb (Task._id x) oid); simpl.
  - intros _. now exists x.
  - exact IH.
Qed.

(** An update whose body carries only [user] is accepted from the owner
    and stores the identifier it names as the task's owner. *)
Lemma update_sets_owner (lib : Library) db u env i oid s other t :
  Mongo.castObjectId i = Some oid ->
  findOwned db oid (User._id u) = Some t ->
  Mongo.castObjectId s = Some other ->
  exists t',
    fst (updateTask lib db u env i
           {| b_title := None; b_description := None; b_status := None;
              b_priority := None; b_dueDate := None; b_user := Some s |})
    = respond 200 (TaskChanged "Task updated successfully" (Some t'))
    /\ Task.user t' = other.
Proof.
  intros Hi Ht Hs. unfold updateTask, validateUpdate. cbn.
  rewrite Hi, Ht. unfold castUpdate. cbn. rewrite Hs. cbn.
  destruct (findOwned_findOne db oid _ t Ht) as [t0 Ht0].
  rewrite findOne_updateFirst by reflexivity. rewrite Ht0. cbn.
  eexists. split; reflexivity.
Qed.

(** *** Collections with unique identifiers *)

Lemma updateFirst_other {A : Type} (p : A -> bool) (f : A -> A) (l : list A)
    (a : A) :
  In a l -> p a = false -> In a (Query.updateFirst p f l).
Proof.
  induction l as [| x l IH]; simpl; [tauto |].
  intros [-> | Ha] Hp.
  - rewrite Hp. now left.
  - destruct (p x); simpl; [now right | right; now apply IH].
Qed.

Lemma updateFirst_In {A : Type} (p : A -> bool) (f : A -> A) (l : list A)
    (a : A) :
  In a (Query.updateFirst p f l) ->
  In a l \/ exists x, Query.findOne p l = Some x /\ a = f x.
Proof.
  unfold Query.findOne. induction l as [| x l IH]; simpl; [tauto |].
  destruct (p x); simpl.
  - intros [<- | Ha]; [right; now exists x | left; now right].
  - intros [<- | Ha]; [left; now left |].
    destruct (IH Ha) as [H | H]; [left; now right | now right].
Qed.

Lemma deleteFirst_incl {A : Type} (p : A -> bool) (l : list A) (a : A) :
  In a (Query.deleteFirst p l) -> In a l.
Proof.
  induction l as [| x l IH]; simpl; [tauto |].
  destruct (p x); simpl; [now right |].
  intros [-> | Ha]; [now left | right; now apply IH].
Qed.

Lemma deleteFirst_other {A : Type} (p : A -> bool) (l : list A) (a : A) :
  In a l -> p a = false -> In a (Query.deleteFirst p l).
Proof.
  induction l as [| x l IH]; simpl; [tauto |].
  intros [-> | Ha] Hp.
  - rewrite Hp. now left.
  - destruct (p x); simpl; [assumption | right; now apply IH].
Qed.

Section Keys.
Context {A : Type} (key : A -> N).

Lemma unique_by_key (l : list A) (a b : A) :
  NoDup (map key l) -> In a l -> In b l -> key a = key b -> a = b.
Proof.
  induction l as [| x l IH]; simpl; [tauto |].
  intros Hnd Ha Hb E. apply NoDup_cons_iff in Hnd. destruct Hnd as [Hx Hnd].
  destruct Ha as [<- | Ha], Hb as [<- | Hb]; auto.
  - exfalso. apply Hx. rewrite E. now apply in_map.
  - exfalso. apply Hx. rewrite <- E. now apply in_map.
Qed.

Lemma findOne_In (p : A -> bool) (l : list A) (a : A) :
  Query.findOne p l = Some a -> In a l /\ p a = true.
Proof. apply find_some. Qed.

Lemma findOne_unique (l : list A) (k : N) (a : A) :
  NoDup (map key l) -> In a l -> key a = k ->
  Query.findOne (fun x => (key x =? k)%N) l = Some a.
Proof.
  intros Hnd Ha Hk. unfold Query.findOne.
  destruct (find (fun x => (key x =? k)%N) l) as [b |] eqn:E.
  - apply find_some in E. destruct E as [Hb Ek]. apply N.eqb_eq in Ek.
    f_equal. apply (unique_by_key l b a Hnd Hb Ha). congruence.
  - apply (find_none _ _ E) in Ha. apply N.eqb_neq in Ha. contradiction.
Qed.

Lemma updateFirst_keys (p : A -> bool) (f : A -> A) (l : list A) :
  (forall x, key (f x) = key x) ->
  map key (Query.updateFirst p f l) = map key l.
Proof.
  intros Hf. induction l as [| x l IH]; simpl; [reflexivity |].
  destruct (p x); simpl; [now rewrite Hf | now rewrite IH].
Qed.

Lemma deleteFirst_keys (p : A -> bool) (l : list A) :
  NoDup (map key l) -> NoDup (map key (Query.deleteFirst p l)).
Proof.
  induction l as [| x l IH]; simpl; [trivial |].
  intros Hnd. apply NoDup_cons_iff in Hnd. destruct Hnd as [Hx Hnd].
  destruct (p x); simpl; [assumption |].
  constructor; [| now apply IH].
  intros Hin. apply Hx. apply in_map_iff in Hin.
  destruct Hin as (y & Ey & Hy). apply in_map_iff. exists y.
  split; [assumption | now apply deleteFirst_incl in Hy].
Qed.

Lemma deleteFirst_gone (l : list A) (k : N) (a : A) :
  NoDup (map key l) ->
  In a (Query.deleteFirst (fun x => (key x =? k)%N) l) -> key a <> k.
Proof.
  induction l as [| x l IH]; simpl; [tauto |].
  intros Hnd. apply NoDup_cons_iff in Hnd. destruct Hnd as [Hx Hnd].
  destruct (N.eqb_spec (key x) k) as [E | E]; simpl.
  - intros Ha Ek. apply Hx. rewrite E, <- Ek. now apply in_map.
  - intros [<- | Ha]; [assumption | now apply IH].
Qed.

End Keys.

(** *** Create, read, update, delete *)

Lemma createTask_created lib db u env b t db' :
  createTask lib db u env b
  = (respond 201 (TaskChanged "Task created successfully" (Some t)), db') ->
  snd (validateCreate lib b) = []
  /\ newTask lib env (fst (validateCreate lib b)) (User._id u) = Some t
  /\ freshId db (Task._id t)
  /\ db' = withTasks db (tasks db ++ [t]).
Proof.
  unfold createTask. destruct (validateCreate lib b) as [b' errors].
  cbn [fst snd]. destruct errors as [| e errors]; cbn [isEmpty negb];
    [| discriminate].
  destruct (newTask lib env b' (User._id u)) as [t0 |]; [| discriminate].
  destruct (existsb _ (tasks db)) eqn:Hex; [discriminate |].
  intros E. injection E as <- <-. repeat split.
  intros t' Hin Heq.
  assert (Hc : existsb (fun t'0 => (Task._id t'0 =? Task._id t0)%N) (tasks db)
               = true).
  { apply existsb_exists. exists t'. split; [assumption | now apply N.eqb_eq]. }
  congruence.
Qed.

Lemma findOwned_appended db t uid :
  freshId db (Task._id t) -> Task.user t = uid ->
  findOwned (withTasks db (tasks db ++ [t])) (Task._id t) uid = Some t.
Proof.
  unfold findOwned, Query.findOne, freshId, withTasks. cbn [tasks].
  intros Hfresh Hu. induction (tasks db) as [| x l IH]; simpl.
  - now rewrite N.eqb_refl, Hu, N.eqb_refl.
  - destruct (N.eqb_spec (Task._id x) (Task._id t)) as [E | E]; simpl.
    + exfalso. apply (Hfresh x); simpl; auto.
    + apply IH. intros t' Ht'. apply Hfresh. now right.
Qed.

(** X1. A task that [POST /api/tasks] has created is what [GET /api/tasks/:id]
    gives back to its creator under the identifier of the response. *)
Theorem create_then_get (lib : Library) (db db' : Store) (u : User.doc)
    (env : Env) (b : TaskBody) (t : Task.doc) (i : string) :
  createTask lib db u env b
  = (respond 201 (TaskChanged "Task created successfully" (Some t)), db') ->
  Mongo.castObjectId i = Some (Task._id t) ->
  getTask db' u i = respond 200 (OneTask t).
Proof.
  intros Hc Hi. apply createTask_created in Hc.
  destruct Hc as (_ & Hnew & Hfresh & ->).
  apply newTask_owner in Hnew. destruct Hnew as [Hu _].
  unfold getTask. rewrite Hi. now rewrite findOwned_appended.
Qed.

Lemma freshId_existsb db oid :
  freshId db oid ->
  existsb (fun t' => (Task._id t' =? oid)%N) (tasks db) = false.
Proof.
  intros Hfresh. destruct (existsb _ (tasks db)) eqn:E; [| reflexivity].
  apply existsb_exists in E. destruct E as (t & Ht & Eid).
  apply N.eqb_eq in Eid. now destruct (Hfresh t Ht).
Qed.

(** X2. A create request with nothing but a title that is, once trimmed of
    the white space of [\s], not empty and at most 200 UTF-16 code units
    long is answered 201 and appends one task: the trimmed title, status
    [todo], priority [medium], no due date, the requester as owner, both
    timestamps at the time of the request. *)
Theorem create_title_only (lib : Library) (db : Store) (u : User.doc)
    (env : Env) (s : string) (who : option string) :
  Text.trim s <> "" ->
  (Text.length (Text.trim s) <= 200)%nat ->
  freshId db (newId env) ->
  createTask lib db u env (titleOnly s who)
  = (respond 201
       (TaskChanged "Task created successfully"
          (Some (defaultTask env (Text.trim s) (User._id u)))),
     withTasks db (tasks db ++ [defaultTask env (Text.trim s) (User._id u)])).
Proof.
  intros Hne Hlen Hfresh. unfold createTask, validateCreate.
  rewrite run_title. cbn [titleOnly b_title b_description b_status b_priority
                          b_dueDate b_user Validator.run Text.toString].
  assert (Ht : titleErrors "Task title is required" (Text.trim s) = []).
  { apply titleErrors_nil. split; [exact Hne |].
    pose proof (len_le_length (Text.trim s)). lia. }
  rewrite Ht. cbn [app isEmpty negb]. unfold newTask.
  cbn [castDateField b_dueDate b_title b_description b_status b_priority
       orDefault option_map Text.toString].
  rewrite trim_idempotent. unfold Task.valid.
  cbn [Task.title Task.description Task.status Task.priority].
  destruct (String.eqb_spec (Text.trim s) ""); [contradiction |].
  apply Nat.leb_le in Hlen. rewrite Hlen. cbn [negb andb].
  change (Text.isIn Task.statuses "todo") with true.
  change (Text.isIn Task.priorities "medium") with true. cbn [andb].
  cbn [Task._id]. rewrite (freshId_existsb db (newId env) Hfresh).
  reflexivity.
Qed.

Lemma updateFirst_unique {A : Type} (key : A -> N) (f : A -> A) (k : N)
    (l : list A) (a : A) :
  NoDup (map key l) -> (forall x, key (f x) = key x) ->
  In a (Query.updateFirst (fun x => (key x =? k)%N) f l)
  <-> (exists x, In x l /\ key x = k /\ a = f x) \/ (In a l /\ key a <> k).
Proof.
  intros Hnd Hf. induction l as [| y l IH]; simpl.
  - split; [tauto | intros [(x & [] & _) | [[] _]]].
  - apply NoDup_cons_iff in Hnd. destruct Hnd as [Hy Hnd].
    destruct (N.eqb_spec (key y) k) as [E | E]; simpl.
    + split.
      * intros [<- | Ha]; [left; exists y; auto |].
        right. split; [now right |]. intros Ek. apply Hy.
        rewrite E, <- Ek. now apply in_map.
      * intros [(x & [<- | Hx] & Ek & ->) | [[<- | Ha] Hk]].
        -- now left.
        -- exfalso. apply Hy. rewrite E, <- Ek. now apply in_map.
        -- contradiction.
        -- now right.
    + rewrite (IH Hnd). split.
      * intros [<- | [(x & Hx & Ek & ->) | [Ha Hk]]].
        -- right. split; [now left | assumption].
        -- left. exists x. auto.
        -- right. split; [now right | assumption].
      * intros [(x & [<- | Hx] & Ek & ->) | [[<- | Ha] Hk]].
        -- contradiction.
        -- right. left. now exists x.
        -- now left.
        -- right. right. now split.
Qed.

Lemma findOwned_In db oid uid t :
  findOwned db oid uid = Some t ->
  In t (tasks db) /\ Task._id t = oid /\ Task.user t = uid.
Proof.
  unfold findOwned. intros H. apply findOne_In in H. destruct H as [Hin Hp].
  apply andb_true_iff in Hp. destruct Hp as [H1 H2].
  apply N.eqb_eq in H1, H2. auto.
Qed.

(** What each writing handler can do to the collections. *)
Lemma createTask_effect lib db u env b r db' :
  createTask lib db u env b = (r, db') ->
  (db' = db /\ statusCode r <> 201)
  \/ exists t, freshId db (Task._id t) /\ Task.user t = User._id u
               /\ db' = withTasks db (tasks db ++ [t]).
Proof.
  unfold createTask. destruct (validateCreate lib b) as [b' errors].
  destruct (negb (isEmpty errors)); [stays |].
  destruct (newTask lib env b' (User._id u)) as [t |] eqn:Ht;
    [| stays].
  destruct (existsb _ (tasks db)) eqn:Hex; [stays |].
  intros E. injection E as _ <-. right. exists t.
  apply newTask_owner in Ht. destruct Ht as [Hu _]. repeat split; auto.
  intros t' Hin Heq.
  assert (Hc : existsb (fun x => (Task._id x =? Task._id t)%N) (tasks db)
               = true).
  { apply existsb_exists. exists t'. split; [assumption | now apply N.eqb_eq]. }
  congruence.
Qed.

Lemma updateTask_effect lib db u env i b r db' :
  updateTask lib db u env i b = (r, db') ->
  (db' = db /\ statusCode r <> 200)
  \/ exists oid up t,
       Mongo.castObjectId i = Some oid
       /\ findOwned db oid (User._id u) = Some t
       /\ castUpdate lib (fst (validateUpdate lib b)) = Some up
       /\ r = respond 200
                (TaskChanged "Task updated successfully"
                   (Query.findOne (hasId oid)
                      (Query.updateFirst (hasId oid) (applyUpdate env up)
                         (tasks db))))
       /\ db' = withTasks db
                  (Query.updateFirst (hasId oid) (applyUpdate env up)
                     (tasks db)).
Proof.
  unfold updateTask. destruct (validateUpdate lib b) as [b' errors].
  cbn [fst].
  destruct (negb (isEmpty errors)); [stays |].
  destruct (Mongo.castObjectId i) as [oid |]; [| stays].
  destruct (findOwned db oid (User._id u)) as [t |] eqn:Ht;
    [| stays].
  destruct (castUpdate lib b') as [up |]; [| stays].
  destruct (negb (updateValid up)); [stays |].
  intros E. injection E as <- <-. right. exists oid, up, t. auto.
Qed.

Lemma deleteTask_effect db u i r db' :
  deleteTask db u i = (r, db') ->
  (db' = db /\ statusCode r <> 200)
  \/ exists oid t,
       Mongo.castObjectId i = Some oid
       /\ findOwned db oid (User._id u) = Some t
       /\ r = respond 200 (Message "Task deleted successfully")
       /\ db' = withTasks db (Query.deleteFirst (hasId oid) (tasks db)).
Proof.
  unfold deleteTask.
  destruct (Mongo.castObjectId i) as [oid |]; [| stays].
  destruct (findOwned db oid (User._id u)) as [t |] eqn:Ht;
    [| stays].
  intros E. injection E as <- <-. right. exists oid, t. auto.
Qed.

Lemma updateProfile_effect lib db u env b r db' :
  updateProfile lib db u env b = (r, db') ->
  (db' = db /\ statusCode r <> 200)
  \/ exists old,
       Query.findOne (isUser (User._id u)) (users db) = Some old
       /\ snd (validateProfile lib b) = []
       /\ r = respond 200
                (Profile (Some "Profile updated successfully")
                   (publicUser false
                      (applyProfile env (fst (validateProfile lib b)) old)))
       /\ db' = withUsers db
                  (Query.updateFirst (isUser (User._id u))
                     (applyProfile env (fst (validateProfile lib b)))
                     (users db)).
Proof.
  unfold updateProfile. destruct (validateProfile lib b) as [b' errors].
  cbn [fst snd].
  destruct errors as [| e errors]; cbn [isEmpty negb];
    [| stays].
  destruct (_ && _); [stays |].
  destruct (Query.findOne _ (users db)) as [old |];
    [| stays].
  destruct (negb (userValid _)); [stays |].
  intros E. injection E as <- <-. right. exists old. auto.
Qed.


(** X3. In a collection with unique identifiers, a delete by the owner is
    answered 200, removes the task with that identifier and no other,
    leaves the users alone, and a get of the identifier is answered 404
    afterwards. *)
Theorem delete_removes_task (db : Store) (u : User.doc) (i : string)
    (oid : Mongo.ObjectId) (t : Task.doc) :
  uniqueTaskIds db ->
  Mongo.castObjectId i = Some oid ->
  findOwned db oid (User._id u) = Some t ->
  exists db',
    deleteTask db u i = (respond 200 (Message "Task deleted successfully"), db')
    /\ users db' = users db
    /\ (forall x, In x (tasks db') <-> In x (tasks db) /\ Task._id x <> oid)
    /\ getTask db' u i = taskNotFound.
Proof.
  intros Hnd Hi Ht. eexists. unfold deleteTask. rewrite Hi, Ht.
  split; [reflexivity |]. split; [reflexivity |].
  assert (Hiff : forall x,
             In x (Query.deleteFirst (hasId oid) (tasks db))
             <-> In x (tasks db) /\ Task._id x <> oid).
  { intros x. split.
    - intros Hx. split; [now apply deleteFirst_incl in Hx |].
      now apply (deleteFirst_gone Task._id (tasks db) oid x Hnd).
    - intros [Hx Hk]. apply deleteFirst_other; [assumption |].
      now apply N.eqb_neq. }
  split; [exact Hiff |].
  unfold getTask. rewrite Hi. rewrite findOwned_none; [reflexivity |].
  intros x Hx Ex. cbn [tasks withTasks] in Hx. apply Hiff in Hx. tauto.
Qed.

Lemma validateUpdate_fields lib b :
  fst (validateUpdate lib b)
  = {| b_title := option_map Text.trim (b_title b);
       b_description := option_map Text.trim (b_description b);
       b_status := b_status b; b_priority := b_priority b;
       b_dueDate := b_dueDate b; b_user := b_user b |}.
Proof.
  destruct b as [[ti |] [de |] [st |] [pr |] [du |] us]; reflexivity.
Qed.


(** *** What every request keeps *)

Lemma NoDup_snoc (l : list N) (k : N) :
  NoDup l -> ~ In k l -> NoDup (l ++ [k]).
Proof.
  intros Hl Hk. apply (NoDup_Add (a := k) (l := l)).
  - rewrite <- (app_nil_r l) at 1. apply Add_app.
  - now split.
Qed.

(** X5. Whatever the request, the collections keep identifiers unique: no two
    tasks share an [_id] after it if none did before, and likewise for
    users. *)
Theorem serve_keeps_ids_unique (lib : Library) (db db' : Store) (env : Env)
    (req : Request) (r : Response) :
  serve lib db env req = Some (r, db') ->
  uniqueTaskIds db -> uniqueUserIds db ->
  uniqueTaskIds db' /\ uniqueUserIds db'.
Proof.
  unfold serve, uniqueTaskIds, uniqueUserIds, unchanged.
  intros Hs Ht Hu.
  destruct (protect lib db env (authorization req)) as [r0 | u].
  { injection Hs as _ <-. now split. }
  destruct (route req) as [| b | q | i | b | i b | i].
  - injection Hs as _ <-. now split.
  - injection Hs as Hs.
    destruct (updateProfile_effect _ _ _ _ _ _ _ Hs)
      as [[-> _] | (old & _ & _ & _ & ->)]; [now split |].
    cbn [tasks users withUsers]. split; [assumption |].
    now rewrite (updateFirst_keys User._id).
  - destruct (listTasks db u q); [| discriminate].
    injection Hs as _ <-. now split.
  - injection Hs as _ <-. now split.
  - injection Hs as Hs.
    destruct (createTask_effect _ _ _ _ _ _ _ Hs)
      as [[-> _] | (t & Hfresh & _ & ->)]; [now split |].
    cbn [tasks users withTasks]. split; [| assumption].
    rewrite map_app. apply NoDup_snoc; [assumption |].
    intros Hin. apply in_map_iff in Hin. destruct Hin as (x & Ex & Hx).
    now destruct (Hfresh x Hx).
  - injection Hs as Hs.
    destruct (updateTask_effect _ _ _ _ _ _ _ _ Hs)
      as [[-> _] | (oid & up & t & _ & _ & _ & _ & ->)]; [now split |].
    cbn [tasks users withTasks]. split; [| assumption].
    now rewrite (updateFirst_keys Task._id).
  - injection Hs as Hs.
    destruct (deleteTask_effect _ _ _ _ _ Hs)
      as [[-> _] | (oid & t & _ & _ & _ & ->)]; [now split |].
    cbn [tasks users withTasks]. split; [| assumption].
    now apply (deleteFirst_keys Task._id).
Qed.

(** X6. In a collection with unique identifiers no request changes or removes
    a task of somebody other than the authenticated requester: such a task
    is in the collection afterwards as it was before. *)
Theorem serve_spares_other_users (lib : Library) (db db' : Store) (env : Env)
    (req : Request) (r : Response) (t : Task.doc) :
  serve lib db env req = Some (r, db') ->
  uniqueTaskIds db ->
  In t (tasks db) ->
  (forall u, protect lib db env (authorization req) = Attached u ->
             Task.user t <> User._id u) ->
  In t (tasks db').
Proof.
  unfold serve, unchanged. intros Hs Hnd Hin Hother.
  destruct (protect lib db env (authorization req)) as [r0 | u].
  { now injection Hs as _ <-. }
  specialize (Hother u eq_refl).
  assert (Hnot : forall oid x,
             findOwned db oid (User._id u) = Some x -> hasId oid t = false).
  { intros oid x Hx. apply findOwned_In in Hx. destruct Hx as (Hx & Hid & Hux).
    apply N.eqb_neq. intros E. apply Hother.
    rewrite <- Hux. f_equal.
    apply (unique_by_key Task._id (tasks db) t x Hnd Hin Hx). congruence. }
  destruct (route req) as [| b | q | i | b | i b | i].
  - now injection Hs as _ <-.
  - injection Hs as Hs.
    destruct (updateProfile_effect _ _ _ _ _ _ _ Hs)
      as [[-> _] | (old & _ & _ & _ & ->)]; assumption.
  - destruct (listTasks db u q); [| discriminate]. now injection Hs as _ <-.
  - now injection Hs as _ <-.
  - injection Hs as Hs.
    destruct (createTask_effect _ _ _ _ _ _ _ Hs)
      as [[-> _] | (x & _ & _ & ->)]; [assumption |].
    cbn [tasks withTasks]. apply in_or_app. now left.
  - injection Hs as Hs.
    destruct (updateTask_effect _ _ _ _ _ _ _ _ Hs)
      as [[-> _] | (oid & up & x & _ & Hx & _ & _ & ->)]; [assumption |].
    cbn [tasks withTasks]. apply updateFirst_other; [assumption |].
    now apply (Hnot oid x).
  - injection Hs as Hs.
    destruct (deleteTask_effect _ _ _ _ _ Hs)
      as [[-> _] | (oid & x & _ & Hx & _ & ->)]; [assumption |].
    cbn [tasks withTasks]. apply deleteFirst_other; [assumption |].
    now apply (Hnot oid x).
Qed.

(** *** Identifiers that do not cast *)

Lemma hexValue_bad (s : string) (acc : N) (c : ascii) :
  In c (list_ascii_of_string s) -> Mongo.hexDigit c = None ->
  Mongo.hexValue acc s = None.
Proof.
  revert acc. induction s as [| d s IH]; simpl; [tauto |].
  intros acc [<- | Hin] Hc.
  - now rewrite Hc.
  - destruct (Mongo.hexDigit d); [now apply IH | reflexivity].
Qed.

Lemma castObjectId_bad (i : string) :
  String.length i <> 24%nat
  \/ (exists c, In c (list_ascii_of_string i) /\ Mongo.hexDigit c = None) ->
  Mongo.castObjectId i = None.
Proof.
  unfold Mongo.castObjectId. intros [Hlen | (c & Hin & Hc)].
  - apply Nat.eqb_neq in Hlen. now rewrite Hlen.
  - destruct (_ =? _)%nat; [| reflexivity]. now apply hexValue_bad with c.
Qed.

(** X8. A task identifier that is not 24 characters long or has a character
    that is not a hexadecimal digit is answered 400 "Invalid task ID" by
    get and delete, and by an update whose body the validators accept; the
    collections are as they were. *)
Theorem malformed_id_rejected (lib : Library) (db : Store) (u : User.doc)
    (env : Env) (i : string) :
  String.length i <> 24%nat
  \/ (exists c, In c (list_ascii_of_string i) /\ Mongo.hexDigit c = None) ->
  getTask db u i = invalidTaskId
  /\ deleteTask db u i = (invalidTaskId, db)
  /\ forall b, snd (validateUpdate lib b) = [] ->
               updateTask lib db u env i b = (invalidTaskId, db).
Proof.
  intros H. apply castObjectId_bad in H.
  unfold getTask, deleteTask, updateTask. rewrite H.
  repeat split. intros b Hb.
  destruct (validateUpdate lib b) as [b' errors]. cbn [snd] in Hb.
  now rewrite Hb.
Qed.

(** X9. An update by the owner whose body passes the validators and carries a
    [user] member that is not a well-formed identifier is answered 400
    "Invalid task ID", although the identifier of the task is valid; the
    collections are as they were. *)
Theorem update_bad_owner_member (lib : Library) (db : Store) (u : User.doc)
    (env : Env) (i : string) (oid : Mongo.ObjectId) (t : Task.doc)
    (b : TaskBody) (w : string) :
  Mongo.castObjectId i = Some oid ->
  findOwned db oid (User._id u) = Some t ->
  snd (validateUpdate lib b) = [] ->
  b_user b = Some w -> Mongo.castObjectId w = None ->
  updateTask lib db u env i b = (invalidTaskId, db).
Proof.
  intros Hi Ht Hb Hw Hbad. unfold updateTask.
  pose proof (validateUpdate_fields lib b) as Hf.
  destruct (validateUpdate lib b) as [b' errors]. cbn [fst snd] in *.
  subst errors b'. cbn [isEmpty negb]. rewrite Hi, Ht.
  unfold castUpdate. cbn [b_dueDate b_user]. rewrite Hw. cbn [option_map].
  rewrite Hbad. cbn [option_map].
  now destruct (match b_dueDate b with
                | None => _ | Some d => _ end).
Qed.

(** *** The task list: acceptance, count, order *)

Lemma absentOrIn_errors p vs m v :
  enumErrors p vs m v = [] <-> absentOrIn v vs.
Proof.
  rewrite enumErrors_nil. destruct v as [s |]; simpl; [| tauto].
  apply isIn_In.
Qed.

Lemma validateList_accepts q : snd (validateList q) = [] <-> listAccepted q.
Proof.
  rewrite validateList_eq. cbn [snd]. unfold listAccepted. split.
  - intros E. apply app_eq_nil in E. destruct E as [E1 E].
    apply app_eq_nil in E. destruct E as [E2 E].
    apply app_eq_nil in E. destruct E as [E3 E4].
    repeat split; eapply absentOrIn_errors; eassumption.
  - intros (H1 & H2 & H3 & H4).
    rewrite (proj2 (absentOrIn_errors _ _ _ _) H1),
      (proj2 (absentOrIn_errors _ _ _ _) H2),
      (proj2 (absentOrIn_errors _ _ _ _) H3),
      (proj2 (absentOrIn_errors _ _ _ _) H4).
    reflexivity.
Qed.

(** X10. A task list request is answered 400 with validation errors exactly
    when [status], [priority], [sortBy] or [sortOrder] is present and not
    one of its enumerated values; the search text never is a reason. *)
Theorem list_rejected_iff (db : Store) (u : User.doc) (q : ListQuery) :
  (exists errors,
      listTasks db u q = Some (respond 400 (ValidationFailed errors)))
  <-> ~ listAccepted q.
Proof.
  rewrite <- validateList_accepts. unfold listTasks.
  destruct (validateList q) as [q' errors]. cbn [snd].
  destruct errors as [| e errors]; cbn [isEmpty negb].
  - split; [| intros H; now destruct H].
    intros [errors H] _. unfold findSorted in H.
    destruct (Text.truthy (q_search q')); [| discriminate].
    destruct (Mongo.compile _); discriminate.
  - split; [intros _; discriminate |]. intros _. now eexists.
Qed.

(** X11. A search text that is empty once trimmed, that is one of nothing but
    white space of [\s], changes nothing: the answer is the answer to the
    request without [search]. *)
Theorem blank_search_ignored (db : Store) (u : User.doc) (q : ListQuery)
    (s : string) :
  q_search q = Some s -> Text.trim s = "" ->
  listTasks db u q = listTasks db u (withoutSearch q).
Proof.
  intros Hs Ht. unfold listTasks. rewrite !validateList_eq.
  cbn [withoutSearch q_status q_priority q_search q_sortBy q_sortOrder
       option_map]. rewrite Hs. cbn [option_map]. rewrite Ht.
  reflexivity.
Qed.

Lemma insert_Permutation {A : Type} (le : A -> A -> bool) (x : A) (l : list A) :
  Permutation (Query.insert le x l) (x :: l).
Proof.
  induction l as [| y l IH]; simpl; [reflexivity |].
  destruct (le x y); [reflexivity |].
  rewrite IH. apply perm_swap.
Qed.

Lemma sort_Permutation {A : Type} (le : A -> A -> bool) (l : list A) :
  Permutation (Query.sort le l) l.
Proof.
  induction l as [| x l IH]; simpl; [reflexivity |].
  rewrite insert_Permutation. now constructor.
Qed.

Lemma filter_keys_NoDup {A : Type} (key : A -> N) (p : A -> bool)
    (l : list A) :
  NoDup (map key l) -> NoDup (map key (filter p l)).
Proof.
  induction l as [| x l IH]; simpl; [trivial |].
  intros Hnd. apply NoDup_cons_iff in Hnd. destruct Hnd as [Hx Hnd].
  destruct (p x); simpl; [| now apply IH].
  constructor; [| now apply IH].
  intros Hin. apply Hx. apply in_map_iff in Hin.
  destruct Hin as (y & Ey & Hy). apply in_map_iff. exists y.
  split; [assumption | now apply filter_In in Hy].
Qed.

(** X12. In the answer to a task list request, [count] is the number of tasks
    listed and each of them is a task of the collection; the answer is no
    longer than the collection, and it holds no identifier twice when the
    collection holds none twice. *)
Theorem list_count (db : Store) (u : User.doc) (q : ListQuery) (n : nat)
    (found : list Task.doc) :
  listTasks db u q = Some (respond 200 (TaskList n found)) ->
  n = List.length found
  /\ incl found (tasks db)
  /\ (List.length found <= List.length (tasks db))%nat
  /\ (uniqueTaskIds db -> NoDup (map Task._id found)).
Proof.
  intros H. apply listTasks_found in H.
  destruct H as (_ & Hn & atoms & _ & Hf).
  pose proof (sort_Permutation
                (Query.ordered (orDefault (q_sortBy q) "createdAt")
                   (if orDefault (q_sortOrder q) "desc" =? "asc"
                    then 1%Z else (-1)%Z))
                (filter (listFilter (User._id u) (q_status q) (q_priority q)
                           atoms) (tasks db))) as Hperm.
  rewrite <- Hf in Hperm. split; [exact Hn |]. split; [| split].
  - intros x Hx. apply (Permutation_in _ Hperm) in Hx.
    now apply filter_In in Hx.
  - rewrite (Permutation_length Hperm). apply filter_length_le.
  - intros Hnd. apply (Permutation_NoDup (Permutation_sym
                                            (Permutation_map Task._id Hperm))).
    now apply filter_keys_NoDup.
Qed.

Lemma compareNullable_antisym a b :
  Query.compareNullable a b = CompOpp (Query.compareNullable b a).
Proof.
  destruct a, b; simpl; try reflexivity. apply Z.compare_antisym.
Qed.

Lemma compareBy_antisym field a b :
  Query.compareBy field a b = CompOpp (Query.compareBy field b a).
Proof.
  unfold Query.compareBy.
  destruct (field =? "createdAt"); [apply Z.compare_antisym |].
  destruct (field =? "dueDate"); [apply compareNullable_antisym |].
  destruct (field =? "priority"); [apply String.compare_antisym |].
  destruct (field =? "title"); [apply String.compare_antisym | reflexivity].
Qed.

Lemma ordered_total field d a b :
  Query.ordered field d a b = true \/ Query.ordered field d b a = true.
Proof.
  unfold Query.ordered, Query.notGt.
  destruct (d =? 1)%Z; rewrite (compareBy_antisym field a b);
    destruct (Query.compareBy field b a); simpl; auto.
Qed.

Lemma ordered_fieldLe field a b :
  Query.ordered field 1 a b = true -> fieldLe field a b.
Proof.
  unfold Query.ordered, Query.compareBy, Query.notGt, fieldLe. cbn [Z.eqb].
  change (1 =? 1)%positive with true. cbv iota.
  destruct (field =? "createdAt").
  { intros H. apply Z.compare_le_iff. intros E. now rewrite E in H. }
  destruct (field =? "dueDate").
  { destruct (Task.dueDate a), (Task.dueDate b); simpl; try easy.
    intros H. apply Z.compare_le_iff. intros E. now rewrite E in H. }
  destruct (field =? "priority").
  { unfold String.leb. now destruct (String.compare _ _). }
  destruct (field =? "title"); [| trivial].
  unfold String.leb. now destruct (String.compare _ _).
Qed.

(** X13. The answer to a task list request is in the order of the field that
    [sortBy] names, creation time when it names none: upwards for
    [sortOrder=asc], downwards otherwise, so that a request without either
    parameter lists the newest task first.  On [dueDate] a task without a
    due date is before every task with one when the order is upwards. *)
Theorem list_sorted (db : Store) (u : User.doc) (q : ListQuery) (n : nat)
    (found : list Task.doc) :
  listTasks db u q = Some (respond 200 (TaskList n found)) ->
  if orDefault (q_sortOrder q) "desc" =? "asc"
  then Sorted (fieldLe (orDefault (q_sortBy q) "createdAt")) found
  else Sorted (fun a b => fieldLe (orDefault (q_sortBy q) "createdAt") b a)
         found.
Proof.
  intros H. apply listTasks_found in H.
  destruct H as (_ & _ & atoms & _ & ->).
  destruct (orDefault (q_sortOrder q) "desc" =? "asc").
  - eapply Sorted_weaken; [| apply sort_Sorted; intros a b;
                               apply ordered_total].
    intros a b. apply ordered_fieldLe.
  - eapply Sorted_weaken; [| apply sort_Sorted; intros a b;
                               apply ordered_total].
    intros a b. cbv beta. intros Hab. apply ordered_fieldLe. exact Hab.
Qed.

(** *** The header, the attached user, the profile behind the middleware *)

Lemma split_spaceless (s : string) :
  spaceless s = true -> Text.split " " s = [s].
Proof.
  induction s as [| c s IH]; simpl; [reflexivity |].
  rewrite andb_true_iff, negb_true_iff. intros [Hc Hs].
  now rewrite Hc, (IH Hs).
Qed.

(** X16. The header [Bearer t], for a token [t] without spaces, gives the token
    back; a header that does not start with [Bearer] (the comparison takes
    letter case into account) gives none and is answered 401 "Not
    authorized". *)
Theorem bearer_round_trip (lib : Library) (db : Store) (env : Env)
    (t h : string) :
  (spaceless t = true -> bearerToken (Some ("Bearer " ++ t)%string) = Some t)
  /\ (Text.startsWith h "Bearer" = false ->
      bearerToken (Some h) = None
      /\ protect lib db env (Some h) = Rejected notAuthorized).
Proof.
  split.
  - intros Ht. unfold bearerToken. cbn. now rewrite (split_spaceless t Ht).
  - intros Hh. assert (Hb : bearerToken (Some h) = None).
    { unfold bearerToken. rewrite Hh. now rewrite andb_false_r. }
    split; [exact Hb |]. unfold protect. now rewrite Hb.
Qed.

(** X17. When the middleware attaches a user, it is a user of the collection,
    the one whose identifier the verified token of the header names, and it
    carries no password. *)
Theorem attached_user (lib : Library) (db : Store) (env : Env)
    (header : option string) (u : User.doc) :
  protect lib db env header = Attached u ->
  User.password u = None
  /\ exists token p stored,
       bearerToken header = Some token
       /\ jwtVerify lib (now env / 1000) token (JWT_SECRET env) = inr p
       /\ Mongo.castObjectId (id p) = Some (User._id u)
       /\ In stored (users db)
       /\ u = User.withoutPassword stored.
Proof.
  unfold protect. destruct (bearerToken header) as [token |]; [| discriminate].
  destruct (Text.truthy (Some token)); cbn [negb]; [| discriminate].
  cbn [Text.toString].
  destruct (jwtVerify lib (now env / 1000) token (JWT_SECRET env))
    as [f | p] eqn:Hv; [discriminate |].
  unfold findUserById.
  destruct (Mongo.castObjectId (id p)) as [oid |] eqn:Hc; [| discriminate].
  destruct (Query.findOne _ (users db)) as [stored |] eqn:Hf; [| discriminate].
  intros E. injection E as <-. split; [reflexivity |].
  apply findOne_In in Hf. destruct Hf as [Hin Hid]. apply N.eqb_eq in Hid.
  exists token, p, stored. repeat split; try assumption.
  now rewrite Hc, <- Hid.
Qed.

Lemma attached_found lib db env header u :
  protect lib db env header = Attached u ->
  exists stored,
    Query.findOne (isUser (User._id u)) (users db) = Some stored
    /\ User._id stored = User._id u.
Proof.
  unfold protect. destruct (bearerToken header) as [token |]; [| discriminate].
  destruct (Text.truthy (Some token)); cbn [negb]; [| discriminate].
  destruct (jwtVerify _ _ _ _) as [f | p]; [discriminate |].
  unfold findUserById.
  destruct (Mongo.castObjectId (id p)) as [oid |]; [| discriminate].
  destruct (Query.findOne _ (users db)) as [stored |] eqn:Hf; [| discriminate].
  intros E. injection E as <-. exists stored.
  pose proof (findOne_In _ _ _ Hf) as [_ Hid]. apply N.eqb_eq in Hid.
  cbn [User.withoutPassword User._id]. split; [| reflexivity].
  unfold isUser. now rewrite Hid.
Qed.

(** X19. [GET /api/profile] through the middleware is answered 401 or 200,
    never 404, and changes nothing; a 200 answer shows a user of the
    collection. *)
Theorem profile_behind_middleware (lib : Library) (db db' : Store)
    (env : Env) (header : option string) (r : Response) :
  serve lib db env {| authorization := header; route := GetProfile |}
  = Some (r, db') ->
  db' = db
  /\ (statusCode r = 401
      \/ exists stored,
           In stored (users db)
           /\ r = respond 200 (Profile None (publicUser true stored))).
Proof.
  unfold serve, unchanged. cbn [authorization route].
  destruct (protect lib db env header) as [r0 | u] eqn:Hp.
  - intros E. injection E as <- <-. split; [reflexivity |]. left.
    unfold protect in Hp.
    destruct (negb _) in Hp; [now injection Hp as <- |].
    destruct (jwtVerify _ _ _ _) in Hp; [now injection Hp as <- |].
    destruct (findUserById _ _) as [[x |] |] in Hp;
      [discriminate | now injection Hp as <- | now injection Hp as <-].
  - intros E. injection E as <- <-. split; [reflexivity |]. right.
    destruct (attached_found _ _ _ _ _ Hp) as (stored & Hf & _).
    unfold getProfile. rewrite Hf. exists stored.
    split; [now apply findOne_In in Hf | reflexivity].
Qed.

(** *** Profile updates *)

Lemma validateProfile_fields lib b :
  fst (validateProfile lib b)
  = {| b_name := option_map Text.trim (b_name b);
       b_email := option_map (normalizeEmail lib) (b_email b);
       b_avatar := b_avatar b |}.
Proof. destruct b as [[na |] [em |] av]; reflexivity. Qed.

(** X20. A profile update whose body passes the validators and whose email,
    once normalised, is the email of another user is answered 400 "Email
    is already taken by another user" and changes nothing. *)
Theorem profile_email_taken (lib : Library) (db : Store) (u : User.doc)
    (env : Env) (b : ProfileBody) (e : string) (other : User.doc) :
  snd (validateProfile lib b) = [] ->
  b_email b = Some e -> normalizeEmail lib e <> "" ->
  In other (users db) ->
  User.email other = normalizeEmail lib e ->
  User._id other <> User._id u ->
  updateProfile lib db u env b
  = (respond 400 (Message "Email is already taken by another user"), db).
Proof.
  intros Hv He Hne Hin Hmail Hid. unfold updateProfile.
  pose proof (validateProfile_fields lib b) as Hf.
  destruct (validateProfile lib b) as [b' errors]. cbn [fst snd] in *.
  subst errors b'. cbn [isEmpty negb b_email]. rewrite He.
  cbn [option_map Text.truthy Text.toString].
  destruct (String.eqb_spec (normalizeEmail lib e) ""); [contradiction |].
  cbn [negb andb].
  assert (Hex : existsb
                  (fun o => (User.email o =? normalizeEmail lib e)
                            && negb (isUser (User._id u) o)) (users db)
                = true).
  { apply existsb_exists. exists other. split; [assumption |].
    rewrite Hmail, String.eqb_refl. unfold isUser.
    apply N.eqb_neq in Hid. now rewrite Hid. }
  now rewrite Hex.
Qed.

Lemma updateFirst_emails (uid : Mongo.ObjectId) (g : User.doc -> User.doc)
    (e : string) (l : list User.doc) :
  NoDup (map User._id l) -> NoDup (map User.email l) ->
  (forall o, In o l -> User.email o = e -> User._id o = uid) ->
  (forall o, User.email (g o) = e) ->
  NoDup (map User.email (Query.updateFirst (isUser uid) g l)).
Proof.
  intros Hid Hem Hown Hg. induction l as [| x l IH]; simpl; [constructor |].
  cbn [map] in Hid, Hem. apply NoDup_cons_iff in Hid, Hem.
  destruct Hid as [Hxid Hid], Hem as [Hxem Hem].
  unfold isUser at 1. destruct (N.eqb_spec (User._id x) uid) as [E | E]; simpl.
  - constructor; [| assumption]. rewrite Hg. intros Hin.
    apply in_map_iff in Hin. destruct Hin as (o & Eo & Ho).
    apply Hxid. apply in_map_iff. exists o. split; [| assumption].
    rewrite E. apply Hown; [now right | assumption].
  - constructor.
    + intros Hin. apply in_map_iff in Hin. destruct Hin as (o & Eo & Ho).
      apply updateFirst_In in Ho. destruct Ho as [Ho | (y & _ & ->)].
      * apply Hxem. apply in_map_iff. now exists o.
      * rewrite Hg in Eo. apply E. apply Hown; [now left | now symmetry].
    + apply IH; try assumption. intros o Ho. apply Hown. now right.
Qed.

Lemma updateFirst_map {A B : Type} (h : A -> B) (p : A -> bool) (g : A -> A)
    (l : list A) :
  (forall x, h (g x) = h x) ->
  map h (Query.updateFirst p g l) = map h l.
Proof.
  intros Hg. induction l as [| x l IH]; simpl; [reflexivity |].
  destruct (p x); simpl; [now rewrite Hg | now rewrite IH].
Qed.

(** X21. The check of the handler keeps emails unique: if no two users share an
    identifier or an email before a profile update, none share an email
    after it. *)
Theorem profile_keeps_emails_unique (lib : Library) (db db' : Store)
    (u : User.doc) (env : Env) (b : ProfileBody) (r : Response) :
  updateProfile lib db u env b = (r, db') ->
  uniqueUserIds db -> uniqueEmails db -> uniqueEmails db'.
Proof.
  unfold uniqueUserIds, uniqueEmails. intros Hup Hid Hem.
  unfold updateProfile in Hup. destruct (validateProfile lib b) as [b' errors].
  destruct (negb (isEmpty errors)); [now injection Hup as _ <- |].
  destruct (Text.truthy (b_email b')) eqn:Ht; cbn [andb] in Hup.
  - destruct (existsb _ (users db)) eqn:Hex; [now injection Hup as _ <- |].
    destruct (Query.findOne _ (users db)) as [old |];
      [| now injection Hup as _ <-].
    destruct (negb (userValid _)); [now injection Hup as _ <- |].
    injection Hup as _ <-. cbn [users withUsers].
    apply updateFirst_emails with (e := Text.toString (b_email b'));
      try assumption.
    + intros o Ho Eo.
      destruct (N.eqb_spec (User._id o) (User._id u)) as [E | E];
        [assumption |].
      exfalso.
      assert (Hc : existsb
                     (fun o0 => (User.email o0 =? Text.toString (b_email b'))
                                && negb (isUser (User._id u) o0)) (users db)
                   = true).
      { apply existsb_exists. exists o. split; [assumption |].
        rewrite Eo, String.eqb_refl. unfold isUser.
        apply N.eqb_neq in E. now rewrite E. }
      congruence.
    + intros o. unfold applyProfile. cbn [User.email]. now rewrite Ht.
  - destruct (Query.findOne _ (users db)) as [old |];
      [| now injection Hup as _ <-].
    destruct (negb (userValid _)); [now injection Hup as _ <- |].
    injection Hup as _ <-. cbn [users withUsers].
    rewrite updateFirst_map; [assumption |].
    intros x. unfold applyProfile. cbn [User.email]. now rewrite Ht.
Qed.

(** X22. In a collection with unique identifiers, a profile update that is
    answered 200 rewrites the requester's record and no other, and no task:
    identifier, password and creation time stay, [updatedAt] becomes the
    time of the request, and a member the body leaves out keeps its stored
    value. *)
Theorem profile_update_effect (lib : Library) (db db' : Store) (u : User.doc)
    (env : Env) (b : ProfileBody) (r : Response) :
  uniqueUserIds db ->
  updateProfile lib db u env b = (r, db') ->
  statusCode r = 200 ->
  exists old new,
    In old (users db) /\ User._id old = User._id u
    /\ r = respond 200
             (Profile (Some "Profile updated successfully")
                (publicUser false new))
    /\ User._id new = User._id old
    /\ User.password new = User.password old
    /\ User.createdAt new = User.createdAt old
    /\ User.updatedAt new = now env
    /\ (b_name b = None -> User.name new = User.name old)
    /\ (b_email b = None -> User.email new = User.email old)
    /\ (b_avatar b = None -> User.avatar new = User.avatar old)
    /\ tasks db' = tasks db
    /\ (forall x, In x (users db')
                  <-> x = new \/ (In x (users db) /\ User._id x <> User._id u)).
Proof.
  intros Hnd Hup Hcode. apply updateProfile_effect in Hup.
  destruct Hup as [[_ Hno] | (old & Hold & _ & -> & ->)]; [contradiction |].
  pose proof (findOne_In _ _ _ Hold) as [Hin Hid]. apply N.eqb_eq in Hid.
  rewrite validateProfile_fields.
  set (b' := {| b_name := option_map Text.trim (b_name b);
                b_email := option_map (normalizeEmail lib) (b_email b);
                b_avatar := b_avatar b |}).
  exists old, (applyProfile env b' old).
  split; [exact Hin |]. split; [exact Hid |]. split; [reflexivity |].
  split; [reflexivity |]. split; [reflexivity |]. split; [reflexivity |].
  split; [reflexivity |].
  split; [intros E; unfold applyProfile, b'; cbn; now rewrite E |].
  split; [intros E; unfold applyProfile, b'; cbn; now rewrite E |].
  split; [intros E; unfold applyProfile, b'; cbn; now rewrite E |].
  split; [reflexivity |].
  intros x. cbn [users withUsers]. unfold isUser.
  rewrite (updateFirst_unique User._id (applyProfile env b') (User._id u)
             (users db) x Hnd) by reflexivity.
  split.
  - intros [(y & Hy & Ey & ->) | H]; [| now right].
    left. f_equal.
    apply (unique_by_key User._id (users db) y old Hnd Hy Hin). congruence.
  - intros [-> | H]; [| now right]. left. now exists old.
Qed.

(** *** Issued tokens *)

(** X18. A token that [generateToken] has issued for a user of the collection,
    sent as [Bearer <token>] while the secret is the same, attaches that
    user as long as the clock is before the expiry, which is the time of
    issue plus the lifetime, and is answered 401 "Invalid token" from the
    expiry on.  The signing is taken to go with the decoding and the MAC
    check of the library. *)
Theorem issued_token_lifetime (lib : Library)
    (sign : string -> JwtPayload -> string) (lifetime : Z)
    (db : Store) (issue env : Env) (i token : string) (stored : User.doc) :
  signs lib sign ->
  generateToken sign lifetime issue i = Some token ->
  JWT_SECRET env = JWT_SECRET issue ->
  uniqueUserIds db -> In stored (users db) ->
  Mongo.castObjectId i = Some (User._id stored) ->
  ((now env / 1000 < now issue / 1000 + lifetime)%Z ->
   protect lib db env (Some ("Bearer " ++ token)%string)
   = Attached (User.withoutPassword stored))
  /\ ((now issue / 1000 + lifetime <= now env / 1000)%Z ->
      protect lib db env (Some ("Bearer " ++ token)%string)
      = Rejected invalidToken).
Proof.
  intros Hsigns Hgen Hsecret Hnd Hin Hcast.
  unfold generateToken in Hgen.
  destruct (JWT_SECRET issue) as [secret |] eqn:HJ; [| discriminate].
  cbn [Text.truthy Text.toString] in Hgen.
  destruct (String.eqb_spec secret "") as [| Hne]; [discriminate |].
  cbn [negb] in Hgen. injection Hgen as <-.
  match goal with
  | |- context [sign secret ?p] =>
      set (payload := p);
      destruct (Hsigns secret payload Hne) as [Hsigned Hsp]
  end.
  set (token := sign secret payload) in *.
  assert (Htok : token <> "").
  { destruct Hsigned as (h & b & sg & alg & Hs & _). intros E.
    rewrite E in Hs. discriminate. }
  assert (Hb : bearerToken (Some ("Bearer " ++ token)%string) = Some token).
  { unfold bearerToken. cbn. now rewrite (split_spaceless token Hsp). }
  assert (Htruthy : Text.truthy (Some token) = true).
  { simpl. now destruct (String.eqb_spec token ""). }
  unfold protect. rewrite Hb, Htruthy. cbn [negb Text.toString].
  rewrite Hsecret.
  split.
  - intros Hlt.
    assert (Hv : jwtVerify lib (now env / 1000) token (Some secret)
                 = inr payload).
    { apply jwtVerify_inr; [assumption |]. split; [assumption | exact Hlt]. }
    rewrite Hv. unfold findUserById. cbn [payload id]. rewrite Hcast.
    now rewrite (findOne_unique User._id (users db) _ stored Hnd Hin eq_refl).
  - intros Hge.
    destruct (jwtVerify lib (now env / 1000) token (Some secret))
      as [f | p] eqn:Hv; [reflexivity |].
    exfalso. apply jwtVerify_inr in Hv; [| assumption].
    destruct Hv as [(h & b & sg & alg & _ & _ & Hd & _) Hexp].
    destruct Hsigned as (h' & b' & sg' & alg' & _ & _ & Hd' & _).
    rewrite Hd in Hd'. injection Hd' as _ ->.
    unfold unexpiredAt in Hexp. cbn [payload exp] in Hexp. lia.
Qed.

(** *** The schema's validators as an invariant *)






(** *** The client against the validators of the server *)

(** X23. A title and a description that the task form lets through pass the
    title chains of [POST] and [PUT] and the description chain of the
    server: the form is at least as strict as the routes on these fields. *)
Theorem form_accepts_server_accepts (f : TaskFormData) :
  taskFormValidate f = true ->
  snd (Validator.run "title"
         [Validator.trim; Validator.notEmpty "Task title is required";
          Validator.isLengthMax 200 "Title cannot exceed 200 characters"]
         (Some (fd_title f))) = []
  /\ snd (Validator.run "title"
            [Validator.Optional; Validator.trim;
             Validator.notEmpty "Title cannot be empty";
             Validator.isLengthMax 200 "Title cannot exceed 200 characters"]
            (Some (fd_title f))) = []
  /\ snd (Validator.run "description"
            [Validator.Optional; Validator.trim;
             Validator.isLengthMax 1000
               "Description cannot exceed 1000 characters"]
            (Some (fd_description f))) = [].
Proof.
  unfold taskFormValidate, taskFormErrors. cbn [Text.truthy].
  destruct (String.eqb_spec (Text.trim (fd_title f)) "") as [E | E];
    cbn [negb]; [discriminate |].
  destruct (Nat.ltb_spec 200 (Text.length (fd_title f))) as [H | H];
    [discriminate |].
  destruct (Nat.ltb_spec 1000 (Text.length (fd_description f))) as [K | K];
    [discriminate |].
  intros _.
  pose proof (trim_length (fd_title f)) as Lt.
  pose proof (trim_length (fd_description f)) as Ld.
  pose proof (len_le_length (Text.trim (fd_title f))) as Vt.
  pose proof (len_le_length (Text.trim (fd_description f))) as Vd.
  assert (Ht : (Validator.len (Text.trim (fd_title f)) <=? 200)%nat = true)
    by (apply Nat.leb_le; lia).
  assert (Hd : (Validator.len (Text.trim (fd_description f)) <=? 1000)%nat
               = true) by (apply Nat.leb_le; lia).
  apply String.eqb_neq in E.
  unfold Validator.trim, Validator.notEmpty, Validator.isLengthMax.
  cbn [Validator.run Text.toString]. rewrite E, Ht, Hd. cbn [negb snd].
  auto.
Qed.

Lemma onChange_keeps (e : FilterEvent) (f : Filters) :
  offered e -> filtersFromControls f -> filtersFromControls (onChange e f).
Proof.
  intros He (Hst & Hpr & Hsb & Hso). destruct e as [v | v | v | v];
    cbn [offered] in He.
  - repeat split; assumption.
  - repeat split; try assumption. now exists v.
  - repeat split; try assumption. now exists v.
  - repeat split; try assumption;
      cbn in He; decompose [or] He; try contradiction; subst v; cbn;
      eexists; (split; [reflexivity |]); cbn; tauto.
Qed.

(** X24. Whatever the user types into the search box and chooses in the three
    selects of the dashboard, the query that [fetchTasks] sends passes the
    validators of [GET /api/tasks] (an empty status or priority is left
    out of it), so the list request is never answered 400. *)
Theorem dashboard_query_accepted (events : list FilterEvent) (db : Store)
    (u : User.doc) :
  Forall offered events ->
  listAccepted (fetchQuery (filtersAfter events))
  /\ forall errors,
       listTasks db u (fetchQuery (filtersAfter events))
       <> Some (respond 400 (ValidationFailed errors)).
Proof.
  intros Hev.
  assert (Hinv : filtersFromControls (filtersAfter events)).
  { unfold filtersAfter.
    assert (H0 : filtersFromControls initialFilters).
    { repeat split; eexists; (split; [reflexivity |]); cbn; tauto. }
    revert H0. generalize initialFilters.
    induction Hev as [| e events He Hev IH]; intros f Hf; [exact Hf |].
    cbn [fold_left]. apply IH. now apply onChange_keeps. }
  assert (Hacc : listAccepted (fetchQuery (filtersAfter events))).
  { destruct Hinv as ((st & Est & Hst) & (pr & Epr & Hpr)
                      & (sb & Esb & Hsb) & (so & Eso & Hso)).
    unfold listAccepted, fetchQuery.
    cbn [q_status q_priority q_sortBy q_sortOrder].
    rewrite Est, Epr, Esb, Eso. cbn [paramText absentOrIn Text.truthy].
    repeat split; try assumption.
    - destruct (String.eqb_spec st ""); cbn [negb absentOrIn]; [exact I |].
      cbn in Hst. cbn. intuition congruence.
    - destruct (String.eqb_spec pr ""); cbn [negb absentOrIn]; [exact I |].
      cbn in Hpr. cbn. intuition congruence. }
  split; [exact Hacc |].
  intros errors H. apply validateList_accepts in Hacc.
  unfold listTasks in H. destruct (validateList _) as [q' es].
  cbn [snd] in Hacc. subst es. cbn [isEmpty negb] in H.
  unfold findSorted in H.
  destruct (Text.truthy (q_search q')); [| discriminate].
  destruct (Mongo.compile _); discriminate.
Qed.

(** *** The order is a total preorder, so sorting commutes with filtering *)

Lemma notGt_Z x y : Query.notGt (x ?= y)%Z = true <-> (x <= y)%Z.
Proof.
  unfold Query.notGt. destruct (Z.compare_spec x y); split; intros; try lia;
    try reflexivity; discriminate.
Qed.

Lemma notGt_string_trans a b c :
  Query.notGt (String.compare a b) = true ->
  Query.notGt (String.compare b c) = true ->
  Query.notGt (String.compare a c) = true.
Proof.
  unfold Query.notGt.
  destruct (String.compare a b) eqn:Eab; [| | discriminate];
    destruct (String.compare b c) eqn:Ebc; try discriminate; intros _ _.
  - apply OrderedTypeEx.String_as_OT.cmp_eq in Eab, Ebc. subst.
    pose proof (proj2 (OrderedTypeEx.String_as_OT.cmp_eq c c) eq_refl) as H.
    unfold OrderedTypeEx.String_as_OT.cmp in H. now rewrite H.
  - apply OrderedTypeEx.String_as_OT.cmp_eq in Eab. subst. now rewrite Ebc.
  - apply OrderedTypeEx.String_as_OT.cmp_eq in Ebc. subst. now rewrite Eab.
  - apply OrderedTypeEx.String_as_OT.cmp_lt in Eab, Ebc.
    pose proof (OrderedTypeEx.String_as_OT.lt_trans _ _ _ Eab Ebc) as H.
    apply OrderedTypeEx.String_as_OT.cmp_lt in H.
    unfold OrderedTypeEx.String_as_OT.cmp in H. now rewrite H.
Qed.

Lemma notGt_nullable_trans a b c :
  Query.notGt (Query.compareNullable a b) = true ->
  Query.notGt (Query.compareNullable b c) = true ->
  Query.notGt (Query.compareNullable a c) = true.
Proof.
  destruct a, b, c; simpl; try easy. rewrite !notGt_Z. lia.
Qed.

Lemma compareBy_trans field a b c :
  Query.notGt (Query.compareBy field a b) = true ->
  Query.notGt (Query.compareBy field b c) = true ->
  Query.notGt (Query.compareBy field a c) = true.
Proof.
  unfold Query.compareBy.
  destruct (field =? "createdAt"); [rewrite !notGt_Z; lia |].
  destruct (field =? "dueDate"); [apply notGt_nullable_trans |].
  destruct (field =? "priority"); [apply notGt_string_trans |].
  destruct (field =? "title"); [apply notGt_string_trans | easy].
Qed.

Lemma ordered_trans field d a b c :
  Query.ordered field d a b = true -> Query.ordered field d b c = true ->
  Query.ordered field d a c = true.
Proof.
  unfold Query.ordered. destruct (d =? 1)%Z.
  - apply compareBy_trans.
  - intros H1 H2. now apply compareBy_trans with b.
Qed.

Section SortFilter.
Context {A : Type} (le : A -> A -> bool) (p : A -> bool).
Hypothesis le_total : forall a b, le a b = true \/ le b a = true.
Hypothesis le_trans :
  forall a b c, le a b = true -> le b c = true -> le a c = true.

Lemma insert_below (x : A) (l : list A) :
  Forall (fun z => le x z = true) l -> Query.insert le x l = x :: l.
Proof. intros H. destruct H as [| z l Hz _]; simpl; [| rewrite Hz]; easy. Qed.

Lemma filter_insert (x : A) (l : list A) :
  StronglySorted (fun a b => le a b = true) l ->
  filter p (Query.insert le x l)
  = if p x then Query.insert le x (filter p l) else filter p l.
Proof using le_trans.
  induction 1 as [| y l Hs IH Hy]; simpl.
  - now destruct (p x).
  - destruct (le x y) eqn:Hxy; simpl.
    + destruct (p x), (p y); simpl; rewrite ?Hxy; try reflexivity.
      symmetry. apply insert_below. apply Forall_forall. intros z Hz.
      apply filter_In in Hz. destruct Hz as [Hz _].
      apply le_trans with y; [assumption |].
      rewrite Forall_forall in Hy. now apply Hy.
    + rewrite IH. destruct (p x), (p y); simpl; rewrite ?Hxy; reflexivity.
Qed.

Lemma sort_StronglySorted (l : list A) :
  StronglySorted (fun a b => le a b = true) (Query.sort le l).
Proof using le_total le_trans.
  apply Sorted_StronglySorted.
  - intros a b c. apply le_trans.
  - now apply sort_Sorted.
Qed.

Lemma filter_sort (l : list A) :
  filter p (Query.sort le l) = Query.sort le (filter p l).
Proof using le_total le_trans.
  induction l as [| x l IH]; simpl; [reflexivity |].
  rewrite filter_insert by apply sort_StronglySorted.
  rewrite IH. now destruct (p x).
Qed.
End SortFilter.

Lemma deleteFirst_filter {A : Type} (key : A -> N) (k : N) (l : list A) :
  NoDup (map key l) ->
  Query.deleteFirst (fun x => (key x =? k)%N) l
  = filter (fun x => negb (key x =? k)%N) l.
Proof.
  induction l as [| x l IH]; simpl; [reflexivity |].
  intros Hnd. apply NoDup_cons_iff in Hnd. destruct Hnd as [Hx Hnd].
  destruct (N.eqb_spec (key x) k) as [E | E]; simpl.
  - symmetry. apply forallb_filter_id. apply forallb_forall. intros y Hy.
    apply negb_true_iff, N.eqb_neq. intros Ey. apply Hx.
    rewrite E, <- Ey. now apply in_map.
  - now rewrite IH.
Qed.

Lemma filter_filter_comm {A : Type} (f g : A -> bool) (l : list A) :
  filter f (filter g l) = filter g (filter f l).
Proof.
  induction l as [| x l IH]; simpl; [reflexivity |].
  destruct (f x) eqn:Ef, (g x) eqn:Eg; simpl; rewrite ?Ef, ?Eg, IH;
    reflexivity.
Qed.

Lemma listTasks_after_delete (db db' : Store) (u : User.doc)
    (q : ListQuery) (n : nat) (found : list Task.doc) (i : string)
    (oid : Mongo.ObjectId) :
  uniqueTaskIds db ->
  listTasks db u q = Some (respond 200 (TaskList n found)) ->
  Mongo.castObjectId i = Some oid ->
  deleteTask db u i
  = (respond 200 (Message "Task deleted successfully"), db') ->
  listTasks db' u q
  = Some (respond 200
            (TaskList (List.length (handleDeleteTask oid found))
               (handleDeleteTask oid found))).
Proof.
  intros Hnd Hl Hi Hdel.
  assert (Hdb : tasks db'
                = filter (fun x => negb (Task._id x =? oid)%N) (tasks db)).
  { destruct (deleteTask_effect _ _ _ _ _ Hdel)
      as [[_ Hno] | (oid' & t & Hi' & _ & _ & ->)];
      [now destruct Hno |].
    assert (oid' = oid) by congruence. subst oid'.
    cbn [tasks withTasks]. now apply (deleteFirst_filter Task._id). }
  unfold listTasks in *. destruct (validateList q) as [q' errors].
  destruct (negb (isEmpty errors)); [discriminate |].
  unfold findSorted in *. unfold handleDeleteTask. rewrite Hdb.
  assert (Hsort : forall atoms,
             Query.sort
               (Query.ordered (orDefault (q_sortBy q') "createdAt")
                  (if orDefault (q_sortOrder q') "desc" =? "asc"
                   then 1%Z else (-1)%Z))
               (filter (listFilter (User._id u) (q_status q') (q_priority q')
                          atoms)
                  (filter (fun x => negb (Task._id x =? oid)%N) (tasks db)))
             = filter (fun x => negb (Task._id x =? oid)%N)
                 (Query.sort
                    (Query.ordered (orDefault (q_sortBy q') "createdAt")
                       (if orDefault (q_sortOrder q') "desc" =? "asc"
                        then 1%Z else (-1)%Z))
                    (filter (listFilter (User._id u) (q_status q')
                               (q_priority q') atoms) (tasks db)))).
  { intros atoms. rewrite filter_filter_comm. symmetry. apply filter_sort.
    - intros a b. apply ordered_total.
    - intros a b c. apply ordered_trans. }
  destruct (Text.truthy (q_search q')).
  - destruct (Mongo.compile _) as [atoms | |]; try discriminate.
    injection Hl as _ <-. now rewrite Hsort.
  - injection Hl as _ <-. now rewrite Hsort.
Qed.

Lemma filter_Permutation {A : Type} (f : A -> bool) (l l' : list A) :
  Permutation l l' -> Permutation (filter f l) (filter f l').
Proof.
  induction 1 as [| x l l' _ IH | x y l | l l' l'' _ IH _ IH']; simpl.
  - constructor.
  - destruct (f x); [now constructor | exact IH].
  - destruct (f x), (f y); try reflexivity. constructor.
  - now transitivity (filter f l').
Qed.

Lemma filter_StronglySorted {A : Type} (R : A -> A -> Prop) (f : A -> bool)
    (l : list A) :
  StronglySorted R l -> StronglySorted R (filter f l).
Proof.
  induction 1 as [| x l _ IH Hx]; simpl; [constructor |].
  destruct (f x); [| exact IH]. constructor; [exact IH |].
  apply Forall_forall. intros y Hy. apply filter_In in Hy.
  rewrite Forall_forall in Hx. now apply Hx.
Qed.

Lemma listTasks_order (db : Store) (u : User.doc) (q : ListQuery) (n : nat)
    (found : list Task.doc) :
  listTasks db u q = Some (respond 200 (TaskList n found)) ->
  Sorted (listOrder q) found.
Proof.
  unfold listTasks. rewrite validateList_eq.
  destruct (negb (isEmpty _)); [discriminate |].
  cbn [q_search q_status q_priority q_sortBy q_sortOrder].
  unfold findSorted, listOrder. intros H.
  destruct (Text.truthy _);
    [destruct (Mongo.compile _) as [atoms | |]; try discriminate |];
    injection H as _ <-; apply sort_Sorted; intros a b; apply ordered_total.
Qed.

Lemma listTasks_mayAnswer (db : Store) (u : User.doc) (q : ListQuery)
    (n : nat) (found : list Task.doc) :
  listTasks db u q = Some (respond 200 (TaskList n found)) ->
  mayAnswer db u q found.
Proof.
  intros H. exists n, found. split; [exact H |].
  split; [reflexivity | now apply (listTasks_order db u q n)].
Qed.

(** X25. The dashboard and the server agree after a delete, whatever the
    order in which the server lists tasks that tie on the sort key: if the
    list the dashboard holds is one that the server may answer a list
    request with, and the server then deletes one of the requester's tasks,
    the list that [handleDeleteTask] leaves is one that the server may
    answer the same request with afterwards.  The collection has unique
    identifiers. *)
Theorem dashboard_delete_agrees (db db' : Store) (u : User.doc)
    (q : ListQuery) (local : list Task.doc) (i : string)
    (oid : Mongo.ObjectId) :
  uniqueTaskIds db ->
  mayAnswer db u q local ->
  Mongo.castObjectId i = Some oid ->
  deleteTask db u i
  = (respond 200 (Message "Task deleted successfully"), db') ->
  mayAnswer db' u q (handleDeleteTask oid local).
Proof.
  intros Hnd (n & found & Hl & Hperm & Hsorted) Hi Hdel.
  exists (List.length (handleDeleteTask oid found)),
    (handleDeleteTask oid found).
  split; [now apply (listTasks_after_delete db db' u q n found i) |].
  split; [now apply filter_Permutation |].
  apply StronglySorted_Sorted, filter_StronglySorted.
  apply Sorted_StronglySorted; [| exact Hsorted].
  intros a b c. apply ordered_trans.
Qed.

(** *** Reading one's own tasks *)

(** X15. A get is answered 200 only with a task of the collection that the
    requester owns and whose identifier is the one asked for; every other
    answer of get is 400 or 404. *)
Theorem get_only_own (db : Store) (u : User.doc) (i : string) :
  (forall t, getTask db u i = respond 200 (OneTask t) ->
             In t (tasks db) /\ Task.user t = User._id u
             /\ Mongo.castObjectId i = Some (Task._id t))
  /\ ((exists t, getTask db u i = respond 200 (OneTask t))
      \/ getTask db u i = invalidTaskId
      \/ getTask db u i = taskNotFound).
Proof.
  unfold getTask. destruct (Mongo.castObjectId i) as [oid |].
  - destruct (findOwned db oid (User._id u)) as [t0 |] eqn:Hf.
    + split; [| left; now exists t0].
      intros t E. injection E as <-. apply findOwned_In in Hf.
      destruct Hf as (Hin & Hid & Hu). rewrite Hid. auto.
    + split; [discriminate | auto].
  - split; [discriminate | auto].
Qed.

(** X14. A task list request without [status], [priority] and [search] whose
    sort parameters are accepted is answered 200 with exactly the tasks of
    the requester. *)
Theorem list_all_own (db : Store) (u : User.doc) (q : ListQuery) :
  listAccepted q ->
  q_status q = None -> q_priority q = None -> q_search q = None ->
  exists found,
    listTasks db u q = Some (respond 200 (TaskList (List.length found) found))
    /\ forall t, In t found
                 <-> In t (tasks db) /\ Task.user t = User._id u.
Proof.
  intros Hacc Hst Hpr Hse. apply validateList_accepts in Hacc.
  unfold listTasks. destruct (validateList q) as [q' errors] eqn:Hval.
  cbn [snd] in Hacc. subst errors. cbn [isEmpty negb].
  rewrite validateList_eq in Hval. injection Hval as <-.
  cbn [q_search q_status q_priority q_sortBy q_sortOrder].
  rewrite Hse, Hst, Hpr. cbn [option_map Text.truthy]. unfold findSorted.
  eexists. split; [reflexivity |].
  intros t. rewrite sort_In, filter_In. unfold listFilter.
  cbn [Text.truthy]. rewrite !andb_true_r, N.eqb_eq. tauto.
Qed.

(** ** The properties on the sample data *)


Lemma list_empty_filter_rejected_witness :
  (q_status Sample.emptyStatus = Some ""
   \/ q_priority Sample.emptyStatus = Some "")
  /\ exists errors,
       errors <> []
       /\ listTasks Sample.db Sample.alice Sample.emptyStatus
          = Some (respond 400 (ValidationFailed errors)).
Proof.
  split; [left; reflexivity |].
  apply (list_empty_filter_rejected Sample.db Sample.alice Sample.emptyStatus).
  left; reflexivity.
Defined.



Lemma create_owner_is_requester_witness :
  createTask Sample.lib Sample.db Sample.alice Sample.env Sample.forBob
  = (Sample.planCreated, Sample.withPlan)
  /\ ((Sample.withPlan = Sample.db /\ statusCode Sample.planCreated <> 201)
      \/ exists t,
           Sample.withPlan = withTasks Sample.db (tasks Sample.db ++ [t])
           /\ Sample.planCreated
              = respond 201 (TaskChanged "Task created successfully" (Some t))
           /\ Task.user t = User._id Sample.alice).
Proof.
  split; [reflexivity |].
  apply (create_owner_is_requester Sample.lib Sample.db Sample.alice Sample.env
           Sample.forBob Sample.planCreated Sample.withPlan).
  reflexivity.
Defined.

Lemma list_priority_order_witness :
  q_sortBy Sample.byPriorityUp = Some "priority"
  /\ listTasks Sample.db Sample.alice Sample.byPriorityUp
     = Some (respond 200
               (TaskList 3 [Sample.deploy; Sample.report; Sample.review]))
  /\ (Sorted priorityUpTo [Sample.deploy; Sample.report; Sample.review]
      /\ ("high" <? "low")%string = true
      /\ ("low" <? "medium")%string = true).
Proof.
  split; [reflexivity |]. split; [reflexivity |].
  apply (list_priority_order Sample.db Sample.alice Sample.byPriorityUp 3
           [Sample.deploy; Sample.report; Sample.review]); reflexivity.
Defined.



Lemma budget_is_foreign :
  foreignId Sample.db (User._id Sample.alice) (Task._id Sample.budget).
Proof.
  split.
  - exists Sample.budget. split; [| reflexivity].
    right; right; right; left; reflexivity.
  - intros t Hin Hid.
    destruct Hin as [<- | [<- | [<- | [<- | []]]]]; discriminate.
Defined.

Lemma foreign_task_not_found_witness :
  Mongo.castObjectId Sample.budgetId = Some (Task._id Sample.budget)
  /\ foreignId Sample.db (User._id Sample.alice) (Task._id Sample.budget)
  /\ getTask Sample.db Sample.alice Sample.budgetId = taskNotFound
  /\ deleteTask Sample.db Sample.alice Sample.budgetId
     = (taskNotFound, Sample.db)
  /\ updateTask Sample.lib Sample.db Sample.alice Sample.env Sample.budgetId
       Sample.rename = (taskNotFound, Sample.db).
Proof.
  split; [reflexivity |]. split; [exact budget_is_foreign |].
  destruct (foreign_task_not_found Sample.lib Sample.db Sample.alice Sample.env
              Sample.budgetId (Task._id Sample.budget) eq_refl
              budget_is_foreign) as (Hget & Hdel & Hput & _).
  split; [exact Hget |]. split; [exact Hdel |].
  apply Hput. reflexivity.
Defined.

(** C4 as the claim has it fails: Alice's update of Bob's task with an
    empty title is answered 400 by the validators, not 404. *)
Lemma update_foreign_counterexample :
  Mongo.castObjectId Sample.budgetId = Some (Task._id Sample.budget)
  /\ In Sample.budget (tasks Sample.db)
  /\ Task.user Sample.budget = User._id Sample.bob
  /\ User._id Sample.bob <> User._id Sample.alice
  /\ fst (updateTask Sample.lib Sample.db Sample.alice Sample.env
            Sample.budgetId Sample.emptyTitle)
     = respond 400
         (ValidationFailed
            [{| Validator.path := "title";
                Validator.msg := "Title cannot be empty" |}])
  /\ statusCode (fst (updateTask Sample.lib Sample.db Sample.alice Sample.env
                        Sample.budgetId Sample.emptyTitle)) <> 404.
Proof.
  split; [reflexivity |].
  split; [right; right; right; left; reflexivity |].
  split; [reflexivity |]. split; [discriminate |].
  split; [reflexivity | discriminate].
Qed.

Lemma unauthenticated_rejected_witness :
  badCredentials Sample.lib Sample.db Sample.env
    (authorization
       (Sample.request Sample.forgedHeader (DeleteTask Sample.reportId)))
  /\ exists r,
       protect Sample.lib Sample.db Sample.env
         (authorization
            (Sample.request Sample.forgedHeader (DeleteTask Sample.reportId)))
       = Rejected r
       /\ statusCode r = 401
       /\ serve Sample.lib Sample.db Sample.env
            (Sample.request Sample.forgedHeader (DeleteTask Sample.reportId))
          = Some (r, Sample.db).
Proof.
  assert (H : badCredentials Sample.lib Sample.db Sample.env
                (authorization
                   (Sample.request Sample.forgedHeader
                      (DeleteTask Sample.reportId)))).
  { right; left. exists InvalidSignature. reflexivity. }
  split; [exact H |].
  exact (unauthenticated_rejected Sample.lib Sample.db Sample.env
           (Sample.request Sample.forgedHeader (DeleteTask Sample.reportId)) H).
Defined.

Lemma verify_single_outcome_witness :
  Text.truthy (JWT_SECRET Sample.env) = true
  /\ bearerToken Sample.forgedHeader = Some "hdr.alice.forged"
  /\ "hdr.alice.forged" <> ""
  /\ jwtVerify Sample.lib (now Sample.env / 1000) "hdr.alice.forged"
       (JWT_SECRET Sample.env) = inl InvalidSignature
  /\ protect Sample.lib Sample.db Sample.env Sample.forgedHeader
     = Rejected invalidToken.
Proof.
  split; [reflexivity |]. split; [reflexivity |]. split; [discriminate |].
  split; [reflexivity |].
  assert (Hne : "hdr.alice.forged" <> "") by discriminate.
  destruct (verify_single_outcome Sample.lib Sample.db Sample.env
              Sample.forgedHeader "hdr.alice.forged" eq_refl eq_refl Hne)
    as (_ & _ & _ & Hfail).
  apply (Hfail InvalidSignature). reflexivity.
Defined.

(** C2 on the code: Alice owns the report; her update whose body is
    [{ user: <Bob's id> }] is answered 200 and leaves the report owned by
    Bob. *)
Theorem update_reassigns_owner :
  findOwned Sample.db (Task._id Sample.report) (User._id Sample.alice)
  = Some Sample.report
  /\ updateTask Sample.lib Sample.db Sample.alice Sample.env Sample.reportId
       Sample.giveToBob
     = (respond 200
          (TaskChanged "Task updated successfully" (Some Sample.reportOfBob)),
        Sample.afterGift)
  /\ Task.user Sample.reportOfBob = User._id Sample.bob
  /\ Task.user Sample.reportOfBob <> Task.user Sample.report
  /\ getTask Sample.afterGift Sample.alice Sample.reportId = taskNotFound.
Proof.
  split; [reflexivity |]. split; [reflexivity |]. split; [reflexivity |].
  split; [discriminate | reflexivity].
Qed.

(** ** The further properties on the sample data *)

Lemma sample_ids_unique : uniqueTaskIds Sample.db /\ uniqueUserIds Sample.db.
Proof.
  split.
  - unfold uniqueTaskIds. cbn.
    repeat (constructor; [cbn; intuition discriminate |]). constructor.
  - unfold uniqueUserIds. cbn.
    repeat (constructor; [cbn; intuition discriminate |]). constructor.
Defined.

Lemma sample_plan_fresh : freshId Sample.db (newId Sample.env).
Proof.
  intros t Hin.
  destruct Hin as [<- | [<- | [<- | [<- | []]]]]; discriminate.
Defined.

Lemma create_then_get_witness :
  createTask Sample.lib Sample.db Sample.alice Sample.env Sample.forBob
  = (respond 201
       (TaskChanged "Task created successfully" (Some Sample.plan)),
     Sample.withPlan)
  /\ Mongo.castObjectId Sample.planId = Some (Task._id Sample.plan)
  /\ getTask Sample.withPlan Sample.alice Sample.planId
     = respond 200 (OneTask Sample.plan).
Proof.
  split; [reflexivity |]. split; [reflexivity |].
  apply (create_then_get Sample.lib Sample.db Sample.withPlan Sample.alice
           Sample.env Sample.forBob Sample.plan Sample.planId); reflexivity.
Defined.

Lemma create_title_only_witness :
  Text.trim Sample.planPadded = "Plan"
  /\ Text.trim Sample.planPadded <> ""
  /\ (Text.length (Text.trim Sample.planPadded) <= 200)%nat
  /\ freshId Sample.db (newId Sample.env)
  /\ createTask Sample.lib Sample.db Sample.alice Sample.env
       (titleOnly Sample.planPadded (Some Sample.bobId))
     = (respond 201
          (TaskChanged "Task created successfully"
             (Some (defaultTask Sample.env (Text.trim Sample.planPadded)
                      (User._id Sample.alice)))),
        withTasks Sample.db
          (tasks Sample.db
           ++ [defaultTask Sample.env (Text.trim Sample.planPadded)
                 (User._id Sample.alice)])).
Proof.
  assert (H1 : Text.trim Sample.planPadded <> "") by discriminate.
  assert (H2 : (Text.length (Text.trim Sample.planPadded) <= 200)%nat)
    by (apply Nat.leb_le; reflexivity).
  split; [reflexivity |]. split; [exact H1 |]. split; [exact H2 |].
  split; [exact sample_plan_fresh |].
  exact (create_title_only Sample.lib Sample.db Sample.alice Sample.env
           Sample.planPadded (Some Sample.bobId) H1 H2 sample_plan_fresh).
Defined.

Lemma delete_removes_task_witness :
  uniqueTaskIds Sample.db
  /\ Mongo.castObjectId Sample.reportId = Some (Task._id Sample.report)
  /\ findOwned Sample.db (Task._id Sample.report) (User._id Sample.alice)
     = Some Sample.report
  /\ exists db',
       deleteTask Sample.db Sample.alice Sample.reportId
       = (respond 200 (Message "Task deleted successfully"), db')
       /\ users db' = users Sample.db
       /\ (forall x, In x (tasks db')
                     <-> In x (tasks Sample.db)
                         /\ Task._id x <> Task._id Sample.report)
       /\ getTask db' Sample.alice Sample.reportId = taskNotFound.
Proof.
  split; [exact (proj1 sample_ids_unique) |].
  split; [reflexivity |]. split; [reflexivity |].
  exact (delete_removes_task Sample.db Sample.alice Sample.reportId
           (Task._id Sample.report) Sample.report (proj1 sample_ids_unique)
           eq_refl eq_refl).
Defined.


Lemma serve_keeps_ids_unique_witness :
  serve Sample.lib Sample.db Sample.env
    (Sample.request Sample.aliceHeader (PostTask Sample.forBob))
  = Some (Sample.planCreated, Sample.withPlan)
  /\ uniqueTaskIds Sample.db /\ uniqueUserIds Sample.db
  /\ uniqueTaskIds Sample.withPlan /\ uniqueUserIds Sample.withPlan.
Proof.
  split; [reflexivity |].
  split; [exact (proj1 sample_ids_unique) |].
  split; [exact (proj2 sample_ids_unique) |].
  exact (serve_keeps_ids_unique Sample.lib Sample.db Sample.withPlan
           Sample.env
           (Sample.request Sample.aliceHeader (PostTask Sample.forBob))
           Sample.planCreated eq_refl (proj1 sample_ids_unique)
           (proj2 sample_ids_unique)).
Defined.

Lemma alice_is_not_budget_owner :
  forall u,
    protect Sample.lib Sample.db Sample.env
      (authorization
         (Sample.request Sample.aliceHeader (DeleteTask Sample.reportId)))
    = Attached u ->
    Task.user Sample.budget <> User._id u.
Proof. intros u H. injection H as <-. discriminate. Defined.

Lemma serve_spares_other_users_witness :
  serve Sample.lib Sample.db Sample.env
    (Sample.request Sample.aliceHeader (DeleteTask Sample.reportId))
  = Some (respond 200 (Message "Task deleted successfully"),
          withTasks Sample.db [Sample.review; Sample.deploy; Sample.budget])
  /\ uniqueTaskIds Sample.db
  /\ In Sample.budget (tasks Sample.db)
  /\ In Sample.budget
       (tasks (withTasks Sample.db
                 [Sample.review; Sample.deploy; Sample.budget])).
Proof.
  split; [reflexivity |].
  split; [exact (proj1 sample_ids_unique) |].
  assert (Hin : In Sample.budget (tasks Sample.db))
    by (right; right; right; left; reflexivity).
  split; [exact Hin |].
  exact (serve_spares_other_users Sample.lib Sample.db _ Sample.env
           (Sample.request Sample.aliceHeader (DeleteTask Sample.reportId))
           _ Sample.budget eq_refl (proj1 sample_ids_unique) Hin
           alice_is_not_budget_owner).
Defined.

Lemma malformed_id_rejected_witness :
  (String.length "abc" <> 24%nat
   \/ exists c, In c (list_ascii_of_string "abc") /\ Mongo.hexDigit c = None)
  /\ getTask Sample.db Sample.alice "abc" = invalidTaskId
  /\ deleteTask Sample.db Sample.alice "abc" = (invalidTaskId, Sample.db)
  /\ forall b, snd (validateUpdate Sample.lib b) = [] ->
               updateTask Sample.lib Sample.db Sample.alice Sample.env "abc" b
               = (invalidTaskId, Sample.db).
Proof.
  assert (H : String.length "abc" <> 24%nat
              \/ exists c, In c (list_ascii_of_string "abc")
                           /\ Mongo.hexDigit c = None)
    by (left; discriminate).
  split; [exact H |].
  exact (malformed_id_rejected Sample.lib Sample.db Sample.alice Sample.env
           "abc" H).
Defined.

Lemma update_bad_owner_member_witness :
  Mongo.castObjectId Sample.reportId = Some (Task._id Sample.report)
  /\ findOwned Sample.db (Task._id Sample.report) (User._id Sample.alice)
     = Some Sample.report
  /\ snd (validateUpdate Sample.lib Sample.giveToNobody) = []
  /\ b_user Sample.giveToNobody = Some "bob"
  /\ Mongo.castObjectId "bob" = None
  /\ updateTask Sample.lib Sample.db Sample.alice Sample.env Sample.reportId
       Sample.giveToNobody = (invalidTaskId, Sample.db).
Proof.
  repeat (split; [reflexivity |]).
  exact (update_bad_owner_member Sample.lib Sample.db Sample.alice Sample.env
           Sample.reportId (Task._id Sample.report) Sample.report
           Sample.giveToNobody "bob" eq_refl eq_refl eq_refl eq_refl eq_refl).
Defined.

Lemma blank_search_ignored_witness :
  q_search Sample.blankSearch = Some Sample.blanks
  /\ Text.trim Sample.blanks = ""
  /\ listTasks Sample.db Sample.alice Sample.blankSearch
     = listTasks Sample.db Sample.alice (withoutSearch Sample.blankSearch).
Proof.
  split; [reflexivity |]. split; [reflexivity |].
  exact (blank_search_ignored Sample.db Sample.alice Sample.blankSearch
           Sample.blanks
           eq_refl eq_refl).
Defined.

Lemma list_count_witness :
  listTasks Sample.db Sample.alice Sample.byPriorityUp
  = Some (respond 200
            (TaskList 3 [Sample.deploy; Sample.report; Sample.review]))
  /\ 3%nat = List.length [Sample.deploy; Sample.report; Sample.review]
  /\ incl [Sample.deploy; Sample.report; Sample.review] (tasks Sample.db)
  /\ (List.length [Sample.deploy; Sample.report; Sample.review]
      <= List.length (tasks Sample.db))%nat
  /\ (uniqueTaskIds Sample.db ->
      NoDup (map Task._id [Sample.deploy; Sample.report; Sample.review])).
Proof.
  split; [reflexivity |].
  exact (list_count Sample.db Sample.alice Sample.byPriorityUp 3
           [Sample.deploy; Sample.report; Sample.review] eq_refl).
Defined.

Lemma list_sorted_witness :
  listTasks Sample.db Sample.alice Sample.noQuery
  = Some (respond 200
            (TaskList 3 [Sample.deploy; Sample.review; Sample.report]))
  /\ Sorted (fun a b => fieldLe "createdAt" b a)
       [Sample.deploy; Sample.review; Sample.report].
Proof.
  split; [reflexivity |].
  exact (list_sorted Sample.db Sample.alice Sample.noQuery 3
           [Sample.deploy; Sample.review; Sample.report] eq_refl).
Defined.

Lemma bearer_round_trip_witness :
  spaceless Sample.goodToken = true
  /\ bearerToken (Some ("Bearer " ++ Sample.goodToken)%string)
     = Some Sample.goodToken
  /\ Text.startsWith "bearer hdr.alice.mac" "Bearer" = false
  /\ bearerToken (Some "bearer hdr.alice.mac") = None
  /\ protect Sample.lib Sample.db Sample.env (Some "bearer hdr.alice.mac")
     = Rejected notAuthorized.
Proof.
  destruct (bearer_round_trip Sample.lib Sample.db Sample.env Sample.goodToken
              "bearer hdr.alice.mac") as [Hgood Hbad].
  split; [reflexivity |]. split; [exact (Hgood eq_refl) |].
  split; [reflexivity |]. exact (Hbad eq_refl).
Defined.

Lemma attached_user_witness :
  protect Sample.lib Sample.db Sample.env Sample.aliceHeader
  = Attached Sample.alice
  /\ User.password Sample.alice = None
  /\ exists token p stored,
       bearerToken Sample.aliceHeader = Some token
       /\ jwtVerify Sample.lib (now Sample.env / 1000) token
            (JWT_SECRET Sample.env) = inr p
       /\ Mongo.castObjectId (id p) = Some (User._id Sample.alice)
       /\ In stored (users Sample.db)
       /\ Sample.alice = User.withoutPassword stored.
Proof.
  split; [reflexivity |].
  exact (attached_user Sample.lib Sample.db Sample.env Sample.aliceHeader
           Sample.alice eq_refl).
Defined.

Lemma profile_behind_middleware_witness :
  serve Sample.lib Sample.db Sample.env
    {| authorization := Sample.aliceHeader; route := GetProfile |}
  = Some (respond 200 (Profile None (publicUser true Sample.alice)),
          Sample.db)
  /\ Sample.db = Sample.db
  /\ (statusCode (respond 200 (Profile None (publicUser true Sample.alice)))
      = 401
      \/ exists stored,
           In stored (users Sample.db)
           /\ respond 200 (Profile None (publicUser true Sample.alice))
              = respond 200 (Profile None (publicUser true stored))).
Proof.
  split; [reflexivity |].
  exact (profile_behind_middleware Sample.lib Sample.db Sample.db Sample.env
           Sample.aliceHeader _ eq_refl).
Defined.

Lemma profile_email_taken_witness :
  snd (validateProfile Sample.mailLib Sample.takeBobsEmail) = []
  /\ b_email Sample.takeBobsEmail = Some "bob@example.com"
  /\ normalizeEmail Sample.mailLib "bob@example.com" <> ""
  /\ In Sample.bob (users Sample.db)
  /\ User.email Sample.bob = normalizeEmail Sample.mailLib "bob@example.com"
  /\ User._id Sample.bob <> User._id Sample.alice
  /\ updateProfile Sample.mailLib Sample.db Sample.alice Sample.env
       Sample.takeBobsEmail
     = (respond 400 (Message "Email is already taken by another user"),
        Sample.db).
Proof.
  assert (Hne : normalizeEmail Sample.mailLib "bob@example.com" <> "")
    by discriminate.
  assert (Hin : In Sample.bob (users Sample.db)) by (right; left; reflexivity).
  assert (Hid : User._id Sample.bob <> User._id Sample.alice) by discriminate.
  split; [reflexivity |]. split; [reflexivity |]. split; [exact Hne |].
  split; [exact Hin |]. split; [reflexivity |]. split; [exact Hid |].
  exact (profile_email_taken Sample.mailLib Sample.db Sample.alice Sample.env
           Sample.takeBobsEmail "bob@example.com" Sample.bob eq_refl eq_refl
           Hne Hin eq_refl Hid).
Defined.

Lemma sample_emails_unique : uniqueEmails Sample.db.
Proof.
  unfold uniqueEmails. cbn.
  repeat (constructor; [cbn; intuition discriminate |]). constructor.
Defined.

Lemma profile_keeps_emails_unique_witness :
  updateProfile Sample.mailLib Sample.db Sample.alice Sample.env Sample.toCarol
  = (respond 200
       (Profile (Some "Profile updated successfully")
          (publicUser false Sample.aliceAsCarol)),
     withUsers Sample.db [Sample.aliceAsCarol; Sample.bob])
  /\ uniqueUserIds Sample.db /\ uniqueEmails Sample.db
  /\ uniqueEmails (withUsers Sample.db [Sample.aliceAsCarol; Sample.bob]).
Proof.
  split; [reflexivity |].
  split; [exact (proj2 sample_ids_unique) |].
  split; [exact sample_emails_unique |].
  exact (profile_keeps_emails_unique Sample.mailLib Sample.db _ Sample.alice
           Sample.env Sample.toCarol _ eq_refl (proj2 sample_ids_unique)
           sample_emails_unique).
Defined.

Lemma profile_update_effect_witness :
  uniqueUserIds Sample.db
  /\ updateProfile Sample.mailLib Sample.db Sample.alice Sample.env
       Sample.toCarol
     = (respond 200
          (Profile (Some "Profile updated successfully")
             (publicUser false Sample.aliceAsCarol)),
        withUsers Sample.db [Sample.aliceAsCarol; Sample.bob])
  /\ exists old new,
       In old (users Sample.db) /\ User._id old = User._id Sample.alice
       /\ User._id new = User._id old
       /\ User.password new = User.password old
       /\ User.name new = User.name old
       /\ tasks (withUsers Sample.db [Sample.aliceAsCarol; Sample.bob])
          = tasks Sample.db.
Proof.
  split; [exact (proj2 sample_ids_unique) |]. split; [reflexivity |].
  destruct (profile_update_effect Sample.mailLib Sample.db _ Sample.alice
              Sample.env Sample.toCarol _ (proj2 sample_ids_unique) eq_refl
              eq_refl)
    as (old & new & Hin & Hid & _ & Hnid & Hpw & _ & _ & Hname & _ & _ & Ht
        & _).
  exists old, new. repeat split; try assumption. exact (Hname eq_refl).
Defined.

(** The stand-in for JWS reads back what it signs. *)

Lemma split_without sep s : without sep s = true -> Text.split sep s = [s].
Proof.
  induction s as [| c s IH]; simpl; [reflexivity |].
  rewrite andb_true_iff, negb_true_iff. intros [Hc Hs].
  now rewrite Hc, (IH Hs).
Qed.

Lemma split_at sep a r :
  without sep a = true ->
  Text.split sep (a ++ String sep r) = a :: Text.split sep r.
Proof.
  induction a as [| c a IH]; simpl.
  - intros _. now rewrite Ascii.eqb_refl.
  - rewrite andb_true_iff, negb_true_iff. intros [Hc Ha].
    now rewrite Hc, (IH Ha).
Qed.

Lemma without_app sep a b :
  without sep (a ++ b) = without sep a && without sep b.
Proof.
  induction a as [| c a IH]; simpl; [reflexivity |].
  now rewrite IH, andb_assoc.
Qed.

Lemma spaceless_without s : spaceless s = without " " s.
Proof. induction s as [| c s IH]; simpl; congruence. Qed.

Lemma without_bit sep b r :
  Ascii.eqb "0" sep = false -> Ascii.eqb "1" sep = false ->
  without sep (String (Jws.bit b) r) = without sep r.
Proof.
  intros H0 H1. destruct b; cbn [without Jws.bit]; [now rewrite H1 |].
  now rewrite H0.
Qed.

Lemma without_textBits sep s :
  Ascii.eqb "0" sep = false -> Ascii.eqb "1" sep = false ->
  without sep (Jws.textBits s) = true.
Proof.
  intros H0 H1. induction s as [| c s IH]; [reflexivity |].
  cbn [Jws.textBits]. rewrite without_app, IH, andb_true_r.
  destruct c as [b0 b1 b2 b3 b4 b5 b6 b7]. cbn [Jws.charBits].
  now rewrite !without_bit.
Qed.

Lemma without_posBits sep p :
  Ascii.eqb "0" sep = false -> Ascii.eqb "1" sep = false ->
  without sep (Jws.posBits p) = true.
Proof.
  intros H0 H1. induction p as [p IH | p IH |]; cbn [Jws.posBits without];
    now rewrite ?H0, ?H1, ?IH.
Qed.

Lemma bitsText_textBits s : Jws.bitsText (Jws.textBits s) = Some s.
Proof.
  induction s as [| c s IH]; [reflexivity |].
  destruct c as [[] [] [] [] [] [] [] []]; cbn; now rewrite IH.
Qed.

Lemma bitsPos_posBits p : Jws.bitsPos (Jws.posBits p) = Some p.
Proof. induction p as [p IH | p IH |]; simpl; now rewrite ?IH. Qed.

Lemma readZ_showZ z : Jws.readZ (Jws.showZ z) = Some z.
Proof. destruct z; cbn; now rewrite ?bitsPos_posBits. Qed.

Lemma readExp_showExp e : Jws.readExp (Jws.showExp e) = Some e.
Proof.
  destruct e as [z |]; [| reflexivity].
  unfold Jws.readExp, Jws.showExp.
  destruct z; cbn; now rewrite ?bitsPos_posBits.
Qed.

Lemma without_showZ sep z :
  Ascii.eqb "0" sep = false -> Ascii.eqb "1" sep = false ->
  Ascii.eqb "z" sep = false -> Ascii.eqb "p" sep = false ->
  Ascii.eqb "n" sep = false ->
  without sep (Jws.showZ z) = true.
Proof.
  intros H0 H1 Hz Hp Hn. destruct z; cbn [Jws.showZ without].
  - now rewrite Hz.
  - now rewrite Hp, without_posBits.
  - now rewrite Hn, without_posBits.
Qed.

Lemma without_showExp sep e :
  Ascii.eqb "0" sep = false -> Ascii.eqb "1" sep = false ->
  Ascii.eqb "z" sep = false -> Ascii.eqb "p" sep = false ->
  Ascii.eqb "n" sep = false -> Ascii.eqb "x" sep = false ->
  without sep (Jws.showExp e) = true.
Proof.
  intros H0 H1 Hz Hp Hn Hx. destruct e as [z |]; cbn [Jws.showExp].
  - now apply without_showZ.
  - cbn [without]. now rewrite Hx.
Qed.

Lemma without_body sep p :
  Ascii.eqb "0" sep = false -> Ascii.eqb "1" sep = false ->
  Ascii.eqb "z" sep = false -> Ascii.eqb "p" sep = false ->
  Ascii.eqb "n" sep = false -> Ascii.eqb "x" sep = false ->
  Ascii.eqb "_" sep = false ->
  without sep (Jws.body p) = true.
Proof.
  intros H0 H1 Hz Hp Hn Hx Hu. unfold Jws.body. cbn [append].
  rewrite without_app, without_textBits by assumption.
  cbn [without andb]. rewrite Hu, without_app, without_showZ by assumption.
  cbn [without andb negb]. rewrite Hu. now apply without_showExp.
Qed.

Lemma split_sign key p :
  Text.split "." (Jws.sign key p)
  = ["hdr"; Jws.body p; ("m" ++ Jws.textBits key)%string].
Proof.
  unfold Jws.sign.
  change ("hdr." ++ Jws.body p ++ ".m" ++ Jws.textBits key)%string
    with ("hdr" ++ String "." (Jws.body p ++ String "."
                                 ("m" ++ Jws.textBits key)))%string.
  rewrite split_at by reflexivity.
  rewrite split_at by (now apply without_body).
  rewrite split_without; [reflexivity |].
  cbn. now apply without_textBits.
Qed.

Lemma split_body p :
  Text.split "_" (Jws.body p)
  = [Jws.textBits (id p); Jws.showZ (iat p); Jws.showExp (exp p)].
Proof.
  unfold Jws.body.
  change (Jws.textBits (id p) ++ "_" ++ Jws.showZ (iat p) ++ "_"
          ++ Jws.showExp (exp p))%string
    with (Jws.textBits (id p)
          ++ String "_" (Jws.showZ (iat p)
                         ++ String "_" (Jws.showExp (exp p))))%string.
  rewrite split_at by (now apply without_textBits).
  rewrite split_at by (now apply without_showZ).
  rewrite split_without; [reflexivity |]. now apply without_showExp.
Qed.

Lemma ltrim_m s : Text.ltrim (String "m" s) = String "m" s.
Proof. destruct s as [| c2 [| c3 s3]]; reflexivity. Qed.

Lemma jws_signs : signs Jws.lib Jws.sign.
Proof.
  intros key p _. split.
  - exists "hdr", (Jws.body p), ("m" ++ Jws.textBits key)%string, "HS256".
    split; [apply split_sign |]. split.
    { unfold Text.trim. cbn [append]. rewrite ltrim_m. cbn [Text.rtrim].
      unfold Text.blank. rewrite ltrim_m. discriminate. }
    split.
    { cbn [jwsDecode Jws.lib]. unfold Jws.decode.
      rewrite split_sign, split_body, bitsText_textBits, readZ_showZ,
        readExp_showExp.
      now destruct p. }
    split; [left; reflexivity |].
    cbn [jwsVerify Jws.lib]. unfold Jws.verifyMac.
    rewrite split_sign. cbn [String.eqb andb]. apply String.eqb_refl.
  - rewrite spaceless_without. unfold Jws.sign.
    rewrite !without_app, without_body, without_textBits by reflexivity.
    reflexivity.
Qed.

Lemma issued_token_lifetime_witness :
  signs Jws.lib Jws.sign
  /\ generateToken Jws.sign 2000 Sample.issued Sample.aliceId
     = Some (Jws.sign "s3cret"
               {| id := Sample.aliceId; iat := 6000; exp := Some 8000%Z |})
  /\ JWT_SECRET Sample.env = JWT_SECRET Sample.issued
  /\ JWT_SECRET Sample.later = JWT_SECRET Sample.issued
  /\ In Sample.alice (users Sample.db)
  /\ Mongo.castObjectId Sample.aliceId = Some (User._id Sample.alice)
  /\ (now Sample.env / 1000 < now Sample.issued / 1000 + 2000)%Z
  /\ protect Jws.lib Sample.db Sample.env
       (Some ("Bearer "
              ++ Jws.sign "s3cret"
                   {| id := Sample.aliceId; iat := 6000;
                      exp := Some 8000%Z |})%string)
     = Attached (User.withoutPassword Sample.alice)
  /\ (now Sample.issued / 1000 + 2000 <= now Sample.later / 1000)%Z
  /\ protect Jws.lib Sample.db Sample.later
       (Some ("Bearer "
              ++ Jws.sign "s3cret"
                   {| id := Sample.aliceId; iat := 6000;
                      exp := Some 8000%Z |})%string)
     = Rejected invalidToken.
Proof.
  assert (Hin : In Sample.alice (users Sample.db)) by (left; reflexivity).
  assert (Hlt : (now Sample.env / 1000 < now Sample.issued / 1000 + 2000)%Z)
    by reflexivity.
  assert (Hge : (now Sample.issued / 1000 + 2000 <= now Sample.later / 1000)%Z)
    by discriminate.
  split; [exact jws_signs |].
  split; [reflexivity |]. split; [reflexivity |].
  split; [reflexivity |]. split; [exact Hin |]. split; [reflexivity |].
  split; [exact Hlt |].
  split.
  - exact (proj1 (issued_token_lifetime Jws.lib Jws.sign 2000 Sample.db
                    Sample.issued Sample.env Sample.aliceId _
                    Sample.alice jws_signs eq_refl eq_refl
                    (proj2 sample_ids_unique) Hin eq_refl) Hlt).
  - split; [exact Hge |].
    exact (proj2 (issued_token_lifetime Jws.lib Jws.sign 2000 Sample.db
                    Sample.issued Sample.later Sample.aliceId _
                    Sample.alice jws_signs eq_refl eq_refl
                    (proj2 sample_ids_unique) Hin eq_refl) Hge).
Defined.



Lemma form_accepts_server_accepts_witness :
  taskFormValidate ClientSample.form = true
  /\ snd (Validator.run "title"
            [Validator.trim; Validator.notEmpty "Task title is required";
             Validator.isLengthMax 200 "Title cannot exceed 200 characters"]
            (Some (fd_title ClientSample.form))) = []
  /\ snd (Validator.run "title"
            [Validator.Optional; Validator.trim;
             Validator.notEmpty "Title cannot be empty";
             Validator.isLengthMax 200 "Title cannot exceed 200 characters"]
            (Some (fd_title ClientSample.form))) = []
  /\ snd (Validator.run "description"
            [Validator.Optional; Validator.trim;
             Validator.isLengthMax 1000
               "Description cannot exceed 1000 characters"]
            (Some (fd_description ClientSample.form))) = [].
Proof.
  split; [reflexivity |].
  exact (form_accepts_server_accepts ClientSample.form eq_refl).
Defined.

Lemma sample_clicks_offered : Forall offered ClientSample.clicks.
Proof.
  repeat constructor; cbn; tauto.
Defined.

Lemma dashboard_query_accepted_witness :
  Forall offered ClientSample.clicks
  /\ fetchQuery (filtersAfter ClientSample.clicks)
     = {| q_status := None; q_priority := None; q_search := Some "plan";
          q_sortBy := Some "priority"; q_sortOrder := Some "asc" |}
  /\ listAccepted (fetchQuery (filtersAfter ClientSample.clicks))
  /\ forall errors,
       listTasks Sample.db Sample.alice
         (fetchQuery (filtersAfter ClientSample.clicks))
       <> Some (respond 400 (ValidationFailed errors)).
Proof.
  split; [exact sample_clicks_offered |]. split; [reflexivity |].
  exact (dashboard_query_accepted ClientSample.clicks Sample.db Sample.alice
           sample_clicks_offered).
Defined.

Lemma dashboard_delete_agrees_witness :
  uniqueTaskIds Sample.db
  /\ mayAnswer Sample.db Sample.alice Sample.byDueDate
       [Sample.deploy; Sample.report; Sample.review]
  /\ listTasks Sample.db Sample.alice Sample.byDueDate
     = Some (respond 200
               (TaskList 3 [Sample.report; Sample.review; Sample.deploy]))
  /\ Mongo.castObjectId Sample.reviewId = Some (Task._id Sample.review)
  /\ deleteTask Sample.db Sample.alice Sample.reviewId
     = (respond 200 (Message "Task deleted successfully"),
        withTasks Sample.db [Sample.report; Sample.deploy; Sample.budget])
  /\ handleDeleteTask (Task._id Sample.review)
       [Sample.deploy; Sample.report; Sample.review]
     = [Sample.deploy; Sample.report]
  /\ mayAnswer
       (withTasks Sample.db [Sample.report; Sample.deploy; Sample.budget])
       Sample.alice Sample.byDueDate
       (handleDeleteTask (Task._id Sample.review)
          [Sample.deploy; Sample.report; Sample.review]).
Proof.
  assert (Hmay : mayAnswer Sample.db Sample.alice Sample.byDueDate
                   [Sample.deploy; Sample.report; Sample.review]).
  { exists 3, [Sample.report; Sample.review; Sample.deploy].
    split; [reflexivity |]. split.
    - apply (Permutation_cons_append [Sample.report; Sample.review]).
    - repeat constructor. }
  split; [exact (proj1 sample_ids_unique) |].
  split; [exact Hmay |].
  split; [reflexivity |]. split; [reflexivity |]. split; [reflexivity |].
  split; [reflexivity |].
  exact (dashboard_delete_agrees Sample.db _ Sample.alice Sample.byDueDate
           [Sample.deploy; Sample.report; Sample.review] Sample.reviewId
           (Task._id Sample.review) (proj1 sample_ids_unique) Hmay eq_refl
           eq_refl).
Defined.

Lemma get_only_own_witness :
  getTask Sample.db Sample.alice Sample.reportId
  = respond 200 (OneTask Sample.report)
  /\ In Sample.report (tasks Sample.db)
  /\ Task.user Sample.report = User._id Sample.alice
  /\ Mongo.castObjectId Sample.reportId = Some (Task._id Sample.report).
Proof.
  split; [reflexivity |].
  exact (proj1 (get_only_own Sample.db Sample.alice Sample.reportId)
           Sample.report eq_refl).
Defined.

Lemma sample_noQuery_accepted : listAccepted Sample.noQuery.
Proof. repeat split. Defined.

Lemma list_all_own_witness :
  listAccepted Sample.noQuery
  /\ q_status Sample.noQuery = None /\ q_priority Sample.noQuery = None
  /\ q_search Sample.noQuery = None
  /\ exists found,
       listTasks Sample.db Sample.alice Sample.noQuery
       = Some (respond 200 (TaskList (List.length found) found))
       /\ forall t, In t found
                    <-> In t (tasks Sample.db)
                        /\ Task.user t = User._id Sample.alice.
Proof.
  split; [exact sample_noQuery_accepted |].
  repeat (split; [reflexivity |]).
  exact (list_all_own Sample.db Sample.alice Sample.noQuery
           sample_noQuery_accepted eq_refl eq_refl eq_refl).
Defined.
